(** * ADITI backend: the assessment lifecycle of [server.js]

    A shallow embedding of the request handlers of the Express server
    (the file that opens with [// server.js (UPDATED with robust JSON
    parsing)]), of the relational constraints of the SQL migrations, and of
    the older copy of the server kept in [cleanup_docs.js].

    - Request fields are JavaScript values ([JS.value]).
    - The database is a record of tables ([Store]); every [await prisma...]
      is one atomic store operation, and a handler is a computation in a
      small state-and-exception monad that also records the store after
      every committed write, so that what a concurrent reader may observe
      between two awaits is part of a handler's meaning.
    - The library functions the handlers call and whose code is not the
      server's ([Number], [JSON.parse], [JSON.stringify], the two of
      bcrypt, and the completion service's [generateContent] and
      [sendMessage]) are Section variables: every theorem holds for any
      behaviour of theirs. *)

From Stdlib Require Import ZArith List String Ascii Bool Lia.
From Stdlib Require Import Sorting.Sorted Sorting.Permutation.
From Stdlib Require Import DecimalString.
Import ListNotations.

Set Warnings "-register-all".

Local Open Scope string_scope.
Local Open Scope Z_scope.

(** ** The JavaScript fragment the handlers use *)

Module JS.

(** A JSON-shaped JavaScript value.  [VNum] is an integer-valued number,
    [VDec] a number that is not an integer (kept as its literal), such as
    the option weights [0.7]. *)
Inductive value : Type :=
| VUndefined
| VNull
| VBool (b : bool)
| VNum (n : Z)
| VDec (literal : string)
| VStr (s : string)
| VArr (items : list value)
| VObj (fields : list (string * value)).

(** ToBoolean: what [!x] and [x || y] test.  A [VDec] is never zero. *)
Definition truthy (v : value) : bool :=
  match v with
  | VUndefined | VNull => false
  | VBool b => b
  | VNum n => negb (n =? 0)
  | VDec _ => true
  | VStr s => negb (String.eqb s "")
  | VArr _ | VObj _ => true
  end.

(** [a || b] *)
Definition or_else (a b : value) : value := if truthy a then a else b.

(** A thrown error object: the fields the handlers read. *)
Record JsError : Type := mkError {
  name : string;
  message : string;
  status : option Z;      (* error.status, when it is a number *)
  code : option string    (* error.code, Prisma's P-codes *)
}.

Definition Error (msg : string) : JsError := mkError "Error" msg None None.
Definition TypeError (msg : string) : JsError := mkError "TypeError" msg None None.
Definition SyntaxError (msg : string) : JsError := mkError "SyntaxError" msg None None.

(** Error.prototype.toString *)
Definition toString (e : JsError) : string :=
  if String.eqb (name e) "" then message e
  else if String.eqb (message e) "" then name e
  else name e ++ ": " ++ message e.

(** [s.indexOf(c)] for a one-character needle: the index of its first
    occurrence, [-1] when there is none. *)
Fixpoint indexOf_from (c : ascii) (s : string) (i : Z) : Z :=
  match s with
  | EmptyString => -1
  | String d t => if Ascii.eqb d c then i else indexOf_from c t (i + 1)
  end.

Definition indexOf (s : string) (c : ascii) : Z := indexOf_from c s 0.

(** [s.lastIndexOf(c)]: the index of the last occurrence, [-1] when none. *)
Fixpoint lastIndexOf_from (c : ascii) (s : string) (i found : Z) : Z :=
  match s with
  | EmptyString => found
  | String d t => lastIndexOf_from c t (i + 1) (if Ascii.eqb d c then i else found)
  end.

Definition lastIndexOf (s : string) (c : ascii) : Z := lastIndexOf_from c s 0 (-1).

(** [s.substring(a, b)]: both bounds are clamped to [0 .. s.length] and
    swapped when [a > b]. *)
Definition clamp (n len : Z) : Z := Z.max 0 (Z.min n len).

Definition substring (s : string) (a b : Z) : string :=
  let len := Z.of_nat (String.length s) in
  let a' := clamp a len in
  let b' := clamp b len in
  let lo := Z.min a' b' in
  let hi := Z.max a' b' in
  String.substring (Z.to_nat lo) (Z.to_nat (hi - lo)) s.

(** [s.includes(pat)] *)
Fixpoint includes (s pat : string) : bool :=
  if String.prefix pat s then true
  else match s with
       | EmptyString => false
       | String _ t => includes t pat
       end.

(** [s.replace(/pat/g, rep)] for a literal, non-empty pattern: matches are
    taken left to right and do not overlap.  [skip] counts the characters
    of the current match still to be dropped. *)
Fixpoint replace_from (pat rep : string) (skip : nat) (s : string) : string :=
  match s with
  | EmptyString => EmptyString
  | String c t =>
      match skip with
      | S k => replace_from pat rep k t
      | O =>
          if String.prefix pat s
          then rep ++ replace_from pat rep (Nat.pred (String.length pat)) t
          else String c (replace_from pat rep 0 t)
      end
  end.

Definition replaceAll (s pat rep : string) : string := replace_from pat rep 0 s.

(** The decimal rendering of a number inside a template literal. *)
Definition decimal (n : Z) : string := NilZero.string_of_int (Z.to_int n).

(** The one-character string holding a double quote. *)
Definition dquote : string := String (ascii_of_nat 34) EmptyString.

End JS.

Import JS.

(** ** The persistent store

    One record per table of the migrations, with the columns of later
    migrations that the handlers write ([lastAccessed], [breakdown],
    [language], [originalName], [docType]).  Timestamps are integers
    (milliseconds). *)

Record Customer : Type := mkCustomer {
  c_id : Z;
  c_fname : string;
  c_lname : string;
  c_gender : string;
  c_age : Z;
  c_mobile : string;
  c_email : string;
  c_pan : string;
  c_accountNumber : string;
  c_password : string;
  c_createdAt : Z;
  c_updatedAt : Z;
  c_lastAccessed : Z
}.

Record Assessment : Type := mkAssessment {
  a_id : Z;
  a_score : Z;
  a_status : string;
  a_answers : value;
  a_breakdown : value;
  a_language : string;
  a_customerId : Z;
  a_createdAt : Z;
  a_updatedAt : Z
}.

Record Message : Type := mkMessage {
  m_id : Z;
  m_sender : string;
  m_text : string;
  m_createdAt : Z;
  m_assessmentId : Z
}.

Record Document : Type := mkDocument {
  d_id : Z;
  d_fileName : string;
  d_originalName : string;
  d_filePath : string;
  d_docType : option string;
  d_uploadDate : Z;
  d_assessmentId : Z
}.

(** The tables, and the three SERIAL sequences the handlers draw from. *)
Record Store : Type := mkStore {
  customers : list Customer;
  assessments : list Assessment;
  messages : list Message;
  documents : list Document;
  assessment_seq : Z;
  message_seq : Z;
  document_seq : Z
}.

(** Two stores hold the same rows (their sequences may differ). *)
Definition same_rows (s s' : Store) : Prop :=
  customers s' = customers s /\ assessments s' = assessments s /\
  messages s' = messages s /\ documents s' = documents s.

Definition has_customer (s : Store) (id : Z) : bool :=
  existsb (fun c => c_id c =? id) (customers s).

Definition has_assessment (s : Store) (id : Z) : bool :=
  existsb (fun a => a_id a =? id) (assessments s).

(** ** Handlers as computations

    A computation runs from a store to a final store, the list of the
    stores committed on the way (one per write that succeeded, oldest
    first) and either a thrown error or a value.  A throw keeps what was
    committed before it: nothing in the server opens a transaction. *)

Record Outcome (A : Type) : Type := mkOutcome {
  final : Store;
  commits : list Store;
  result : JsError + A
}.
Arguments mkOutcome {A}.
Arguments final {A}.
Arguments commits {A}.
Arguments result {A}.

Definition M (A : Type) : Type := Store -> Outcome A.

Definition ret {A} (x : A) : M A := fun s => mkOutcome s [] (inr x).

Definition throw {A} (e : JsError) : M A := fun s => mkOutcome s [] (inl e).

Definition bind {A B} (m : M A) (k : A -> M B) : M B :=
  fun s =>
    let o := m s in
    match result o with
    | inl e => mkOutcome (final o) (commits o) (inl e)
    | inr x =>
        let o' := k x (final o) in
        mkOutcome (final o') (commits o ++ commits o')%list (result o')
    end.

Notation "x <- m ;; k" := (bind m (fun x => k))
  (at level 61, m at next level, right associativity).
Notation "m ;;; k" := (bind m (fun _ => k))
  (at level 61, right associativity).

(** Reading the store, and a write that commits the store it produces. *)
Definition get : M Store := fun s => mkOutcome s [] (inr s).

Definition commit (s' : Store) : M unit := fun _ => mkOutcome s' [s'] (inr tt).

(** A change of the store that is not a row (a sequence drawn). *)
Definition put_silently (s' : Store) : M unit := fun _ => mkOutcome s' [] (inr tt).

(** What a handler sends back. *)
Inductive Body : Type :=
| ErrorBody (error : string)
| AssessmentBody (msg : string) (assessment : Assessment)
| UpdatedBody (msg : string) (updatedAssessment : Assessment)
| DocumentBody (msg : string) (document : Document)
| NewMessageBody (msg : string) (newMessage : Message)
| MessagesBody (msgs : list Message)
| JsonBody (v : value).

Record Response : Type := mkResponse {
  http : Z;
  body : Body
}.

(** [try { ... } catch (error) { ... }] around a handler's body. *)
Record Handled : Type := mkHandled {
  after : Store;
  observable : list Store;
  response : Response
}.

Definition try_catch (tried : M Response) (handler : JsError -> Response)
  : Store -> Handled :=
  fun s =>
    let o := tried s in
    mkHandled (final o) (commits o)
      (match result o with
       | inl e => handler e
       | inr r => r
       end).

(** ** The Prisma client over the store

    The errors Prisma raises.  Only [code] is Prisma's own word; the message
    texts stand for whatever Prisma prints. *)

Definition PrismaValidation : JsError :=
  mkError "PrismaClientValidationError" "Invalid invocation: an argument is missing or has the wrong type" None None.

(** P2003: an INSERT broke a FOREIGN KEY constraint of the migrations. *)
Definition ForeignKeyViolation : JsError :=
  mkError "PrismaClientKnownRequestError" "Foreign key constraint violated" None (Some "P2003").

(** P2025: the row an update names does not exist. *)
Definition RecordNotFound : JsError :=
  mkError "PrismaClientKnownRequestError" "Record to update not found" None (Some "P2025").

(** An INTEGER column holds a signed 32-bit number. *)
Definition int4 (n : Z) : bool := (-2147483648 <=? n) && (n <=? 2147483647).

(** Argument checks, made by the client before the database is reached.
    [None] is what [Number(...)] gives when it is no integer (NaN, a
    fraction). *)
Definition as_int (x : option Z) : M Z :=
  match x with
  | Some n => if int4 n then ret n else throw PrismaValidation
  | None => throw PrismaValidation
  end.

Definition as_string (v : value) : M string :=
  match v with
  | VStr s => ret s
  | _ => throw PrismaValidation
  end.

(** A required JSONB column: the argument must be there. *)
Definition as_json (v : value) : M value :=
  match v with
  | VUndefined | VNull => throw PrismaValidation
  | _ => ret v
  end.

(** An optional TEXT column: absent, or a string. *)
Definition as_optional_string (v : value) : M (option string) :=
  match v with
  | VUndefined => ret None
  | VStr s => ret (Some s)
  | _ => throw PrismaValidation
  end.

Definition set_assessments (s : Store) (rows : list Assessment) (seq : Z) : Store :=
  mkStore (customers s) rows (messages s) (documents s) seq (message_seq s) (document_seq s).

Definition set_customers (s : Store) (rows : list Customer) : Store :=
  mkStore rows (assessments s) (messages s) (documents s)
          (assessment_seq s) (message_seq s) (document_seq s).

Definition set_messages (s : Store) (rows : list Message) (seq : Z) : Store :=
  mkStore (customers s) (assessments s) rows (documents s)
          (assessment_seq s) seq (document_seq s).

Definition set_documents (s : Store) (rows : list Document) (seq : Z) : Store :=
  mkStore (customers s) (assessments s) (messages s) rows
          (assessment_seq s) (message_seq s) seq.

(** [prisma.assessment.create({ data })].  The INSERT draws the next id of
    the sequence whether or not the row is accepted; the row is accepted
    when [Assessment_customerId_fkey] holds. *)
Record AssessmentData : Type := mkAssessmentData {
  data_customerId : option Z;
  data_score : Z;
  data_answers : value;
  data_breakdown : value;
  data_status : string;
  data_language : value
}.

Definition assessment_create (d : AssessmentData) (now : Z) : M Assessment :=
  cid <- as_int (data_customerId d) ;;
  sc <- as_int (Some (data_score d)) ;;
  ans <- as_json (data_answers d) ;;
  lang <- as_string (data_language d) ;;
  s <- get ;;
  let id := assessment_seq s in
  if has_customer s cid then
    let row := mkAssessment id sc (data_status d) ans (data_breakdown d) lang cid now now in
    commit (set_assessments s (assessments s ++ [row])%list (id + 1)) ;;;
    ret row
  else
    put_silently (set_assessments s (assessments s) (id + 1)) ;;;
    throw ForeignKeyViolation.

(** [prisma.customer.update({ where: { id }, data: { lastAccessed } })] *)
Definition touch (t : Z) (c : Customer) : Customer :=
  mkCustomer (c_id c) (c_fname c) (c_lname c) (c_gender c) (c_age c) (c_mobile c)
             (c_email c) (c_pan c) (c_accountNumber c) (c_password c)
             (c_createdAt c) t t.

Definition customer_update_lastAccessed (id : option Z) (t : Z) : M Customer :=
  n <- as_int id ;;
  s <- get ;;
  match find (fun c => c_id c =? n) (customers s) with
  | None => throw RecordNotFound
  | Some c =>
      commit (set_customers s
                (map (fun x => if c_id x =? n then touch t x else x) (customers s))) ;;;
      ret (touch t c)
  end.

(** [prisma.assessment.update({ where: { id }, data: { status } })].  An
    undefined [status] leaves the column alone; the client stamps
    [updatedAt] itself. *)
Definition restatus (st : option string) (now : Z) (a : Assessment) : Assessment :=
  mkAssessment (a_id a) (a_score a)
               (match st with Some s => s | None => a_status a end)
               (a_answers a) (a_breakdown a) (a_language a) (a_customerId a)
               (a_createdAt a) now.

Definition assessment_update_status (id : option Z) (status : value) (now : Z)
  : M Assessment :=
  n <- as_int id ;;
  st <- as_optional_string status ;;
  s <- get ;;
  match find (fun a => a_id a =? n) (assessments s) with
  | None => throw RecordNotFound
  | Some a =>
      commit (set_assessments s
                (map (fun x => if a_id x =? n then restatus st now x else x)
                     (assessments s))
                (assessment_seq s)) ;;;
      ret (restatus st now a)
  end.

(** [prisma.document.create({ data })], under [Document_assessmentId_fkey]. *)
Record DocumentData : Type := mkDocumentData {
  data_fileName : string;
  data_originalName : string;
  data_filePath : string;
  data_doc_assessmentId : option Z;
  data_docType : value
}.

Definition document_create (d : DocumentData) (now : Z) : M Document :=
  aid <- as_int (data_doc_assessmentId d) ;;
  ty <- as_optional_string (data_docType d) ;;
  s <- get ;;
  let id := document_seq s in
  if has_assessment s aid then
    let row := mkDocument id (data_fileName d) (data_originalName d) (data_filePath d)
                          ty now aid in
    commit (set_documents s (documents s ++ [row])%list (id + 1)) ;;;
    ret row
  else
    put_silently (set_documents s (documents s) (id + 1)) ;;;
    throw ForeignKeyViolation.

(** [prisma.message.create({ data })], under [Message_assessmentId_fkey]. *)
Definition message_create (assessmentId : option Z) (sender text : value) (now : Z)
  : M Message :=
  aid <- as_int assessmentId ;;
  sd <- as_string sender ;;
  tx <- as_string text ;;
  s <- get ;;
  let id := message_seq s in
  if has_assessment s aid then
    let row := mkMessage id sd tx now aid in
    commit (set_messages s (messages s ++ [row])%list (id + 1)) ;;;
    ret row
  else
    put_silently (set_messages s (messages s) (id + 1)) ;;;
    throw ForeignKeyViolation.

(** [orderBy: { createdAt: 'asc' }]: rows with equal stamps keep the order
    of the table. *)
Fixpoint insert_by_createdAt (m : Message) (l : list Message) : list Message :=
  match l with
  | [] => [m]
  | x :: t =>
      if m_createdAt m <=? m_createdAt x then m :: l
      else x :: insert_by_createdAt m t
  end.

Definition orderBy_createdAt_asc (l : list Message) : list Message :=
  fold_right insert_by_createdAt [] l.

(** [prisma.message.findMany({ where: { assessmentId }, orderBy })] *)
Definition message_findMany (assessmentId : option Z) : M (list Message) :=
  aid <- as_int assessmentId ;;
  s <- get ;;
  ret (orderBy_createdAt_asc
         (filter (fun m => m_assessmentId m =? aid) (messages s))).

(** ** Scoring: the status computed at submission *)

(** [if (score >= 700) ... else if (score >= 500) ... else ...] *)
Definition decide (score : Z) : string :=
  if score >=? 700 then "Approved"
  else if score >=? 500 then "Manual Review"
  else "Rejected".

(** The same lines of [cleanup_docs.js], the older copy of the server. *)
Definition cleanup_docs_decide (score : Z) : string :=
  if score >=? 750 then "Approved"
  else if score >=? 600 then "Manual Review"
  else "Rejected".

(** ** The sanitizer and the renumbering of generated questions *)

(** [text.indexOf('[')], [text.lastIndexOf(']')], the test for [-1] and
    [text.substring(jsonStart, jsonEnd + 1)]. *)
Definition extractJsonArray (text : string) : JsError + string :=
  let jsonStart := indexOf text "["%char in
  let jsonEnd := lastIndexOf text "]"%char in
  if (jsonStart =? -1) || (jsonEnd =? -1)
  then inl (Error "AI response did not contain a valid JSON array.")
  else inr (substring text jsonStart (jsonEnd + 1)).

(** [obj[k] = v] on a plain object: an existing key keeps its place, a new
    key goes last. *)
Fixpoint set_field (k : string) (v : value) (fields : list (string * value))
  : list (string * value) :=
  match fields with
  | [] => [(k, v)]
  | (k', v') :: rest =>
      if String.eqb k' k then (k, v) :: rest
      else (k', v') :: set_field k v rest
  end.

Fixpoint get_field (k : string) (fields : list (string * value)) : option value :=
  match fields with
  | [] => None
  | (k', v') :: rest => if String.eqb k' k then Some v' else get_field k rest
  end.

(** [q.id = id] as the response shows it.  The file is not in strict mode:
    on a number, string or boolean the assignment does nothing; on [null]
    it throws; on an array it sets a property that [res.json] does not
    print. *)
Definition set_id (q : value) (id : string) : JsError + value :=
  match q with
  | VObj fields => inr (VObj (set_field "id" (VStr id) fields))
  | VNull | VUndefined =>
      inl (TypeError "Cannot set properties of null (setting 'id')")
  | _ => inr q
  end.

(** [jsonResponse.forEach((q, index) => { q.id = `dynamic_question_${index + 1}` })] *)
Fixpoint renumber_from (index : Z) (items : list value) : JsError + list value :=
  match items with
  | [] => inr []
  | q :: rest =>
      match set_id q ("dynamic_question_" ++ decimal (index + 1)) with
      | inl e => inl e
      | inr q' =>
          match renumber_from (index + 1) rest with
          | inl e => inl e
          | inr rest' => inr (q' :: rest')
          end
      end
  end.

(** ** Errors of the completion service *)

Definition isRateLimitError (error : JsError) : bool :=
  match status error with
  | Some n => n =? 429
  | None => false
  end || includes (toString error) "429".

Definition rate_limit_text : string :=
  "Could not complete request due to high traffic (API rate limit exceeded). Please try again later.".

Definition handleGeminiError (error : JsError) (context : string) : Response :=
  if isRateLimitError error
  then mkResponse 429 (ErrorBody rate_limit_text)
  else mkResponse 500 (ErrorBody ("Failed to " ++ replaceAll context "ing" "e")).

(** ** Requests *)

Record SubmitRequest : Type := mkSubmit {
  customerId : value;
  score : Z;
  answers : value;
  breakdown : value;
  language : value
}.

(** What multer leaves of a multipart request: the stored file, if one was
    sent, and the text fields, each a string or absent. *)
Record File : Type := mkFile {
  filename : string;
  originalname : string
}.

Record UploadRequest : Type := mkUpload {
  file : option File;
  assessmentId : option string;
  docType : option string
}.

Definition field (f : option string) : value :=
  match f with
  | Some s => VStr s
  | None => VUndefined
  end.

(** The two parts of the prompt that vary; the rest is fixed text. *)
Record Prompt : Type := mkPrompt {
  targetLanguage : string;
  excludedTopics : string
}.

(** The three members of the object literal
    [{ en: 'English', hi: 'Hindi', te: 'Telugu' }]. *)
Definition own_language (key : string) : option string :=
  if String.eqb key "en" then Some "English"
  else if String.eqb key "hi" then Some "Hindi"
  else if String.eqb key "te" then Some "Telugu"
  else None.

(** How Node prints a built-in function inside a template literal. *)
Definition native_code (fname : string) : string :=
  "function " ++ fname ++ "() { [native code] }".

(** The members an object literal inherits from [Object.prototype], each as
    the template literal of the prompt prints it: [constructor] is
    [Object], [__proto__] is the prototype itself, the others are methods
    printed under their own names. *)
Definition Object_prototype (key : string) : option string :=
  if String.eqb key "constructor" then Some (native_code "Object")
  else if String.eqb key "__proto__" then Some "[object Object]"
  else if existsb (String.eqb key)
            ["toString"; "toLocaleString"; "valueOf"; "hasOwnProperty";
             "isPrototypeOf"; "propertyIsEnumerable"; "__defineGetter__";
             "__defineSetter__"; "__lookupGetter__"; "__lookupSetter__"]
       then Some (native_code key)
  else None.

(** [languageMap[language] || 'English'] as the prompt prints it.  The
    lookup goes by the property key of [language]: a string is its own
    key; an array of one item has the key of that item, and any other
    array, a number, a boolean, [null], [undefined] and a plain object have
    keys ([a,b], [7], [true], [[object Object]], ...) that name no member.
    An own member wins over an inherited one, and every member found is
    truthy.  (An object with a member [toString] of its own has no key: the
    lookup itself throws, and such a [language] is not among the requests
    modelled here.) *)
Fixpoint languageMap (language : value) : string :=
  match language with
  | VStr key =>
      match own_language key with
      | Some targetLanguage => targetLanguage
      | None =>
          match Object_prototype key with
          | Some inherited => inherited
          | None => "English"
          end
      end
  | VArr [item] => languageMap item
  | _ => "English"
  end.

(** [coreQuestionIds] is [None] when the body has no array there, and
    [.join] then throws. *)
Record GenerateRequest : Type := mkGenerate {
  coreQuestionIds : option (list string);
  gen_language : value
}.

(** What a call of the questions endpoint leaves: the response, and the
    prompts sent to the completion service, in order. *)
Record Generated : Type := mkGenerated {
  reply : Response;
  calls : list Prompt
}.

(** ** Vocabulary of the statements *)

(** A required JSON argument is there. *)
Definition present (v : value) : bool :=
  match v with
  | VUndefined | VNull => false
  | _ => true
  end.

Definition is_string (v : value) : bool :=
  match v with
  | VStr _ => true
  | _ => false
  end.

Definition submitted : string := "Assessment submitted successfully!".

(** The character [c] occurs in [s]. *)
Fixpoint occurs (c : ascii) (s : string) : bool :=
  match s with
  | EmptyString => false
  | String d t => Ascii.eqb d c || occurs c t
  end.

(** [out] is the part of [text] from its first opening bracket to its last
    closing bracket, both included. *)
Definition bracketed (text out : string) : Prop :=
  exists pre mid post,
    text = pre ++ "[" ++ mid ++ "]" ++ post /\
    out = "[" ++ mid ++ "]" /\
    occurs "["%char pre = false /\ occurs "]"%char post = false.

(** The items of a question array are objects; [field_of] reads one of
    their fields. *)
Definition is_object (v : value) : bool :=
  match v with
  | VObj _ => true
  | _ => false
  end.

Definition field_of (k : string) (v : value) : option value :=
  match v with
  | VObj fields => get_field k fields
  | _ => None
  end.

Definition no_array : JsError := Error "AI response did not contain a valid JSON array.".

Definition generation_failed : Response :=
  mkResponse 500 (ErrorBody "Failed to generate dynamic questions").

Definition rate_limited : Response := mkResponse 429 (ErrorBody rate_limit_text).

(** Message [a] was created no later than message [b]. *)
Definition earlier (a b : Message) : Prop := m_createdAt a <= m_createdAt b.

(** Assessment [a'] is [a] up to its status and its update stamp, and is
    [a] itself when [a] is not the assessment [n]. *)
Definition unchanged_but_status (n : Z) (a a' : Assessment) : Prop :=
  a_id a' = a_id a /\ a_score a' = a_score a /\ a_answers a' = a_answers a /\
  a_breakdown a' = a_breakdown a /\ a_customerId a' = a_customerId a /\
  a_language a' = a_language a /\ a_createdAt a' = a_createdAt a /\
  (a_id a <> n -> a' = a).

Definition uploaded : string := "Document uploaded successfully.".

Definition nothing_to_upload : Response :=
  mkResponse 400 (ErrorBody "No file or assessment ID provided.").

(** ** Sample data

    An instance of each library function, a few stores and requests: the
    concrete inputs on which the theorems below are exercised. *)

(** [Number] on what the samples pass: numbers, and strings of decimal
    digits. *)
Definition Number_decimal (v : value) : option Z :=
  match v with
  | VNum n => Some n
  | VStr s => option_map Z.of_int (NilZero.int_of_string s)
  | _ => None
  end.

(** A parser that knows one text: two questions with ids of the model's
    own making. *)
Definition two_questions : value :=
  VArr [VObj [("id", VStr "x"); ("question", VStr "Do you budget?")];
        VObj [("question", VStr "Do you save?"); ("id", VNum 42)]].

Definition JSON_parse_sample (s : string) : string + value :=
  if String.eqb s "[two questions]" then inr two_questions
  else inl "Unexpected token".

Definition service_answers (text : string) (p : Prompt) : JsError + string := inr text.

Definition service_fails (e : JsError) (p : Prompt) : JsError + string := inl e.

Definition quota_error : JsError :=
  mkError "Error" "[GoogleGenerativeAI Error]: Too Many Requests" (Some 429) None.

(** A refusal that has nothing to do with quota: the prompt is too long. *)
Definition too_long_error : JsError :=
  mkError "Error"
          "[GoogleGenerativeAI Error]: The input token count (1429) exceeds the maximum"
          (Some 400) None.

Definition alice : Customer :=
  mkCustomer 1 "Alice" "Rao" "F" 30 "9000000001" "alice@example.com" "ABCDE1234F"
             "000123" "hash" 0 0 0.

Definition no_rows : Store := mkStore [] [] [] [] 1 1 1.

Definition one_customer : Store := mkStore [alice] [] [] [] 1 1 1.

Definition first_assessment : Assessment :=
  mkAssessment 1 720 "Approved" (VObj []) VUndefined "en" 1 10 10.

(** Customer 1 with one assessment and three messages that were stored out
    of order of their stamps. *)
Definition a_thread : Store :=
  mkStore [alice] [first_assessment]
          [mkMessage 1 "Bank Manager" "Please send your payslip" 30 1;
           mkMessage 2 "System" "uploaded" 20 1;
           mkMessage 3 "Customer" "Done" 25 1]
          [] 2 4 1.

Definition submit_720 : SubmitRequest :=
  mkSubmit (VNum 1) 720 (VObj []) VUndefined VUndefined.

Definition submit_for_5 : SubmitRequest :=
  mkSubmit (VNum 5) 720 (VObj []) VUndefined VUndefined.

Definition payslip : UploadRequest :=
  mkUpload (Some (mkFile "document-1-abc.pdf" "payslip.pdf")) (Some "1") (Some "Payslip").

Definition no_file : UploadRequest := mkUpload None (Some "1") (Some "Payslip").

Definition ask : GenerateRequest := mkGenerate (Some ["income"; "savings"]) (VStr "hi").

(** ** The rest of the Prisma client: reads, accounts, bank users *)

(** [orderBy: { createdAt: 'desc' }] on assessments: newest first, rows of
    equal stamps in the order of the table. *)
Fixpoint insert_newest_first (a : Assessment) (l : list Assessment) : list Assessment :=
  match l with
  | [] => [a]
  | x :: t =>
      if a_createdAt x <=? a_createdAt a then a :: l
      else x :: insert_newest_first a t
  end.

Definition orderBy_createdAt_desc (l : list Assessment) : list Assessment :=
  fold_right insert_newest_first [] l.

(** [include: { messages: true, documents: true }] *)
Record Thread : Type := mkThread {
  thread_assessment : Assessment;
  thread_messages : list Message;
  thread_documents : list Document
}.

Definition include_thread (s : Store) (a : Assessment) : Thread :=
  mkThread a
    (filter (fun m => m_assessmentId m =? a_id a) (messages s))
    (filter (fun d => d_assessmentId d =? a_id a) (documents s)).

(** [where: { customerId }, orderBy: { createdAt: 'desc' }], first row,
    with its thread: the query of [findFirst] and of the login's
    [assessments: { ..., take: 1 }]. *)
Definition latest_of (s : Store) (cid : Z) : option Thread :=
  option_map (include_thread s)
    (hd_error (orderBy_createdAt_desc
                 (filter (fun a => a_customerId a =? cid) (assessments s)))).

(** [prisma.assessment.findFirst({ where, orderBy, include })] *)
Definition assessment_findFirst (customerId : option Z) : M (option Thread) :=
  cid <- as_int customerId ;;
  s <- get ;;
  ret (latest_of s cid).

(** [include: { customer: { select: { fname, lname } }, documents: true }].
    The relation is required: a row whose customer is gone makes the client
    throw. *)
Record Listed : Type := mkListed {
  listed_assessment : Assessment;
  listed_customer : string * string;
  listed_documents : list Document
}.

Definition InconsistentResult : JsError :=
  mkError "PrismaClientUnknownRequestError" "Inconsistent query result" None None.

Definition include_customer (s : Store) (a : Assessment) : JsError + Listed :=
  match find (fun c => c_id c =? a_customerId a) (customers s) with
  | Some c =>
      inr (mkListed a (c_fname c, c_lname c)
             (filter (fun d => d_assessmentId d =? a_id a) (documents s)))
  | None => inl InconsistentResult
  end.

Fixpoint include_customers (s : Store) (l : list Assessment) : JsError + list Listed :=
  match l with
  | [] => inr []
  | a :: rest =>
      match include_customer s a with
      | inl e => inl e
      | inr row =>
          match include_customers s rest with
          | inl e => inl e
          | inr rows => inr (row :: rows)
          end
      end
  end.

(** [prisma.assessment.findMany({ include, orderBy: { createdAt: 'desc' } })] *)
Definition assessment_findMany : M (list Listed) :=
  s <- get ;;
  match include_customers s (orderBy_createdAt_desc (assessments s)) with
  | inl e => throw e
  | inr rows => ret rows
  end.

(** [prisma.customer.findUnique({ where: { email } })] *)
Definition customer_findUnique (email : value) : M (option Customer) :=
  e <- as_string email ;;
  s <- get ;;
  ret (find (fun c => String.eqb (c_email c) e) (customers s)).

(** The store with the sequence of customer ids, which registration draws
    from. *)
Record Registry : Type := mkRegistry {
  rows : Store;
  customer_seq : Z
}.

(** P2002: an INSERT broke one of the UNIQUE indexes of the migrations. *)
Definition UniqueViolation : JsError :=
  mkError "PrismaClientKnownRequestError" "Unique constraint failed" None (Some "P2002").

Record CustomerInput : Type := mkCustomerInput {
  in_fname : value;
  in_lname : value;
  in_gender : value;
  in_age : option Z;
  in_mobile : value;
  in_email : value;
  in_pan : value;
  in_accountNumber : value;
  in_password : string
}.

Definition text_of (v : value) : option string :=
  match v with
  | VStr s => Some s
  | _ => None
  end.

Definition int_of (x : option Z) : option Z :=
  match x with
  | Some n => if int4 n then Some n else None
  | None => None
  end.

(** [Customer_mobile_key], [Customer_email_key], [Customer_pan_key] and
    [Customer_accountNumber_key]: some row already holds one of the four. *)
Definition taken (l : list Customer) (mobile email pan accountNumber : string) : bool :=
  existsb (fun c => String.eqb (c_mobile c) mobile || String.eqb (c_email c) email
                    || String.eqb (c_pan c) pan
                    || String.eqb (c_accountNumber c) accountNumber) l.

Definition add_customer (r : Registry) (c : Customer) : Registry :=
  mkRegistry (set_customers (rows r) (customers (rows r) ++ [c])%list) (customer_seq r + 1).

(** The arguments as the client accepts them: eight strings and an
    integer of the column's range. *)
Record CustomerFields : Type := mkCustomerFields {
  ok_fname : string;
  ok_lname : string;
  ok_gender : string;
  ok_age : Z;
  ok_mobile : string;
  ok_email : string;
  ok_pan : string;
  ok_accountNumber : string
}.

Definition checked (d : CustomerInput) : option CustomerFields :=
  match text_of (in_fname d), text_of (in_lname d), text_of (in_gender d),
        int_of (in_age d), text_of (in_mobile d), text_of (in_email d),
        text_of (in_pan d), text_of (in_accountNumber d) with
  | Some fname, Some lname, Some gender, Some age, Some mobile, Some email,
    Some pan, Some accountNumber =>
      Some (mkCustomerFields fname lname gender age mobile email pan accountNumber)
  | _, _, _, _, _, _, _, _ => None
  end.

(** [prisma.customer.create({ data })]: the arguments are checked by the
    client; the INSERT draws an id and is refused when a unique index
    breaks. *)
Definition customer_create (d : CustomerInput) (now : Z) (r : Registry)
  : Registry * (JsError + Customer) :=
  match checked d with
  | Some data =>
      if taken (customers (rows r)) (ok_mobile data) (ok_email data) (ok_pan data)
               (ok_accountNumber data)
      then (mkRegistry (rows r) (customer_seq r + 1), inl UniqueViolation)
      else
        let c := mkCustomer (customer_seq r) (ok_fname data) (ok_lname data)
                            (ok_gender data) (ok_age data) (ok_mobile data)
                            (ok_email data) (ok_pan data) (ok_accountNumber data)
                            (in_password d) now now now in
        (add_customer r c, inr c)
  | None => (r, inl PrismaValidation)
  end.

(** The table of bank users, unique on [username]. *)
Record BankUser : Type := mkBankUser {
  b_id : Z;
  b_username : string;
  b_password : string
}.

Record Bank : Type := mkBank {
  bankUsers : list BankUser;
  bankUser_seq : Z
}.

(** [prisma.bankUser.findUnique({ where: { username } })] *)
Definition bankUser_findUnique (username : string) (b : Bank) : option BankUser :=
  find (fun u => String.eqb (b_username u) username) (bankUsers b).

(** [prisma.bankUser.create({ data: { username, password } })] *)
Definition bankUser_create (username password : string) (b : Bank) : Bank * (JsError + BankUser) :=
  if existsb (fun u => String.eqb (b_username u) username) (bankUsers b)
  then (mkBank (bankUsers b) (bankUser_seq b + 1), inl UniqueViolation)
  else
    let u := mkBankUser (bankUser_seq b) username password in
    (mkBank (bankUsers b ++ [u])%list (bankUser_seq b + 1), inr u).

(** [prisma.bankUser.update({ where: { username }, data: { password } })] *)
Definition bankUser_update (username password : string) (b : Bank) : Bank * (JsError + BankUser) :=
  match bankUser_findUnique username b with
  | None => (b, inl RecordNotFound)
  | Some u =>
      (mkBank (map (fun x => if String.eqb (b_username x) username
                             then mkBankUser (b_id x) (b_username x) password
                             else x) (bankUsers b))
              (bankUser_seq b),
       inr (mkBankUser (b_id u) (b_username u) password))
  end.

(** ** More requests and replies *)

(** The reply of an endpoint that reads: a status, and either the text of
    [{ error }] or a body. *)
Record Answer (B : Type) : Type := mkAnswer {
  answer_http : Z;
  answer_body : string + B
}.
Arguments mkAnswer {B}.
Arguments answer_http {B}.
Arguments answer_body {B}.

(** [try { ... } catch (error) { ... }] around a handler that only reads. *)
Definition try_read {B} (tried : M (Answer B)) (handler : JsError -> Answer B)
  : Store -> Answer B :=
  fun s =>
    match result (tried s) with
    | inl e => handler e
    | inr r => r
    end.

Record RegisterRequest : Type := mkRegister {
  fname : value;
  lname : value;
  gender : value;
  age : value;
  mobile : value;
  email : value;
  pan : value;
  accountNumber : value;
  password : value
}.

(** [{ message, customer: { id, fname, lname, email } }] *)
Record Registered : Type := mkRegistered {
  registered_message : string;
  registered_id : Z;
  registered_fname : string;
  registered_lname : string;
  registered_email : string
}.

(** A customer row without its password: [...customerData]. *)
Record CustomerData : Type := mkCustomerData {
  data_id : Z;
  data_fname : string;
  data_lname : string;
  data_gender : string;
  data_age : Z;
  data_mobile : string;
  data_email : string;
  data_pan : string;
  data_accountNumber : string;
  data_createdAt : Z;
  data_updatedAt : Z;
  data_lastAccessed : Z
}.

Definition customerData (c : Customer) : CustomerData :=
  mkCustomerData (c_id c) (c_fname c) (c_lname c) (c_gender c) (c_age c) (c_mobile c)
                 (c_email c) (c_pan c) (c_accountNumber c) (c_createdAt c)
                 (c_updatedAt c) (c_lastAccessed c).

(** [{ message, customer, latestAssessment }] *)
Record LoggedIn : Type := mkLoggedIn {
  login_message : string;
  login_customer : CustomerData;
  latestAssessment : option Thread
}.

(** What [bcrypt.hash] and [bcrypt.compare] throw on an argument that is
    not a string. *)
Definition IllegalArguments : JsError := Error "Illegal arguments".

(** What the seeding script prints, and how it ends. *)
Record Seeded : Type := mkSeeded {
  bank_after : Bank;
  printed : list string;
  exit_code : Z
}.

(** What a call of the summary endpoint leaves: the response, and the
    messages sent to the completion service. *)
Record Summarised : Type := mkSummarised {
  summary_reply : Response;
  sent : list value
}.

(** [{ message, user: { username } }] *)
Record BankLoggedIn : Type := mkBankLoggedIn {
  bank_message : string;
  bank_username : string
}.

Definition ADITI_ADMIN : string := "ADITI_ADMIN".

Definition adminPassword : string := "Aditi#0409".

(** ** More vocabulary of the statements *)

(** How good a decision is for the customer. *)
Definition standing (status : string) : Z :=
  if String.eqb status "Approved" then 2
  else if String.eqb status "Manual Review" then 1
  else 0.

(** Assessment [a] is at least as new as assessment [b]. *)
Definition newer (a b : Assessment) : Prop := a_createdAt b <= a_createdAt a.

(** No row points at a row that is not there, and ids are unique and below
    their sequence. *)
Definition consistent (s : Store) : Prop :=
  NoDup (map c_id (customers s)) /\
  NoDup (map a_id (assessments s)) /\
  Forall (fun a => a_id a < assessment_seq s /\ has_customer s (a_customerId a) = true)
         (assessments s) /\
  NoDup (map m_id (messages s)) /\
  Forall (fun m => m_id m < message_seq s /\ has_assessment s (m_assessmentId m) = true)
         (messages s) /\
  NoDup (map d_id (documents s)) /\
  Forall (fun d => d_id d < document_seq s /\ has_assessment s (d_assessmentId d) = true)
         (documents s).

(** The four unique indexes of the customer table hold, and ids are unique
    and below the sequence. *)
Definition registry_ok (r : Registry) : Prop :=
  NoDup (map c_mobile (customers (rows r))) /\
  NoDup (map c_email (customers (rows r))) /\
  NoDup (map c_pan (customers (rows r))) /\
  NoDup (map c_accountNumber (customers (rows r))) /\
  NoDup (map c_id (customers (rows r))) /\
  Forall (fun c => c_id c < customer_seq r) (customers (rows r)).

(** A computation, and a handler's run, that keep the store consistent at
    every commit and at the end. *)
Definition keeps {A} (m : M A) : Prop :=
  forall s, consistent s ->
            consistent (final (m s)) /\ Forall consistent (commits (m s)).

Definition kept (h : Handled) : Prop :=
  consistent (after h) /\ Forall consistent (observable h).

(** A registration whose fields are all strings. *)
Definition registration (f l g : string) (a : value) (m e pn ac p : string)
  : RegisterRequest :=
  mkRegister (VStr f) (VStr l) (VStr g) a (VStr m) (VStr e) (VStr pn) (VStr ac) (VStr p).

(** Customer [c] already holds one of the four unique fields. *)
Definition clashes (c : Customer) (m e pn ac : string) : Prop :=
  c_mobile c = m \/ c_email c = e \/ c_pan c = pn \/ c_accountNumber c = ac.

Definition already_exists : string :=
  "User with this email, mobile, PAN, or account number already exists.".

Definition summary_failed : Response :=
  mkResponse 500 (ErrorBody "Failed to generate AI summary").

(** ** More sample data *)

(** A stringifier that prints the one request the samples make. *)
Definition JSON_stringify_sample (v : value) : string :=
  match field_of "docTypes" v with
  | Some (VArr [VStr a]) => "{type:document_request,docTypes:[" ++ a ++ "]}"
  | _ => "{type:document_request}"
  end.

(** A hash that shows what it hashed, and the comparison that goes with it. *)
Definition bcrypt_hash_sample (p salt : string) : string := ("$" ++ p ++ "$") ++ salt.

Definition bcrypt_compare_sample (p h : string) : bool := String.prefix ("$" ++ p ++ "$") h.

(** A parser that finds a [null] among the items. *)
Definition JSON_parse_null (s : string) : string + value :=
  inr (VArr [VObj [("question", VStr "Do you budget?")]; VNull]).

Definition registry_of_one : Registry := mkRegistry one_customer 2.

Definition no_bank_users : Bank := mkBank [] 1.

Definition bob_registers : RegisterRequest :=
  registration "Bob" "Iyer" "M" (VNum 41) "9000000002" "bob@example.com" "PQRSX6789K"
               "000456" "secret".

Definition alice_again : RegisterRequest :=
  registration "Alicia" "Rao" "F" (VNum 30) "9000000003" "alice@example.com"
               "ZZZZZ0000Z" "000789" "secret".

Definition payslip_for_9 : UploadRequest :=
  mkUpload (Some (mkFile "document-1-abc.pdf" "payslip.pdf")) (Some "9") (Some "Payslip").

Section Server.

(** [Number(x)] where an id is expected: [Some n] when the result is the
    integer [n], [None] when it is NaN or a fraction. *)
Variable Number : value -> option Z.

(** [JSON.parse]: the value, or the text of the SyntaxError it throws. *)
Variable JSON_parse : string -> string + value.

(** [model.generateContent(prompt)] down to [response.text()]: the raw
    text, or the error the client throws. *)
Variable generateContent : Prompt -> JsError + string.

(** *** POST /api/assessment/submit *)
Definition post_assessment_submit (req : SubmitRequest) (t_create t_touch : Z)
  : Store -> Handled :=
  try_catch
    (let status := decide (score req) in
     newAssessment <-
       assessment_create
         (mkAssessmentData (Number (customerId req)) (score req) (answers req)
                           (breakdown req) status
                           (or_else (language req) (VStr "en")))
         t_create ;;
     customer_update_lastAccessed (Number (customerId req)) t_touch ;;;
     ret (mkResponse 201
            (AssessmentBody "Assessment submitted successfully!" newAssessment)))
    (fun error =>
       mkResponse 500 (ErrorBody ("Failed to submit assessment: " ++ message error))).

(** The older handler of [cleanup_docs.js]: other thresholds, no language. *)
Definition cleanup_docs_submit (req : SubmitRequest) (t_create t_touch : Z)
  : Store -> Handled :=
  try_catch
    (let status := cleanup_docs_decide (score req) in
     newAssessment <-
       assessment_create
         (mkAssessmentData (Number (customerId req)) (score req) (answers req)
                           (breakdown req) status (VStr "en"))
         t_create ;;
     customer_update_lastAccessed (Number (customerId req)) t_touch ;;;
     ret (mkResponse 201
            (AssessmentBody "Assessment submitted successfully!" newAssessment)))
    (fun _ => mkResponse 500 (ErrorBody "Failed to submit assessment.")).

(** *** PATCH /api/assessments/:id/status *)
Definition patch_assessment_status (id : string) (status : value) (now : Z)
  : Store -> Handled :=
  try_catch
    (updatedAssessment <- assessment_update_status (Number (VStr id)) status now ;;
     ret (mkResponse 200 (UpdatedBody "Status updated successfully." updatedAssessment)))
    (fun _ => mkResponse 500 (ErrorBody "Failed to update status.")).

(** *** POST /api/documents/upload *)
Definition upload_text (originalname : string) (docType : option string) : string :=
  "Customer uploaded a document: " ++ dquote ++ originalname ++ dquote ++ " (" ++
  match or_else (field docType) (VStr "unspecified type") with
  | VStr s => s
  | _ => ""
  end ++ ").".

Definition post_documents_upload (req : UploadRequest) (t_document t_message : Z)
  : Store -> Handled :=
  try_catch
    (match file req with
     | None => ret (mkResponse 400 (ErrorBody "No file or assessment ID provided."))
     | Some f =>
         if negb (truthy (field (assessmentId req)))
         then ret (mkResponse 400 (ErrorBody "No file or assessment ID provided."))
         else
           newDocument <-
             document_create
               (mkDocumentData (filename f) (originalname f)
                               ("uploads/" ++ filename f)
                               (Number (field (assessmentId req)))
                               (field (docType req)))
               t_document ;;
           message_create (Number (field (assessmentId req))) (VStr "System")
                          (VStr (upload_text (originalname f) (docType req)))
                          t_message ;;;
           ret (mkResponse 201
                  (DocumentBody "Document uploaded successfully." newDocument))
     end)
    (fun _ => mkResponse 500 (ErrorBody "Failed to upload document.")).

(** The older handler of [cleanup_docs.js]: the document row only. *)
Definition cleanup_docs_upload (req : UploadRequest) (t_document : Z)
  : Store -> Handled :=
  try_catch
    (match file req with
     | None => ret (mkResponse 400 (ErrorBody "No file or assessment ID provided."))
     | Some f =>
         if negb (truthy (field (assessmentId req)))
         then ret (mkResponse 400 (ErrorBody "No file or assessment ID provided."))
         else
           newDocument <-
             document_create
               (mkDocumentData (filename f) (originalname f)
                               ("uploads/" ++ filename f)
                               (Number (field (assessmentId req)))
                               VUndefined)
               t_document ;;
           ret (mkResponse 201
                  (DocumentBody "Document uploaded successfully." newDocument))
     end)
    (fun _ => mkResponse 500 (ErrorBody "Failed to upload document.")).

(** *** GET /api/assessments/:id/messages *)
Definition get_assessment_messages (id : string) : Store -> Handled :=
  try_catch
    (msgs <- message_findMany (Number (VStr id)) ;;
     ret (mkResponse 200 (MessagesBody msgs)))
    (fun _ => mkResponse 500 (ErrorBody "Failed to retrieve messages.")).

(** *** POST /api/assessments/:id/message *)
Definition post_assessment_message (id : string) (sender text : value) (now : Z)
  : Store -> Handled :=
  try_catch
    (newMessage <- message_create (Number (VStr id)) sender text now ;;
     ret (mkResponse 201 (NewMessageBody "Message sent successfully." newMessage)))
    (fun _ => mkResponse 500 (ErrorBody "Failed to send message.")).

(** *** POST /api/generate-questions *)

(** From the raw text to the renumbered array: the lines after
    [response.text()]. *)
Definition parse_questions (text : string) : JsError + list value :=
  match extractJsonArray text with
  | inl e => inl e
  | inr cleanedText =>
      match JSON_parse cleanedText with
      | inl msg => inl (SyntaxError msg)
      | inr (VArr jsonResponse) => renumber_from 0 jsonResponse
      | inr VNull =>
          inl (TypeError "Cannot read properties of null (reading 'forEach')")
      | inr _ => inl (TypeError "jsonResponse.forEach is not a function")
      end
  end.

Definition context : string := "generating dynamic questions".

Definition post_generate_questions (req : GenerateRequest) : Generated :=
  match coreQuestionIds req with
  | None =>
      mkGenerated
        (handleGeminiError
           (TypeError "Cannot read properties of undefined (reading 'join')") context)
        []
  | Some ids =>
      let prompt := mkPrompt (languageMap (gen_language req)) (String.concat ", " ids) in
      match generateContent prompt with
      | inl error => mkGenerated (handleGeminiError error context) [prompt]
      | inr text =>
          match parse_questions text with
          | inl error => mkGenerated (handleGeminiError error context) [prompt]
          | inr jsonResponse =>
              mkGenerated (mkResponse 200 (JsonBody (VArr jsonResponse))) [prompt]
          end
      end
  end.

(** *** The endpoints of accounts, reads and follow-up *)

(** [JSON.stringify] *)
Variable JSON_stringify : value -> string.

(** [bcrypt.hash(password, 10)] with the salt it drew, and
    [bcrypt.compare(password, hash)]. *)
Variable bcrypt_hash : string -> string -> string.
Variable bcrypt_compare : string -> string -> bool.

(** [chat.sendMessage(message)] down to [response.text()]. *)
Variable sendMessage : value -> JsError + string.

(** *** POST /api/register *)
Definition register_failed (error : JsError) : Answer Registered :=
  match code error with
  | Some "P2002" =>
      mkAnswer 400
        (inl "User with this email, mobile, PAN, or account number already exists.")
  | _ => mkAnswer 500 (inl "Something went wrong. Please try again later.")
  end.

Definition post_register (req : RegisterRequest) (salt : string) (now : Z)
  : Registry -> Registry * Answer Registered :=
  fun r =>
    match password req with
    | VStr p =>
        let hashedPassword := bcrypt_hash p salt in
        match customer_create
                (mkCustomerInput (fname req) (lname req) (gender req)
                                 (Number (age req)) (mobile req) (email req) (pan req)
                                 (accountNumber req) hashedPassword)
                now r with
        | (r', inr newCustomer) =>
            (r', mkAnswer 201
                   (inr (mkRegistered "Customer registered successfully!"
                           (c_id newCustomer) (c_fname newCustomer)
                           (c_lname newCustomer) (c_email newCustomer))))
        | (r', inl error) => (r', register_failed error)
        end
    | _ => (r, register_failed IllegalArguments)
    end.

(** *** POST /api/login *)
Definition invalid_login : Answer LoggedIn :=
  mkAnswer 401 (inl "Invalid email or password.").

Definition post_login (email password : value) : Store -> Answer LoggedIn :=
  try_read
    (customer <- customer_findUnique email ;;
     match customer with
     | None => ret invalid_login
     | Some c =>
         match password with
         | VStr p =>
             if bcrypt_compare p (c_password c)
             then
               s <- get ;;
               ret (mkAnswer 200
                      (inr (mkLoggedIn "Login successful!" (customerData c)
                              (latest_of s (c_id c)))))
             else ret invalid_login
         | _ => throw IllegalArguments
         end
     end)
    (fun _ => mkAnswer 500 (inl "Something went wrong. Please try again later.")).

(** *** POST /api/bank-login *)
Definition invalid_bank_login : Answer BankLoggedIn :=
  mkAnswer 401 (inl "Invalid username or password.").

Definition bank_login_failed : Answer BankLoggedIn :=
  mkAnswer 500 (inl "Something went wrong. Please try again.").

Definition post_bank_login (username password : value) (b : Bank) : Answer BankLoggedIn :=
  match username with
  | VStr name =>
      match bankUser_findUnique name b with
      | None => invalid_bank_login
      | Some bankUser =>
          match password with
          | VStr p =>
              if bcrypt_compare p (b_password bankUser)
              then mkAnswer 200
                     (inr (mkBankLoggedIn "Login successful!" (b_username bankUser)))
              else invalid_bank_login
          | _ => bank_login_failed
          end
      end
  | _ => bank_login_failed
  end.

(** *** GET /api/assessments *)
Definition get_assessments : Store -> Answer (list Listed) :=
  try_read
    (assessments <- assessment_findMany ;;
     ret (mkAnswer 200 (inr assessments)))
    (fun _ => mkAnswer 500 (inl "Failed to retrieve assessments.")).

(** *** GET /api/customer/:id/latest-assessment *)
Definition get_latest_assessment (id : string) : Store -> Answer (option Thread) :=
  try_read
    (assessment <- assessment_findFirst (Number (VStr id)) ;;
     ret (mkAnswer 200 (inr assessment)))
    (fun _ => mkAnswer 500 (inl "Failed to fetch assessment data.")).

(** *** POST /api/assessments/:id/request-docs *)
Definition document_request (docTypes : value) : value :=
  VObj [("type", VStr "document_request"); ("docTypes", docTypes)].

Definition post_request_docs (id : string) (docTypes : value) (now : Z)
  : Store -> Handled :=
  try_catch
    (let messageText := JSON_stringify (document_request docTypes) in
     newMessage <- message_create (Number (VStr id)) (VStr "Bank Manager")
                                  (VStr messageText) now ;;
     ret (mkResponse 201
            (NewMessageBody "Document request sent successfully." newMessage)))
    (fun _ => mkResponse 500 (ErrorBody "Failed to send document request.")).

(** *** POST /api/summary *)
Definition candidates (text : string) : value :=
  VObj [("candidates",
         VArr [VObj [("content", VObj [("parts", VArr [VObj [("text", VStr text)]])])]])].

Definition post_summary (message : value) : Summarised :=
  if negb (truthy message)
  then mkSummarised
         (mkResponse 400 (ErrorBody "Request body must contain a 'message' field")) []
  else
    match sendMessage message with
    | inl error =>
        mkSummarised (handleGeminiError error "generating AI summary") [message]
    | inr text => mkSummarised (mkResponse 200 (JsonBody (candidates text))) [message]
    end.

(** *** The seeding script: [main] *)
Definition created_line : string :=
  "Bank user " ++ dquote ++ ADITI_ADMIN ++ dquote ++ " created and hashed password stored!".

Definition exists_line : string :=
  "Bank user " ++ dquote ++ ADITI_ADMIN ++ dquote
  ++ " already exists. Password will be updated.".

Definition updated_line : string :=
  "Bank user " ++ dquote ++ ADITI_ADMIN ++ dquote ++ " password updated!".

Definition main (salt : string) (b : Bank) : Seeded :=
  let hashedPassword := bcrypt_hash adminPassword salt in
  match bankUser_findUnique ADITI_ADMIN b with
  | None =>
      match bankUser_create ADITI_ADMIN hashedPassword b with
      | (b', inr _) => mkSeeded b' [created_line] 0
      | (b', inl _) => mkSeeded b' [] 1
      end
  | Some existingUser =>
      match bankUser_update ADITI_ADMIN hashedPassword b with
      | (b', inr _) => mkSeeded b' [exists_line; updated_line] 0
      | (b', inl _) => mkSeeded b' [exists_line] 1
      end
  end.

(** ** Properties *)

(** *** The JavaScript fragment on the server's own strings *)

Example replace_context :
  replaceAll "generating dynamic questions" "ing" "e" = "generate dynamic questions".
Proof. reflexivity. Qed.

Example substring_swaps : substring "]x[" 2 1 = "x".
Proof. reflexivity. Qed.

Example decimal_7 : decimal 7 = "7".
Proof. reflexivity. Qed.

(** *** The monad: how a computation runs *)

Lemma bind_ret {A B} (x : A) (k : A -> M B) (s : Store) :
  bind (ret x) k s = k x s.
Proof. unfold bind, ret. cbn. now destruct (k x s). Qed.

Lemma bind_throw {A B} (e : JsError) (k : A -> M B) (s : Store) :
  bind (throw e) k s = mkOutcome s [] (inl e).
Proof. reflexivity. Qed.

Lemma bind_get {B} (k : Store -> M B) (s : Store) : bind get k s = k s s.
Proof. unfold bind, get. cbn. now destruct (k s s). Qed.

Lemma bind_put_silently {B} (s' : Store) (k : unit -> M B) (s : Store) :
  bind (put_silently s') k s = k tt s'.
Proof. unfold bind, put_silently. cbn. now destruct (k tt s'). Qed.

Lemma bind_commit {B} (s' : Store) (k : unit -> M B) (s : Store) :
  bind (commit s') k s =
    mkOutcome (final (k tt s')) (s' :: commits (k tt s')) (result (k tt s')).
Proof. reflexivity. Qed.

Lemma bind_run {A B} (m : M A) (k : A -> M B) (s : Store) :
  bind m k s =
    match result (m s) with
    | inl e => mkOutcome (final (m s)) (commits (m s)) (inl e)
    | inr x =>
        mkOutcome (final (k x (final (m s))))
                  (commits (m s) ++ commits (k x (final (m s))))%list
                  (result (k x (final (m s))))
    end.
Proof. reflexivity. Qed.

(** One step of a computation whose head is known. *)
Ltac run :=
  repeat first
    [ rewrite bind_ret | rewrite bind_throw | rewrite bind_get
    | rewrite bind_put_silently | rewrite bind_commit ];
  cbv beta.

(** *** The store operations *)

Lemma find_of_existsb {A} (f : A -> bool) (l : list A) :
  existsb f l = true -> exists x, find f l = Some x /\ f x = true.
Proof.
  induction l as [|a l IH]; simpl; [discriminate|].
  destruct (f a) eqn:E; eauto.
Qed.

Lemma as_int_ok (n : Z) : int4 n = true -> as_int (Some n) = ret n.
Proof. intros H. unfold as_int. now rewrite H. Qed.

Lemma as_int_refused (n : Z) : int4 n = false -> as_int (Some n) = throw PrismaValidation.
Proof. intros H. unfold as_int. now rewrite H. Qed.

Lemma as_json_ok (v : value) : present v = true -> as_json v = ret v.
Proof. now destruct v. Qed.

Lemma as_json_refused (v : value) :
  present v = false -> as_json v = throw PrismaValidation.
Proof. now destruct v. Qed.

Lemma as_string_refused (v : value) :
  is_string v = false -> as_string v = throw PrismaValidation.
Proof. now destruct v. Qed.

(** The insert of an assessment, by what its arguments are. *)
Lemma assessment_create_run (d : AssessmentData) (now : Z) (s : Store) :
  assessment_create d now s =
    match data_customerId d with
    | Some cid =>
        if int4 cid && int4 (data_score d) && present (data_answers d) then
          match data_language d with
          | VStr lang =>
              if has_customer s cid then
                let row := mkAssessment (assessment_seq s) (data_score d) (data_status d)
                             (data_answers d) (data_breakdown d) lang cid now now in
                let s' := set_assessments s (assessments s ++ [row])%list
                            (assessment_seq s + 1) in
                mkOutcome s' [s'] (inr row)
              else
                mkOutcome (set_assessments s (assessments s) (assessment_seq s + 1)) []
                          (inl ForeignKeyViolation)
          | _ => mkOutcome s [] (inl PrismaValidation)
          end
        else mkOutcome s [] (inl PrismaValidation)
    | None => mkOutcome s [] (inl PrismaValidation)
    end.
Proof.
  unfold assessment_create.
  destruct (data_customerId d) as [cid|]; [|reflexivity].
  destruct (int4 cid) eqn:Hi;
    [rewrite (as_int_ok _ Hi) | rewrite (as_int_refused _ Hi); reflexivity].
  run.
  destruct (int4 (data_score d)) eqn:Hs;
    [rewrite (as_int_ok _ Hs) | rewrite (as_int_refused _ Hs); reflexivity].
  run.
  destruct (present (data_answers d)) eqn:Ha;
    [rewrite (as_json_ok _ Ha) | rewrite (as_json_refused _ Ha); reflexivity].
  run. cbn [andb].
  destruct (data_language d) as [| | | | |lang| |]; try reflexivity.
  cbn [as_string]. run.
  destruct (has_customer s cid); run; reflexivity.
Qed.

(** Whatever the arguments, an insert of an assessment either commits
    exactly the new row, or throws and leaves every row as it was. *)
Lemma assessment_create_cases (d : AssessmentData) (now : Z) (s : Store) :
  (exists cid row,
      data_customerId d = Some cid /\ int4 cid = true /\ has_customer s cid = true /\
      a_score row = data_score d /\ a_status row = data_status d /\
      a_customerId row = cid /\
      assessment_create d now s =
        mkOutcome (set_assessments s (assessments s ++ [row])%list (assessment_seq s + 1))
                  [set_assessments s (assessments s ++ [row])%list (assessment_seq s + 1)]
                  (inr row))
  \/
  (exists e s',
      assessment_create d now s = mkOutcome s' [] (inl e) /\ same_rows s s' /\
      (e = PrismaValidation \/
       e = ForeignKeyViolation /\
       exists cid, data_customerId d = Some cid /\ has_customer s cid = false)).
Proof.
  rewrite assessment_create_run. unfold same_rows.
  destruct (data_customerId d) as [cid|]; [|right; eauto 10].
  destruct (int4 cid) eqn:Hi; cbn [andb]; [|right; eauto 10].
  destruct (int4 (data_score d)); cbn [andb]; [|right; eauto 10].
  destruct (present (data_answers d)); [|right; eauto 10].
  destruct (data_language d) as [| | | | |lang| |]; try (right; eauto 10; fail).
  destruct (has_customer s cid) eqn:Hc.
  - left. eexists _, _. repeat split; eauto.
  - right. eexists _, _. split; [reflexivity|]. split; [now cbn|].
    right. split; [reflexivity|]. eauto.
Qed.

(** With arguments of the right types and an existing customer, the insert
    goes through. *)
Lemma assessment_create_ok (d : AssessmentData) (now : Z) (s : Store) (cid : Z) (lang : string) :
  data_customerId d = Some cid -> int4 cid = true -> has_customer s cid = true ->
  int4 (data_score d) = true -> present (data_answers d) = true ->
  data_language d = VStr lang ->
  let row := mkAssessment (assessment_seq s) (data_score d) (data_status d)
                          (data_answers d) (data_breakdown d) lang cid now now in
  let s' := set_assessments s (assessments s ++ [row])%list (assessment_seq s + 1) in
  assessment_create d now s = mkOutcome s' [s'] (inr row).
Proof.
  intros Hid Hn Hc Hs Ha Hl. rewrite assessment_create_run.
  now rewrite Hid, Hn, Hs, Ha, Hl, Hc.
Qed.

Lemma customer_update_ok (n t : Z) (s : Store) :
  int4 n = true -> has_customer s n = true ->
  let s' := set_customers s (map (fun x => if c_id x =? n then touch t x else x) (customers s)) in
  exists c, customer_update_lastAccessed (Some n) t s = mkOutcome s' [s'] (inr c).
Proof.
  intros Hn Hc. unfold customer_update_lastAccessed.
  rewrite (as_int_ok _ Hn). run.
  destruct (find_of_existsb _ _ Hc) as (c & Hf & _).
  rewrite Hf. run. eexists. reflexivity.
Qed.

(** *** Submission *)

(** Every run of the submit handler is one of two: the assessment is
    committed, then the customer is touched in a second commit, and 201 is
    sent; or the insert throws, nothing is committed and 500 is sent. *)
Lemma submit_cases (req : SubmitRequest) (t_create t_touch : Z) (s : Store) :
  let h := post_assessment_submit req t_create t_touch s in
  (exists cid a s1,
      Number (customerId req) = Some cid /\ has_customer s cid = true /\
      a_score a = score req /\ a_status a = decide (score req) /\
      a_customerId a = cid /\
      s1 = set_assessments s (assessments s ++ [a])%list (assessment_seq s + 1) /\
      after h = set_customers s1
                  (map (fun x => if c_id x =? cid then touch t_touch x else x)
                       (customers s)) /\
      observable h = [s1; after h] /\
      response h = mkResponse 201 (AssessmentBody submitted a))
  \/
  (exists e,
      response h = mkResponse 500 (ErrorBody ("Failed to submit assessment: " ++ message e)) /\
      observable h = [] /\ same_rows s (after h) /\
      (e = PrismaValidation \/
       e = ForeignKeyViolation /\
       exists cid, Number (customerId req) = Some cid /\ has_customer s cid = false)).
Proof.
  intros h.
  destruct (assessment_create_cases
              (mkAssessmentData (Number (customerId req)) (score req) (answers req)
                 (breakdown req) (decide (score req))
                 (or_else (language req) (VStr "en"))) t_create s)
    as [(cid & row & Hid & Hi & Hc & Hsc & Hst & Hcu & Heq)
       |(e & s' & Heq & Hrows & He)].
  - simpl in Hid, Hsc, Hst. left.
    set (s1 := set_assessments s (assessments s ++ [row])%list (assessment_seq s + 1)) in *.
    destruct (customer_update_ok cid t_touch s1 Hi Hc) as (c & Hup).
    cbv zeta in Hup.
    assert (Hh : h = mkHandled
                       (set_customers s1
                          (map (fun x => if c_id x =? cid then touch t_touch x else x)
                               (customers s1)))
                       [s1; set_customers s1
                              (map (fun x => if c_id x =? cid then touch t_touch x else x)
                                   (customers s1))]
                       (mkResponse 201 (AssessmentBody submitted row))).
    { subst h. unfold post_assessment_submit, try_catch, bind.
      rewrite Heq. cbn [final commits result]. rewrite Hid, Hup. reflexivity. }
    rewrite Hh. exists cid, row, s1. repeat split; auto.
  - simpl in He. right. exists e.
    assert (Hh : h = mkHandled s' []
                       (mkResponse 500
                          (ErrorBody ("Failed to submit assessment: " ++ message e)))).
    { subst h. unfold post_assessment_submit, try_catch, bind.
      rewrite Heq. reflexivity. }
    rewrite Hh. repeat split; try apply Hrows; auto.
Qed.

Lemma decide_thresholds (z : Z) :
  (700 <= z -> decide z = "Approved") /\
  (500 <= z < 700 -> decide z = "Manual Review") /\
  (z < 500 -> decide z = "Rejected").
Proof.
  unfold decide.
  destruct (Z.geb_spec z 700), (Z.geb_spec z 500); repeat split; intros; auto; lia.
Qed.

(** C1.  A submission that the store accepts (the customer exists, the
    score fits the INTEGER column, answers are present) answers 201 and
    persists one new assessment whose status is [decide] of the submitted
    score: Approved from 700 up, Manual Review from 500 to 699, Rejected
    below 500, for every integer; in particular at 700, 699, 500 and 499. *)
Theorem submit_status_by_thresholds
    (req : SubmitRequest) (t_create t_touch : Z) (s : Store) (cid : Z) :
  Number (customerId req) = Some cid -> int4 cid = true ->
  has_customer s cid = true ->
  int4 (score req) = true -> present (answers req) = true ->
  is_string (or_else (language req) (VStr "en")) = true ->
  let h := post_assessment_submit req t_create t_touch s in
  (exists a,
      response h = mkResponse 201 (AssessmentBody submitted a) /\
      assessments (after h) = (assessments s ++ [a])%list /\
      a_score a = score req /\
      a_status a = decide (score req)) /\
  (forall z : Z,
      (700 <= z -> decide z = "Approved") /\
      (500 <= z < 700 -> decide z = "Manual Review") /\
      (z < 500 -> decide z = "Rejected")) /\
  decide 700 = "Approved" /\ decide 699 = "Manual Review" /\
  decide 500 = "Manual Review" /\ decide 499 = "Rejected".
Proof.
  intros Hid Hi Hc Hs Ha Hl h.
  split; [|split; [exact decide_thresholds | repeat split]].
  destruct (submit_cases req t_create t_touch s)
    as [(cid' & a & s1 & _ & _ & Hsc & Hst & _ & Hs1 & Haf & _ & Hr)
       |(e & Hr & _ & _ & He)].
  - fold h in Haf, Hr. exists a. rewrite Haf, Hs1. auto.
  - fold h in Hr. exfalso.
    destruct (or_else (language req) (VStr "en")) eqn:El; try discriminate.
    pose proof (assessment_create_ok
                  (mkAssessmentData (Number (customerId req)) (score req) (answers req)
                     (breakdown req) (decide (score req)) (VStr s0))
                  t_create s cid s0 Hid Hi Hc Hs Ha eq_refl) as Hok.
    cbv zeta in Hok.
    subst h. unfold post_assessment_submit, try_catch, bind in Hr.
    rewrite El, Hok in Hr. cbn [final commits result] in Hr.
    destruct (customer_update_ok cid t_touch
                (set_assessments s
                   (assessments s ++
                    [mkAssessment (assessment_seq s) (score req) (decide (score req))
                       (answers req) (breakdown req) s0 cid t_create t_create])%list
                   (assessment_seq s + 1)) Hi Hc) as (c & Hup).
    cbv zeta in Hup. simpl in Hup, Hr. rewrite Hid, Hup in Hr. discriminate.
Qed.

Lemma assessment_create_unknown (d : AssessmentData) (now : Z) (s : Store) :
  (forall cid, data_customerId d = Some cid -> has_customer s cid = false) ->
  exists e s',
    assessment_create d now s = mkOutcome s' [] (inl e) /\ same_rows s s' /\
    (e = PrismaValidation \/ e = ForeignKeyViolation) /\
    (forall cid,
        data_customerId d = Some cid -> int4 cid = true ->
        int4 (data_score d) = true -> present (data_answers d) = true ->
        is_string (data_language d) = true ->
        e = ForeignKeyViolation /\ assessment_seq s' = assessment_seq s + 1).
Proof.
  intros Hno. rewrite assessment_create_run. unfold same_rows.
  destruct (data_customerId d) as [cid|];
    [|eexists _, _; repeat split; eauto; intros; discriminate].
  rewrite (Hno cid eq_refl).
  destruct (int4 cid) eqn:Hi; cbn [andb];
    [|eexists _, _; repeat split; eauto; intros; congruence].
  destruct (int4 (data_score d)) eqn:Hs; cbn [andb];
    [|eexists _, _; repeat split; eauto; intros; discriminate].
  destruct (present (data_answers d)) eqn:Ha;
    [|eexists _, _; repeat split; eauto; intros; discriminate].
  destruct (data_language d) as [| | | | |lang| |];
    eexists _, _; repeat split; eauto; intros; try discriminate; reflexivity.
Qed.

(** C2 (as the server has it).  A submission whose customer id names no
    customer is answered 500 with the text of the error the store threw;
    there is no lookup before the insert, and when the other arguments are
    in order that error is the foreign-key violation of the insert itself,
    which has drawn an id by then.  No assessment row is added and no
    customer is touched. *)
Theorem submit_unknown_customer
    (req : SubmitRequest) (t_create t_touch : Z) (s : Store) :
  (forall cid, Number (customerId req) = Some cid -> has_customer s cid = false) ->
  let h := post_assessment_submit req t_create t_touch s in
  exists e,
    response h =
      mkResponse 500 (ErrorBody ("Failed to submit assessment: " ++ message e)) /\
    (e = PrismaValidation \/ e = ForeignKeyViolation) /\
    observable h = [] /\ same_rows s (after h) /\
    (forall cid,
        Number (customerId req) = Some cid -> int4 cid = true ->
        int4 (score req) = true -> present (answers req) = true ->
        is_string (or_else (language req) (VStr "en")) = true ->
        e = ForeignKeyViolation /\
        assessment_seq (after h) = assessment_seq s + 1).
Proof.
  intros Hno h.
  destruct (assessment_create_unknown
              (mkAssessmentData (Number (customerId req)) (score req) (answers req)
                 (breakdown req) (decide (score req))
                 (or_else (language req) (VStr "en"))) t_create s Hno)
    as (e & s' & Heq & Hrows & He & Hfk).
  assert (Hh : h = mkHandled s' []
                     (mkResponse 500
                        (ErrorBody ("Failed to submit assessment: " ++ message e)))).
  { subst h. unfold post_assessment_submit, try_catch, bind. rewrite Heq. reflexivity. }
  exists e. rewrite Hh. simpl. repeat split; try apply Hrows; auto;
    apply (Hfk cid); auto.
Qed.


(** The older submit handler of [cleanup_docs.js] persists the status of
    its own thresholds. *)
Lemma cleanup_docs_submit_status
    (req : SubmitRequest) (t_create t_touch : Z) (s : Store) (cid : Z) :
  Number (customerId req) = Some cid -> int4 cid = true ->
  has_customer s cid = true ->
  int4 (score req) = true -> present (answers req) = true ->
  exists a,
    response (cleanup_docs_submit req t_create t_touch s) =
      mkResponse 201 (AssessmentBody submitted a) /\
    a_status a = cleanup_docs_decide (score req) /\
    assessments (after (cleanup_docs_submit req t_create t_touch s)) =
      (assessments s ++ [a])%list.
Proof.
  intros Hid Hi Hc Hs Ha.
  unfold cleanup_docs_submit, try_catch.
  rewrite bind_run, assessment_create_run.
  cbn [data_customerId data_score data_answers data_language data_status data_breakdown].
  rewrite Hid, Hi, Hs, Ha, Hc. cbv zeta. cbn [andb result final commits].
  destruct (customer_update_ok cid t_touch
              (set_assessments s
                 (assessments s ++
                  [mkAssessment (assessment_seq s) (score req)
                     (cleanup_docs_decide (score req)) (answers req) (breakdown req)
                     "en" cid t_create t_create])%list
                 (assessment_seq s + 1)) Hi Hc) as (c & Hup).
  cbv zeta in Hup. rewrite bind_run, Hup. cbn [result final commits].
  eexists. split; [|split]; reflexivity.
Qed.

(** *** Strings *)

Lemma append_assoc (a b c : string) : (a ++ b) ++ c = a ++ (b ++ c).
Proof. induction a as [|x a IH]; simpl; [reflexivity | now rewrite IH]. Qed.

Lemma length_append (a b : string) :
  String.length (a ++ b) = (String.length a + String.length b)%nat.
Proof. induction a as [|x a IH]; simpl; [reflexivity | now rewrite IH]. Qed.

Lemma occurs_append (c : ascii) (a b : string) :
  occurs c (a ++ b) = occurs c a || occurs c b.
Proof.
  induction a as [|x a IH]; simpl; [reflexivity|].
  now rewrite IH, orb_assoc.
Qed.

Lemma indexOf_from_absent (c : ascii) (s : string) (i : Z) :
  occurs c s = false -> indexOf_from c s i = -1.
Proof.
  revert i. induction s as [|x s IH]; simpl; intros i H; [reflexivity|].
  apply orb_false_iff in H as [Hx Hs]. rewrite Hx. now apply IH.
Qed.

Lemma indexOf_from_first (c : ascii) (pre rest : string) (i : Z) :
  occurs c pre = false ->
  indexOf_from c (pre ++ String c rest) i = i + Z.of_nat (String.length pre).
Proof.
  revert i. induction pre as [|x pre IH]; simpl; intros i H.
  - rewrite Ascii.eqb_refl. lia.
  - apply orb_false_iff in H as [Hx Hp]. rewrite Hx, IH by assumption. lia.
Qed.

Lemma indexOf_from_present (c : ascii) (s : string) (i : Z) :
  0 <= i -> indexOf_from c s i = -1 -> occurs c s = false.
Proof.
  revert i. induction s as [|x s IH]; simpl; intros i Hi H; [reflexivity|].
  destruct (Ascii.eqb x c); simpl; [lia|]. apply (IH (i + 1)); [lia | assumption].
Qed.

Lemma lastIndexOf_from_absent (c : ascii) (s : string) (i found : Z) :
  occurs c s = false -> lastIndexOf_from c s i found = found.
Proof.
  revert i found. induction s as [|x s IH]; simpl; intros i found H; [reflexivity|].
  apply orb_false_iff in H as [Hx Hs]. rewrite Hx. now apply IH.
Qed.

Lemma lastIndexOf_from_append (c : ascii) (a b : string) (i found : Z) :
  lastIndexOf_from c (a ++ b) i found =
  lastIndexOf_from c b (i + Z.of_nat (String.length a)) (lastIndexOf_from c a i found).
Proof.
  revert i found. induction a as [|x a IH]; intros i found.
  - simpl. now rewrite Z.add_0_r.
  - cbn [append lastIndexOf_from String.length]. rewrite IH. f_equal. lia.
Qed.

Lemma lastIndexOf_from_last (c : ascii) (pre post : string) (i found : Z) :
  occurs c post = false ->
  lastIndexOf_from c (pre ++ String c post) i found = i + Z.of_nat (String.length pre).
Proof.
  intros H. rewrite lastIndexOf_from_append. simpl.
  rewrite Ascii.eqb_refl. now apply lastIndexOf_from_absent.
Qed.

Lemma lastIndexOf_from_present (c : ascii) (s : string) (i found : Z) :
  0 <= i -> found = -1 -> lastIndexOf_from c s i found = -1 -> occurs c s = false.
Proof.
  revert i found. induction s as [|x s IH]; simpl; intros i found Hi Hf H; [reflexivity|].
  destruct (Ascii.eqb x c) eqn:E; simpl.
  - exfalso. clear IH.
    assert (G : forall t j f, 0 <= f -> 0 <= j -> 0 <= lastIndexOf_from c t j f).
    { induction t as [|y t IHt]; simpl; intros j f Hf' Hj; [assumption|].
      apply IHt; [destruct (Ascii.eqb y c); lia | lia]. }
    specialize (G s (i + 1) i Hi ltac:(lia)). lia.
  - apply (IH (i + 1) found); [lia | assumption | assumption].
Qed.

Lemma substring_middle (pre mid post : string) :
  String.substring (String.length pre) (String.length mid) (pre ++ mid ++ post) = mid.
Proof.
  induction pre as [|x pre IH]; simpl; [|exact IH].
  induction mid as [|y mid IHm]; simpl.
  - now destruct post.
  - now rewrite IHm.
Qed.

(** [s.substring(a, b)] with both bounds inside [s], in either order. *)
Lemma substring_inside (pre mid post : string) (a b : Z) :
  (a = Z.of_nat (String.length pre) /\
   b = Z.of_nat (String.length pre) + Z.of_nat (String.length mid)) \/
  (b = Z.of_nat (String.length pre) /\
   a = Z.of_nat (String.length pre) + Z.of_nat (String.length mid)) ->
  substring (pre ++ mid ++ post) a b = mid.
Proof.
  intros H. unfold substring, clamp.
  rewrite !length_append, !Nat2Z.inj_add.
  set (p := String.length pre) in *. set (m := String.length mid) in *.
  set (q := String.length post) in *.
  assert (Hlo : Z.to_nat (Z.min (Z.max 0 (Z.min a (Z.of_nat p + (Z.of_nat m + Z.of_nat q))))
                                (Z.max 0 (Z.min b (Z.of_nat p + (Z.of_nat m + Z.of_nat q))))) = p)
    by lia.
  assert (Hlen : Z.to_nat
                   (Z.max (Z.max 0 (Z.min a (Z.of_nat p + (Z.of_nat m + Z.of_nat q))))
                          (Z.max 0 (Z.min b (Z.of_nat p + (Z.of_nat m + Z.of_nat q)))) -
                    Z.min (Z.max 0 (Z.min a (Z.of_nat p + (Z.of_nat m + Z.of_nat q))))
                          (Z.max 0 (Z.min b (Z.of_nat p + (Z.of_nat m + Z.of_nat q))))) = m)
    by lia.
  rewrite Hlo, Hlen. apply substring_middle.
Qed.

Lemma first_occurrence (c : ascii) (s : string) :
  occurs c s = true ->
  exists pre rest, s = pre ++ String c rest /\ occurs c pre = false.
Proof.
  induction s as [|x s IH]; simpl; [discriminate|].
  destruct (Ascii.eqb_spec x c) as [->|Hx]; simpl.
  - intros _. now exists "", s.
  - intros H. destruct (IH H) as (pre & rest & -> & Hpre).
    exists (String x pre), rest. split; [reflexivity|]. simpl.
    apply Ascii.eqb_neq in Hx. now rewrite Hx.
Qed.

Lemma last_occurrence (c : ascii) (s : string) :
  occurs c s = true ->
  exists pre post, s = pre ++ String c post /\ occurs c post = false.
Proof.
  induction s as [|x s IH]; simpl; [discriminate|].
  destruct (occurs c s) eqn:Hs.
  - intros _. destruct (IH eq_refl) as (pre & post & -> & Hpost).
    now exists (String x pre), post.
  - rewrite orb_false_r. intros Hx. apply Ascii.eqb_eq in Hx. subst x.
    now exists "", s.
Qed.

(** Two ways of cutting one string: the shorter head is a head of the
    longer one. *)
Lemma append_cut (a b c d : string) :
  a ++ b = c ++ d -> (String.length a <= String.length c)%nat ->
  exists m, c = a ++ m /\ b = m ++ d.
Proof.
  revert c. induction a as [|x a IH]; intros c H Hlen.
  - exists c. now split.
  - destruct c as [|y c]; [simpl in Hlen; lia|].
    simpl in H, Hlen. inversion H; subst y.
    destruct (IH c H2 ltac:(lia)) as (m & -> & ->). now exists m.
Qed.

(** Where the brackets of a text stand: one of them is missing, or the
    first opening one comes before the last closing one, or after it. *)
Lemma brackets_cases (text : string) :
  (occurs "["%char text = false \/ occurs "]"%char text = false) \/
  (exists pre mid post,
      text = pre ++ "[" ++ mid ++ "]" ++ post /\
      occurs "["%char pre = false /\ occurs "]"%char post = false) \/
  (exists a mid b,
      text = a ++ "]" ++ mid ++ "[" ++ b /\
      occurs "["%char (a ++ "]" ++ mid) = false /\
      occurs "]"%char (mid ++ "[" ++ b) = false).
Proof.
  destruct (occurs "["%char text) eqn:Ho; [|now left; left].
  destruct (occurs "]"%char text) eqn:Hc; [|now left; right].
  right.
  destruct (first_occurrence _ _ Ho) as (p1 & r1 & H1 & Hp1).
  destruct (last_occurrence _ _ Hc) as (p2 & r2 & H2 & Hr2).
  destruct (Nat.le_gt_cases (String.length p1) (String.length p2)) as [Hle|Hgt].
  - left. rewrite H1 in H2.
    destruct (append_cut _ _ _ _ H2 Hle) as (m & Hp2 & Hm).
    destruct m as [|y m]; [discriminate Hm|].
    simpl in Hm. inversion Hm; subst y r1.
    exists p1, m, r2. now rewrite H1.
  - right. rewrite H2 in H1.
    destruct (append_cut _ _ _ _ H1 ltac:(lia)) as (m & Hp1' & Hm).
    destruct m as [|y m]; [discriminate Hm|].
    simpl in Hm. inversion Hm; subst y r2.
    exists p2, m, r1. rewrite H2. repeat split.
    + change (p2 ++ "]" ++ m) with (p2 ++ String "]"%char m). now rewrite <- Hp1'.
    + exact Hr2.
Qed.

(** *** The sanitizer *)

Lemma extract_bracketed (pre mid post : string) :
  occurs "["%char pre = false -> occurs "]"%char post = false ->
  extractJsonArray (pre ++ "[" ++ mid ++ "]" ++ post) = inr ("[" ++ mid ++ "]").
Proof.
  intros Hpre Hpost.
  set (p := Z.of_nat (String.length pre)). set (m := Z.of_nat (String.length mid)).
  assert (Hi : indexOf (pre ++ "[" ++ mid ++ "]" ++ post) "["%char = p).
  { unfold indexOf.
    change (pre ++ "[" ++ mid ++ "]" ++ post)
      with (pre ++ String "["%char (mid ++ "]" ++ post)).
    rewrite indexOf_from_first by assumption. reflexivity. }
  assert (Hj : lastIndexOf (pre ++ "[" ++ mid ++ "]" ++ post) "]"%char = p + m + 1).
  { unfold lastIndexOf.
    replace (pre ++ "[" ++ mid ++ "]" ++ post)
      with ((pre ++ "[" ++ mid) ++ String "]"%char post)
      by (rewrite append_assoc; reflexivity).
    rewrite lastIndexOf_from_last by assumption.
    rewrite length_append. cbn [append String.length]. subst p m. lia. }
  unfold extractJsonArray. rewrite Hi, Hj.
  destruct (Z.eqb_spec p (-1)); [subst p; lia|].
  destruct (Z.eqb_spec (p + m + 1) (-1)); [subst p m; lia|].
  cbn [orb]. f_equal.
  replace (pre ++ "[" ++ mid ++ "]" ++ post)
    with (pre ++ ("[" ++ mid ++ "]") ++ post)
    by (cbn [append]; rewrite append_assoc; reflexivity).
  apply substring_inside. left. split; [reflexivity|].
  cbn [append String.length]. rewrite length_append. cbn [String.length].
  subst p m. lia.
Qed.

(** With the last closing bracket before the first opening one,
    [substring] swaps its bounds and gives what lies between the two. *)
Lemma extract_reversed (a mid b : string) :
  occurs "["%char (a ++ "]" ++ mid) = false ->
  occurs "]"%char (mid ++ "[" ++ b) = false ->
  extractJsonArray (a ++ "]" ++ mid ++ "[" ++ b) = inr mid.
Proof.
  intros Hopen Hclose.
  set (p := Z.of_nat (String.length a)). set (m := Z.of_nat (String.length mid)).
  assert (Hi : indexOf (a ++ "]" ++ mid ++ "[" ++ b) "["%char = p + 1 + m).
  { unfold indexOf.
    replace (a ++ "]" ++ mid ++ "[" ++ b)
      with ((a ++ "]" ++ mid) ++ String "["%char b)
      by (rewrite append_assoc; reflexivity).
    rewrite indexOf_from_first by assumption.
    rewrite length_append. cbn [append String.length]. subst p m. lia. }
  assert (Hj : lastIndexOf (a ++ "]" ++ mid ++ "[" ++ b) "]"%char = p).
  { unfold lastIndexOf.
    change (a ++ "]" ++ mid ++ "[" ++ b)
      with (a ++ String "]"%char (mid ++ "[" ++ b)).
    rewrite lastIndexOf_from_last by assumption. reflexivity. }
  unfold extractJsonArray. rewrite Hi, Hj.
  destruct (Z.eqb_spec (p + 1 + m) (-1)); [subst p m; lia|].
  destruct (Z.eqb_spec p (-1)); [subst p; lia|].
  cbn [orb]. f_equal.
  replace (a ++ "]" ++ mid ++ "[" ++ b)
    with ((a ++ "]") ++ mid ++ ("[" ++ b))
    by (rewrite append_assoc; reflexivity).
  apply substring_inside. right. rewrite length_append. cbn [String.length].
  subst p m. lia.
Qed.

Lemma extract_absent (text : string) :
  occurs "["%char text = false \/ occurs "]"%char text = false ->
  extractJsonArray text = inl no_array.
Proof.
  intros [H|H]; unfold extractJsonArray, indexOf, lastIndexOf.
  - now rewrite indexOf_from_absent.
  - rewrite (lastIndexOf_from_absent _ _ _ _ H). now rewrite orb_true_r.
Qed.

(** Whatever goes wrong after the service answered, the reply is the one
    [handleGeminiError] makes of the error: an error body under 429 or 500. *)
Lemma handleGeminiError_is_an_error (e : JsError) (ctx : string) :
  exists c msg, handleGeminiError e ctx = mkResponse c (ErrorBody msg) /\
                (c = 429 \/ c = 500).
Proof.
  unfold handleGeminiError. destruct (isRateLimitError e); eauto.
Qed.

Lemma generate_after_answer (req : GenerateRequest) (ids : list string) (text : string) :
  coreQuestionIds req = Some ids ->
  generateContent (mkPrompt (languageMap (gen_language req)) (String.concat ", " ids))
    = inr text ->
  reply (post_generate_questions req) =
    match parse_questions text with
    | inl error => handleGeminiError error context
    | inr jsonResponse => mkResponse 200 (JsonBody (VArr jsonResponse))
    end.
Proof.
  intros Hids Hgen. unfold post_generate_questions. rewrite Hids, Hgen.
  now destruct (parse_questions text).
Qed.

(** C4 (as the server has it).  For a raw text of the service:
    - when it has an opening bracket and, after the first of them, a
      closing one, the extracted text is exactly the part from the first
      opening bracket to the last closing one, both included;
    - when either bracket is missing, extraction fails with a caught error
      and the endpoint answers 500 with its failure text;
    - when the extracted text does not parse, the endpoint answers with
      what [handleGeminiError] makes of the parser's error: the rate-limit
      reply under 429 when the error's text holds 429, and the failure
      reply under 500 otherwise;
    - whatever fails after the service answered, the reply is an error
      body under 429 or 500 and carries no part of the text. *)
Theorem sanitizer_behaviour (text : string) :
  (forall pre mid post,
      text = pre ++ "[" ++ mid ++ "]" ++ post ->
      occurs "["%char pre = false -> occurs "]"%char post = false ->
      extractJsonArray text = inr ("[" ++ mid ++ "]") /\
      bracketed text ("[" ++ mid ++ "]")) /\
  (occurs "["%char text = false \/ occurs "]"%char text = false ->
   extractJsonArray text = inl no_array /\
   forall req ids,
     coreQuestionIds req = Some ids ->
     generateContent (mkPrompt (languageMap (gen_language req)) (String.concat ", " ids))
       = inr text ->
     reply (post_generate_questions req) = generation_failed) /\
  (forall req ids,
      coreQuestionIds req = Some ids ->
      generateContent (mkPrompt (languageMap (gen_language req)) (String.concat ", " ids))
        = inr text ->
      (forall cleanedText msg,
          extractJsonArray text = inr cleanedText ->
          JSON_parse cleanedText = inl msg ->
          reply (post_generate_questions req) =
            if includes (toString (SyntaxError msg)) "429"
            then rate_limited else generation_failed) /\
      (forall error,
          parse_questions text = inl error ->
          exists c msg,
            reply (post_generate_questions req) = mkResponse c (ErrorBody msg) /\
            (c = 429 \/ c = 500))).
Proof.
  split; [|split].
  - intros pre mid post -> Ho Hc. split.
    + now apply extract_bracketed.
    + exists pre, mid, post. auto.
  - intros Habsent. split; [now apply extract_absent|].
    intros req ids Hids Hgen.
    rewrite (generate_after_answer req ids text Hids Hgen).
    unfold parse_questions. rewrite (extract_absent text Habsent). reflexivity.
  - intros req ids Hids Hgen. split.
    + intros cleanedText msg Hex Hparse.
      rewrite (generate_after_answer req ids text Hids Hgen).
      unfold parse_questions. rewrite Hex, Hparse.
      unfold handleGeminiError, isRateLimitError. cbn [status SyntaxError orb].
      destruct (includes (toString (SyntaxError msg)) "429"); reflexivity.
    + intros error Herr.
      rewrite (generate_after_answer req ids text Hids Hgen), Herr.
      apply handleGeminiError_is_an_error.
Qed.

(** *** Renumbering *)

Lemma get_field_set_same (k : string) (v : value) (fields : list (string * value)) :
  get_field k (set_field k v fields) = Some v.
Proof.
  induction fields as [|[k' v'] rest IH]; simpl.
  - now rewrite String.eqb_refl.
  - destruct (String.eqb k' k) eqn:E; simpl.
    + now rewrite String.eqb_refl.
    + now rewrite E.
Qed.

Lemma get_field_set_other (k j : string) (v : value) (fields : list (string * value)) :
  j <> k -> get_field j (set_field k v fields) = get_field j fields.
Proof.
  intros Hjk. induction fields as [|[k' v'] rest IH]; simpl.
  - apply String.eqb_neq in Hjk. rewrite String.eqb_sym in Hjk. now rewrite Hjk.
  - destruct (String.eqb k' k) eqn:E; simpl.
    + apply String.eqb_eq in E. subst k'.
      assert (F : String.eqb k j = false)
        by (apply String.eqb_neq; intros ->; now apply Hjk).
      now rewrite F.
    + now rewrite IH.
Qed.

Lemma renumber_from_objects (items : list value) (k : Z) :
  forallb is_object items = true ->
  exists out,
    renumber_from k items = inr out /\
    List.length out = List.length items /\
    forall i q,
      nth_error items i = Some q ->
      exists fields,
        q = VObj fields /\
        nth_error out i =
          Some (VObj (set_field "id"
                        (VStr ("dynamic_question_" ++ decimal (k + Z.of_nat i + 1)))
                        fields)).
Proof.
  revert k. induction items as [|q items IH]; intros k Hall.
  - exists []. repeat split. intros [|i] q H; discriminate H.
  - simpl in Hall. apply andb_true_iff in Hall as [Hq Hrest].
    destruct q; try discriminate Hq.
    destruct (IH (k + 1) Hrest) as (out & Hout & Hlen & Hnth).
    eexists. cbn [renumber_from set_id]. rewrite Hout.
    split; [reflexivity|]. split; [simpl; now rewrite Hlen|].
    intros [|i] q H.
    + inversion H; subst q. exists fields. split; [reflexivity|].
      cbn [nth_error Z.of_nat]. now rewrite Z.add_0_r.
    + destruct (Hnth i q H) as (f & -> & Hi). exists f. split; [reflexivity|].
      cbn [nth_error]. rewrite Hi.
      now replace (k + 1 + Z.of_nat i + 1) with (k + Z.of_nat (S i) + 1) by lia.
Qed.

(** C5.  When the service's text parses to an array of question objects,
    the endpoint answers 200 with an array of the same length in the same
    order, whose item at position [i] (from 0) has the id
    [dynamic_question_] followed by [i + 1], whatever id the item came
    with and whether it had one; its other fields are as parsed. *)
Theorem generated_ids_are_renumbered
    (req : GenerateRequest) (ids : list string) (text cleanedText : string)
    (items : list value) :
  coreQuestionIds req = Some ids ->
  generateContent (mkPrompt (languageMap (gen_language req)) (String.concat ", " ids))
    = inr text ->
  extractJsonArray text = inr cleanedText ->
  JSON_parse cleanedText = inr (VArr items) ->
  forallb is_object items = true ->
  exists out,
    reply (post_generate_questions req) = mkResponse 200 (JsonBody (VArr out)) /\
    List.length out = List.length items /\
    forall i q,
      nth_error items i = Some q ->
      exists q',
        nth_error out i = Some q' /\
        field_of "id" q' = Some (VStr ("dynamic_question_" ++ decimal (Z.of_nat i + 1))) /\
        forall k, k <> "id" -> field_of k q' = field_of k q.
Proof.
  intros Hids Hgen Hex Hparse Hobj.
  destruct (renumber_from_objects items 0 Hobj) as (out & Hout & Hlen & Hnth).
  exists out. split; [|split; [exact Hlen|]].
  - rewrite (generate_after_answer req ids text Hids Hgen).
    unfold parse_questions. now rewrite Hex, Hparse, Hout.
  - intros i q Hq. destruct (Hnth i q Hq) as (f & -> & Hi).
    eexists. split; [exact Hi|]. cbn [field_of]. split.
    + now rewrite get_field_set_same.
    + intros k Hk. now apply get_field_set_other.
Qed.

(** *** Failures of the completion service *)

Lemma at_most_one_call (req : GenerateRequest) :
  (List.length (calls (post_generate_questions req)) <= 1)%nat.
Proof.
  unfold post_generate_questions.
  destruct (coreQuestionIds req); [|simpl; lia].
  destruct (generateContent _); [simpl; lia|].
  destruct (parse_questions _); simpl; lia.
Qed.

(** C9 (as the server has it).  When the call of the completion service
    fails, the endpoint has made that one call and no other, and answers
    with exactly one of two replies that differ: 429 with the rate-limit
    text when the error's status is 429 or its text holds 429, whatever
    the failure was, and otherwise 500 with the failure text. *)
Theorem service_failure_is_classified
    (req : GenerateRequest) (ids : list string) (error : JsError) :
  coreQuestionIds req = Some ids ->
  generateContent (mkPrompt (languageMap (gen_language req)) (String.concat ", " ids))
    = inl error ->
  let g := post_generate_questions req in
  calls g = [mkPrompt (languageMap (gen_language req)) (String.concat ", " ids)] /\
  (isRateLimitError error = true /\ reply g = rate_limited \/
   isRateLimitError error = false /\ reply g = generation_failed) /\
  rate_limited <> generation_failed /\
  (status error = Some 429 -> reply g = rate_limited) /\
  (includes (toString error) "429" = true -> reply g = rate_limited) /\
  (status error <> Some 429 -> includes (toString error) "429" = false ->
   reply g = generation_failed).
Proof.
  intros Hids Hgen g.
  assert (Hg : g = mkGenerated (handleGeminiError error context)
                     [mkPrompt (languageMap (gen_language req)) (String.concat ", " ids)]).
  { subst g. unfold post_generate_questions. now rewrite Hids, Hgen. }
  rewrite Hg. cbn [calls reply]. unfold handleGeminiError, isRateLimitError.
  split; [reflexivity|]. split; [|split; [discriminate|]].
  - destruct (match status error with Some n => n =? 429 | None => false end
              || includes (toString error) "429"); [left|right]; split; reflexivity.
  - repeat split.
    + intros ->. now rewrite Z.eqb_refl.
    + intros ->. now rewrite orb_true_r.
    + intros Hst ->. destruct (status error) as [n|]; [|reflexivity].
      destruct (Z.eqb_spec n 429); [subst; now contradiction Hst | reflexivity].
Qed.

(** *** Uploads *)

Lemma prefix_append (p s : string) : String.prefix p (p ++ s) = true.
Proof.
  induction p as [|x p IH]; simpl; [now destruct s|].
  destruct (ascii_dec x x) as [_|N]; [exact IH | now contradiction N].
Qed.

Lemma includes_append_l (p s : string) : includes (p ++ s) p = true.
Proof.
  destruct p as [|x p]; [now destruct s|].
  cbn [append includes]. change (String x (p ++ s)) with (String x p ++ s).
  now rewrite prefix_append.
Qed.

Lemma includes_append_r (a s pat : string) :
  includes s pat = true -> includes (a ++ s) pat = true.
Proof.
  intros H. induction a as [|x a IH]; [exact H|].
  cbn [append includes]. rewrite IH. now destruct (String.prefix pat (String x (a ++ s))).
Qed.

Lemma includes_empty (s : string) : includes s "" = true.
Proof. now destruct s. Qed.

Lemma upload_text_names_the_file (originalname : string) (docType : option string) :
  includes (upload_text originalname docType) originalname = true.
Proof.
  unfold upload_text. do 2 apply includes_append_r. apply includes_append_l.
Qed.

Lemma upload_text_names_the_type (originalname ty : string) :
  includes (upload_text originalname (Some ty)) ty = true.
Proof.
  destruct ty as [|x ty]; [apply includes_empty|].
  unfold upload_text. do 5 apply includes_append_r. apply includes_append_l.
Qed.

Lemma upload_text_without_type (originalname : string) :
  includes (upload_text originalname None) "unspecified type" = true.
Proof.
  unfold upload_text. do 5 apply includes_append_r. apply includes_append_l.
Qed.

(** The two inserts of an upload, run on arguments of the handler's making. *)
Lemma document_create_run
    (fileName originalName filePath : string) (aid : option Z) (ty : option string)
    (now : Z) (s : Store) :
  document_create (mkDocumentData fileName originalName filePath aid (field ty)) now s =
    match aid with
    | Some n =>
        if int4 n then
          if has_assessment s n then
            let row := mkDocument (document_seq s) fileName originalName filePath ty now n in
            let s' := set_documents s (documents s ++ [row])%list (document_seq s + 1) in
            mkOutcome s' [s'] (inr row)
          else
            mkOutcome (set_documents s (documents s) (document_seq s + 1)) []
                      (inl ForeignKeyViolation)
        else mkOutcome s [] (inl PrismaValidation)
    | None => mkOutcome s [] (inl PrismaValidation)
    end.
Proof.
  unfold document_create.
  cbn [data_fileName data_originalName data_filePath data_doc_assessmentId data_docType].
  destruct aid as [n|]; [|reflexivity].
  destruct (int4 n) eqn:Hi;
    [rewrite (as_int_ok _ Hi) | rewrite (as_int_refused _ Hi); reflexivity].
  run. destruct ty; cbn [field as_optional_string]; run;
    destruct (has_assessment s n); run; reflexivity.
Qed.

Lemma message_create_run (aid : option Z) (sender text : string) (now : Z) (s : Store) :
  message_create aid (VStr sender) (VStr text) now s =
    match aid with
    | Some n =>
        if int4 n then
          if has_assessment s n then
            let row := mkMessage (message_seq s) sender text now n in
            let s' := set_messages s (messages s ++ [row])%list (message_seq s + 1) in
            mkOutcome s' [s'] (inr row)
          else
            mkOutcome (set_messages s (messages s) (message_seq s + 1)) []
                      (inl ForeignKeyViolation)
        else mkOutcome s [] (inl PrismaValidation)
    | None => mkOutcome s [] (inl PrismaValidation)
    end.
Proof.
  unfold message_create.
  destruct aid as [n|]; [|reflexivity].
  destruct (int4 n) eqn:Hi;
    [rewrite (as_int_ok _ Hi) | rewrite (as_int_refused _ Hi); reflexivity].
  run. cbn [as_string]. run.
  destruct (has_assessment s n); run; reflexivity.
Qed.

(** Every run of the upload handler is one of three: 400 before the store
    is reached; 500 with no row added; or 201 after two commits, the
    document and then the System message on the same assessment. *)
Lemma upload_cases (req : UploadRequest) (t_document t_message : Z) (s : Store) :
  let h := post_documents_upload req t_document t_message s in
  ((file req = None \/ truthy (field (assessmentId req)) = false) /\
   h = mkHandled s [] nothing_to_upload)
  \/
  (exists s', h = mkHandled s' [] (mkResponse 500 (ErrorBody "Failed to upload document."))
              /\ same_rows s s' /\
              (Number (field (assessmentId req)) = None \/
               exists aid, Number (field (assessmentId req)) = Some aid /\
                           (int4 aid = false \/ has_assessment s aid = false)))
  \/
  (exists f aid,
      file req = Some f /\ truthy (field (assessmentId req)) = true /\
      Number (field (assessmentId req)) = Some aid /\ has_assessment s aid = true /\
      let d := mkDocument (document_seq s) (filename f) (originalname f)
                          ("uploads/" ++ filename f) (docType req) t_document aid in
      let m := mkMessage (message_seq s) "System"
                         (upload_text (originalname f) (docType req)) t_message aid in
      let s1 := set_documents s (documents s ++ [d])%list (document_seq s + 1) in
      let s2 := set_messages s1 (messages s ++ [m])%list (message_seq s + 1) in
      h = mkHandled s2 [s1; s2] (mkResponse 201 (DocumentBody uploaded d))).
Proof.
  cbv zeta. unfold post_documents_upload, try_catch, nothing_to_upload.
  destruct (file req) as [f|]; [|left; split; [now left | reflexivity]].
  destruct (truthy (field (assessmentId req))) eqn:Ht;
    [|left; split; [now right | reflexivity]].
  right. cbn [negb].
  rewrite bind_run, document_create_run.
  destruct (Number (field (assessmentId req))) as [aid|];
    [|left; eexists; split; [reflexivity | split; [now unfold same_rows | now left]]].
  destruct (int4 aid) eqn:Hi;
    [|left; eexists; split; [reflexivity | split; [now unfold same_rows |]];
      right; exists aid; auto].
  destruct (has_assessment s aid) eqn:Ha;
    [|left; eexists; split; [reflexivity | split; [now unfold same_rows |]];
      right; exists aid; auto].
  right. exists f, aid. do 3 (split; [reflexivity|]). split; [exact Ha|].
  cbv zeta. cbn [result final commits].
  rewrite bind_run, message_create_run, Hi.
  replace (has_assessment
             (set_documents s
                (documents s ++
                 [mkDocument (document_seq s) (filename f) (originalname f)
                    ("uploads/" ++ filename f) (docType req) t_document aid])%list
                (document_seq s + 1)) aid) with true by (symmetry; exact Ha).
  reflexivity.
Qed.

(** An upload with a file, for an assessment that exists, goes through. *)
Lemma upload_succeeds
    (req : UploadRequest) (t_document t_message : Z) (s : Store) (f : File) (aid : Z) :
  file req = Some f -> truthy (field (assessmentId req)) = true ->
  Number (field (assessmentId req)) = Some aid -> int4 aid = true ->
  has_assessment s aid = true ->
  http (response (post_documents_upload req t_document t_message s)) = 201.
Proof.
  intros Hf Ht Hn Hi Ha.
  destruct (upload_cases req t_document t_message s)
    as [([E|E] & _)
       |[(s' & _ & _ & [E|(aid' & E & [E'|E'])])
        |(f' & aid' & _ & _ & _ & _ & Hh)]];
    try congruence.
  cbv zeta in Hh. now rewrite Hh.
Qed.

(** C6.  An upload that is answered 201 has added, besides the document
    row, one message of sender System on the same assessment, whose text is
    the upload sentence with the original file name and the document type
    in it (the words "unspecified type" when none was given). *)
Theorem upload_is_announced
    (req : UploadRequest) (t_document t_message : Z) (s : Store) :
  let h := post_documents_upload req t_document t_message s in
  http (response h) = 201 ->
  exists f d m,
    file req = Some f /\
    response h = mkResponse 201 (DocumentBody uploaded d) /\
    documents (after h) = (documents s ++ [d])%list /\
    messages (after h) = (messages s ++ [m])%list /\
    d_originalName d = originalname f /\
    m_sender m = "System" /\
    m_assessmentId m = d_assessmentId d /\
    Number (field (assessmentId req)) = Some (d_assessmentId d) /\
    m_text m = upload_text (originalname f) (docType req) /\
    includes (m_text m) (originalname f) = true /\
    (forall ty, docType req = Some ty -> includes (m_text m) ty = true) /\
    (docType req = None -> includes (m_text m) "unspecified type" = true).
Proof.
  intros h H201.
  destruct (upload_cases req t_document t_message s)
    as [(_ & Hh)|[(s' & Hh & _)|(f & aid & Hf & _ & Hn & _ & Hh)]]; fold h in Hh.
  - rewrite Hh in H201. discriminate H201.
  - rewrite Hh in H201. discriminate H201.
  - cbv zeta in Hh. rewrite Hh. cbn [response after documents messages set_messages
                                       set_documents].
    eexists f, _, _. repeat split; try reflexivity; cbn; auto.
    + apply upload_text_names_the_file.
    + intros ty ->. apply upload_text_names_the_type.
    + intros ->. apply upload_text_without_type.
Qed.

(** C7.  An upload with no file, or with no assessment id (none, or the
    empty string), is answered 400 before the store is reached: the store
    is the same afterwards and nothing was committed. *)
Theorem upload_without_file_or_id
    (req : UploadRequest) (t_document t_message : Z) (s : Store) :
  file req = None \/ assessmentId req = None \/ assessmentId req = Some "" ->
  let h := post_documents_upload req t_document t_message s in
  response h = nothing_to_upload /\
  http (response h) = 400 /\
  after h = s /\ observable h = [] /\
  documents (after h) = documents s /\ messages (after h) = messages s.
Proof.
  intros H h.
  assert (Hh : h = mkHandled s [] nothing_to_upload).
  { subst h. unfold post_documents_upload, try_catch, nothing_to_upload.
    destruct (file req) as [f|]; [|reflexivity].
    destruct H as [H|[H|H]]; [discriminate H | |]; now rewrite H. }
  rewrite Hh. repeat split.
Qed.

(** The older upload handler of [cleanup_docs.js] adds no message. *)
Lemma cleanup_docs_upload_is_silent (req : UploadRequest) (t_document : Z) (s : Store) :
  messages (after (cleanup_docs_upload req t_document s)) = messages s.
Proof.
  unfold cleanup_docs_upload, try_catch.
  destruct (file req) as [f|]; [|reflexivity].
  destruct (truthy (field (assessmentId req))); [|reflexivity].
  cbn [negb].
  rewrite bind_run, (document_create_run _ _ _ _ None).
  destruct (Number (field (assessmentId req))) as [aid|]; [|reflexivity].
  destruct (int4 aid); [|reflexivity].
  destruct (has_assessment s aid); reflexivity.
Qed.

(** X1.  The older submit handler of [cleanup_docs.js] decides with the
    thresholds 750 and 600: a submission the store accepts is answered 201
    and persists one new assessment, Approved from 750 up, Manual Review
    from 600 to 749 and Rejected below 600. *)
Theorem cleanup_docs_submit_thresholds
    (req : SubmitRequest) (t_create t_touch : Z) (s : Store) (cid : Z) :
  Number (customerId req) = Some cid -> int4 cid = true ->
  has_customer s cid = true ->
  int4 (score req) = true -> present (answers req) = true ->
  let h := cleanup_docs_submit req t_create t_touch s in
  exists a,
    response h = mkResponse 201 (AssessmentBody submitted a) /\
    assessments (after h) = (assessments s ++ [a])%list /\
    (750 <= score req -> a_status a = "Approved") /\
    (600 <= score req < 750 -> a_status a = "Manual Review") /\
    (score req < 600 -> a_status a = "Rejected").
Proof.
  intros Hid Hi Hc Hs Ha h.
  destruct (cleanup_docs_submit_status req t_create t_touch s cid Hid Hi Hc Hs Ha)
    as (a & Hr & Hst & Hrows).
  exists a. split; [exact Hr|]. split; [exact Hrows|].
  rewrite Hst. unfold cleanup_docs_decide.
  destruct (Z.geb_spec (score req) 750), (Z.geb_spec (score req) 600);
    split; [|split| |split| |split| |split]; intros; auto; lia.
Qed.

(** *** The message thread *)

Lemma insert_by_createdAt_perm (m : Message) (l : list Message) :
  Permutation (insert_by_createdAt m l) (m :: l).
Proof.
  induction l as [|x l IH]; simpl; [reflexivity|].
  destruct (m_createdAt m <=? m_createdAt x); [reflexivity|].
  rewrite IH. apply perm_swap.
Qed.

Lemma orderBy_createdAt_asc_perm (l : list Message) :
  Permutation (orderBy_createdAt_asc l) l.
Proof.
  induction l as [|x l IH]; simpl; [reflexivity|].
  rewrite insert_by_createdAt_perm. now constructor.
Qed.

Lemma insert_by_createdAt_sorted (m : Message) (l : list Message) :
  StronglySorted earlier l -> StronglySorted earlier (insert_by_createdAt m l).
Proof.
  induction l as [|x l IH]; simpl; intros Hs.
  - repeat constructor.
  - inversion Hs as [|? ? Hl Hx]; subst.
    destruct (Z.leb_spec (m_createdAt m) (m_createdAt x)) as [Hle|Hgt].
    + constructor; [assumption|].
      constructor; [exact Hle|].
      rewrite Forall_forall in *. intros y Hy. unfold earlier in *.
      specialize (Hx y Hy). lia.
    + constructor; [now apply IH|].
      rewrite Forall_forall in *. intros y Hy.
      apply (Permutation_in _ (insert_by_createdAt_perm m l)) in Hy.
      destruct Hy as [<-|Hy]; [unfold earlier; lia | now apply Hx].
Qed.

Lemma orderBy_createdAt_asc_sorted (l : list Message) :
  StronglySorted earlier (orderBy_createdAt_asc l).
Proof.
  induction l as [|x l IH]; simpl; [constructor|].
  now apply insert_by_createdAt_sorted.
Qed.

(** C8.  For an id that [Number] reads as an integer of the column's
    range, the endpoint answers 200 with the messages of that assessment
    and no others, each as often as the table holds it, in non-decreasing
    order of creation stamp; with no such message the list is empty.  The
    store is not changed. *)
Theorem messages_are_read_in_order (id : string) (s : Store) (n : Z) :
  Number (VStr id) = Some n -> int4 n = true ->
  let h := get_assessment_messages id s in
  exists msgs,
    response h = mkResponse 200 (MessagesBody msgs) /\
    StronglySorted earlier msgs /\
    Permutation msgs (filter (fun m => m_assessmentId m =? n) (messages s)) /\
    (forall m, In m msgs <-> In m (messages s) /\ m_assessmentId m = n) /\
    ((forall m, In m (messages s) -> m_assessmentId m <> n) -> msgs = []) /\
    after h = s /\ observable h = [].
Proof.
  intros Hn Hi h.
  set (mine := filter (fun m => m_assessmentId m =? n) (messages s)).
  assert (Hh : h = mkHandled s [] (mkResponse 200 (MessagesBody (orderBy_createdAt_asc mine)))).
  { subst h. unfold get_assessment_messages, try_catch, bind, message_findMany, as_int,
      get, ret.
    rewrite Hn, Hi. reflexivity. }
  exists (orderBy_createdAt_asc mine). rewrite Hh. cbn [response after observable].
  pose proof (orderBy_createdAt_asc_perm mine) as Hperm.
  repeat split; auto.
  - apply orderBy_createdAt_asc_sorted.
  - apply (Permutation_in _ Hperm) in H. now apply filter_In in H.
  - apply (Permutation_in _ Hperm) in H. apply filter_In in H as [_ H].
    now apply Z.eqb_eq.
  - intros [Hin Hid]. apply (Permutation_in _ (Permutation_sym Hperm)).
    apply filter_In. split; [assumption | now apply Z.eqb_eq].
  - intros Hnone.
    assert (Hmine : mine = []).
    { subst mine. revert Hnone. generalize (messages s) as l.
      induction l as [|x l IH]; intros Hnone; [reflexivity|]. simpl.
      destruct (Z.eqb_spec (m_assessmentId x) n) as [E|_].
      - exfalso. apply (Hnone x); [now left | exact E].
      - apply IH. intros m Hm. apply Hnone. now right. }
    now rewrite Hmine.
Qed.

(** *** Status overrides *)

Lemma Forall2_map_same {A} (R : A -> A -> Prop) (f : A -> A) (l : list A) :
  (forall x, R x (f x)) -> Forall2 R l (map f l).
Proof. intros H. induction l; simpl; constructor; auto. Qed.

Lemma unchanged_but_status_refl (n : Z) (a : Assessment) : unchanged_but_status n a a.
Proof. unfold unchanged_but_status. repeat split. Qed.

Lemma status_update_runs
    (id : string) (status : value) (now : Z) (s : Store) (n : Z)
    (a0 : Assessment) (st : option string) :
  Number (VStr id) = Some n -> int4 n = true ->
  find (fun a => a_id a =? n) (assessments s) = Some a0 ->
  (status = VUndefined /\ st = None) \/ (exists x, status = VStr x /\ st = Some x) ->
  let s' := set_assessments s
              (map (fun x => if a_id x =? n then restatus st now x else x) (assessments s))
              (assessment_seq s) in
  patch_assessment_status id status now s =
    mkHandled s' [s']
      (mkResponse 200 (UpdatedBody "Status updated successfully." (restatus st now a0))).
Proof.
  intros Hn Hi Hfind Hst.
  unfold patch_assessment_status, try_catch, bind, assessment_update_status, as_int,
    as_optional_string, get, commit, ret.
  rewrite Hn, Hi.
  destruct Hst as [[-> ->]|(x & -> & ->)]; simpl;
    rewrite Hfind; reflexivity.
Qed.

Lemma status_update_refused
    (id : string) (status : value) (now : Z) (s : Store) (n : Z) :
  Number (VStr id) = Some n -> int4 n = true ->
  status <> VUndefined -> is_string status = false ->
  patch_assessment_status id status now s =
    mkHandled s [] (mkResponse 500 (ErrorBody "Failed to update status.")).
Proof.
  intros Hn Hi Hu Hs.
  unfold patch_assessment_status, try_catch, bind, assessment_update_status, as_int,
    as_optional_string, throw.
  rewrite Hn, Hi.
  destruct status; try reflexivity; [now contradiction Hu | discriminate Hs].
Qed.

Lemma status_frame_of_map (n : Z) (st : option string) (now : Z) (l : list Assessment) :
  Forall2 (unchanged_but_status n) l
    (map (fun x => if a_id x =? n then restatus st now x else x) l).
Proof.
  apply Forall2_map_same. intros x.
  destruct (Z.eqb_spec (a_id x) n) as [E|E].
  - unfold unchanged_but_status, restatus; cbn. repeat split.
    intros N. now contradiction N.
  - apply unchanged_but_status_refl.
Qed.

(** C10.  A status update of an existing assessment leaves customers,
    messages and documents alone and keeps, row by row, every assessment's
    id, score, answers, breakdown, customer, language and creation stamp;
    rows of another id are kept whole.  A string status is stored as it is,
    whatever it says, and the endpoint answers 200 with the updated row. *)
Theorem status_update_frame (id : string) (status : value) (now : Z) (s : Store) (n : Z) :
  Number (VStr id) = Some n -> int4 n = true -> has_assessment s n = true ->
  let h := patch_assessment_status id status now s in
  customers (after h) = customers s /\
  messages (after h) = messages s /\
  documents (after h) = documents s /\
  Forall2 (unchanged_but_status n) (assessments s) (assessments (after h)) /\
  (forall st,
      status = VStr st ->
      (exists updated,
          response h = mkResponse 200 (UpdatedBody "Status updated successfully." updated) /\
          a_id updated = n /\ a_status updated = st) /\
      (forall a, In a (assessments (after h)) -> a_id a = n -> a_status a = st)).
Proof.
  intros Hn Hi Ha h.
  destruct (find_of_existsb _ _ Ha) as (a0 & Hfind & Hid0). apply Z.eqb_eq in Hid0.
  assert (Hrun : (exists st, h = mkHandled
                     (set_assessments s
                        (map (fun x => if a_id x =? n then restatus st now x else x)
                             (assessments s)) (assessment_seq s))
                     [set_assessments s
                        (map (fun x => if a_id x =? n then restatus st now x else x)
                             (assessments s)) (assessment_seq s)]
                     (mkResponse 200
                        (UpdatedBody "Status updated successfully." (restatus st now a0)))
                   /\ forall x, status = VStr x -> st = Some x)
                 \/ (h = mkHandled s [] (mkResponse 500 (ErrorBody "Failed to update status."))
                     /\ is_string status = false)).
  { subst h. destruct status as [| | | | |x| |];
      try (right; split; [apply (status_update_refused id _ now s n Hn Hi);
                          [discriminate | reflexivity] | reflexivity]).
    - left. exists None. split; [|discriminate].
      apply (status_update_runs id VUndefined now s n a0 None Hn Hi Hfind). now left.
    - left. exists (Some x). split; [|intros y Hy; now inversion Hy].
      apply (status_update_runs id (VStr x) now s n a0 (Some x) Hn Hi Hfind).
      right. now exists x. }
  destruct Hrun as [(st & Hh & Hst)|(Hh & Hnot)]; rewrite Hh;
    cbn [after response customers messages documents assessments set_assessments].
  - repeat split; auto.
    + apply status_frame_of_map.
    + exists (restatus st now a0). rewrite (Hst _ H). repeat split. exact Hid0.
    + intros a Hin Hid. rewrite (Hst _ H) in Hin.
      apply in_map_iff in Hin as (x & Hx & _).
      destruct (Z.eqb_spec (a_id x) n) as [E|E]; subst a; [reflexivity|].
      now contradiction E.
  - repeat split; auto.
    + rewrite <- (map_id (assessments s)) at 2.
      apply Forall2_map_same. intros x. apply unchanged_but_status_refl.
    + subst status. discriminate Hnot.
    + subst status. discriminate Hnot.
Qed.

(** ** Properties of the rest of the server *)

(** *** Scoring *)

(** X4.  A higher score never gets a worse decision. *)
Theorem decide_is_monotone (s1 s2 : Z) :
  s1 <= s2 -> standing (decide s1) <= standing (decide s2).
Proof.
  intros H. unfold decide.
  destruct (Z.geb_spec s1 700), (Z.geb_spec s1 500), (Z.geb_spec s2 700),
    (Z.geb_spec s2 500); cbn; lia.
Qed.

(** X5.  The two copies of the submit handler decide alike except on two
    bands of scores: from 500 to 599 and from 700 to 749. *)
Theorem decide_disagreement (z : Z) :
  cleanup_docs_decide z = decide z <-> ~ (500 <= z < 600 \/ 700 <= z < 750).
Proof.
  unfold cleanup_docs_decide, decide.
  destruct (Z.geb_spec z 750), (Z.geb_spec z 600), (Z.geb_spec z 700),
    (Z.geb_spec z 500); split; intros Hd; try reflexivity; try lia;
    try discriminate Hd; exfalso; apply Hd; lia.
Qed.

(** *** Newest first *)

Lemma insert_newest_first_perm (a : Assessment) (l : list Assessment) :
  Permutation (insert_newest_first a l) (a :: l).
Proof.
  induction l as [|x l IH]; simpl; [reflexivity|].
  destruct (a_createdAt x <=? a_createdAt a); [reflexivity|].
  rewrite IH. apply perm_swap.
Qed.

Lemma orderBy_createdAt_desc_perm (l : list Assessment) :
  Permutation (orderBy_createdAt_desc l) l.
Proof.
  induction l as [|x l IH]; simpl; [reflexivity|].
  rewrite insert_newest_first_perm. now constructor.
Qed.

Lemma insert_newest_first_sorted (a : Assessment) (l : list Assessment) :
  StronglySorted newer l -> StronglySorted newer (insert_newest_first a l).
Proof.
  induction l as [|x l IH]; simpl; intros Hs.
  - repeat constructor.
  - inversion Hs as [|? ? Hl Hx]; subst.
    destruct (Z.leb_spec (a_createdAt x) (a_createdAt a)) as [Hle|Hgt].
    + constructor; [assumption|].
      constructor; [exact Hle|].
      rewrite Forall_forall in *. intros y Hy. unfold newer in *.
      specialize (Hx y Hy). lia.
    + constructor; [now apply IH|].
      rewrite Forall_forall in *. intros y Hy.
      apply (Permutation_in _ (insert_newest_first_perm a l)) in Hy.
      destruct Hy as [<-|Hy]; [unfold newer; lia | now apply Hx].
Qed.

Lemma orderBy_createdAt_desc_sorted (l : list Assessment) :
  StronglySorted newer (orderBy_createdAt_desc l).
Proof.
  induction l as [|x l IH]; simpl; [constructor|].
  now apply insert_newest_first_sorted.
Qed.

(** The head of the newest-first order: none for no rows, and otherwise a
    row at least as new as every row. *)
Lemma newest_first_head (l : list Assessment) :
  match hd_error (orderBy_createdAt_desc l) with
  | None => l = []
  | Some a => In a l /\ forall b, In b l -> newer a b
  end.
Proof.
  pose proof (orderBy_createdAt_desc_perm l) as Hp.
  pose proof (orderBy_createdAt_desc_sorted l) as Hs.
  destruct (orderBy_createdAt_desc l) as [|a rest]; simpl.
  - now apply Permutation_nil.
  - split; [apply (Permutation_in _ Hp); now left|].
    intros b Hb. apply (Permutation_in _ (Permutation_sym Hp)) in Hb.
    inversion Hs as [|? ? _ Ha]; subst.
    destruct Hb as [<-|Hb]; [unfold newer; lia|].
    rewrite Forall_forall in Ha. now apply Ha.
Qed.

Lemma latest_run (id : string) (s : Store) (n : Z) :
  Number (VStr id) = Some n -> int4 n = true ->
  get_latest_assessment id s = mkAnswer 200 (inr (latest_of s n)).
Proof.
  intros Hn Hi. unfold get_latest_assessment, try_read, assessment_findFirst.
  rewrite Hn, (as_int_ok _ Hi). run. reflexivity.
Qed.

(** X6.  For a customer id in range, the latest-assessment endpoint answers
    200: with no assessment ([null]) when the customer has none, and
    otherwise with one of the customer's assessments that is at least as
    new as each of them, together with exactly the messages and documents
    of that assessment. *)
Theorem latest_assessment_is_newest (id : string) (s : Store) (n : Z) :
  Number (VStr id) = Some n -> int4 n = true ->
  exists found,
    get_latest_assessment id s = mkAnswer 200 (inr found) /\
    match found with
    | None => forall a, In a (assessments s) -> a_customerId a <> n
    | Some t =>
        In (thread_assessment t) (assessments s) /\
        a_customerId (thread_assessment t) = n /\
        (forall a, In a (assessments s) -> a_customerId a = n ->
                   a_createdAt a <= a_createdAt (thread_assessment t)) /\
        (forall m, In m (thread_messages t) <->
                   In m (messages s) /\ m_assessmentId m = a_id (thread_assessment t)) /\
        (forall d, In d (thread_documents t) <->
                   In d (documents s) /\ d_assessmentId d = a_id (thread_assessment t))
    end.
Proof.
  intros Hn Hi. exists (latest_of s n). split; [now apply latest_run|].
  unfold latest_of.
  pose proof (newest_first_head (filter (fun a => a_customerId a =? n) (assessments s)))
    as Hhd.
  destruct (hd_error _) as [a|]; cbn [option_map].
  - destruct Hhd as [Hin Hmax]. apply filter_In in Hin as [Hin Hc].
    apply Z.eqb_eq in Hc. cbn [include_thread thread_assessment thread_messages
                                 thread_documents].
    split; [exact Hin|]. split; [exact Hc|]. split.
    { intros b Hb Hbc. apply (Hmax b). apply filter_In. split; [exact Hb|].
      now apply Z.eqb_eq. }
    split; intros x; rewrite filter_In, Z.eqb_eq; reflexivity.
  - intros a Ha Hc.
    assert (Hf : In a (filter (fun a => a_customerId a =? n) (assessments s)))
      by (apply filter_In; split; [exact Ha | now apply Z.eqb_eq]).
    rewrite Hhd in Hf. exact Hf.
Qed.

(** *** Submission, then reading *)

Lemma submit_accepted_run
    (req : SubmitRequest) (t_create t_touch : Z) (s : Store) (cid : Z) (lang : string) :
  Number (customerId req) = Some cid -> int4 cid = true ->
  has_customer s cid = true ->
  int4 (score req) = true -> present (answers req) = true ->
  or_else (language req) (VStr "en") = VStr lang ->
  let row := mkAssessment (assessment_seq s) (score req) (decide (score req))
                          (answers req) (breakdown req) lang cid t_create t_create in
  let s1 := set_assessments s (assessments s ++ [row])%list (assessment_seq s + 1) in
  let s2 := set_customers s1
              (map (fun x => if c_id x =? cid then touch t_touch x else x) (customers s)) in
  post_assessment_submit req t_create t_touch s =
    mkHandled s2 [s1; s2] (mkResponse 201 (AssessmentBody submitted row)).
Proof.
  intros Hid Hi Hc Hs Ha Hl. cbv zeta.
  unfold post_assessment_submit, try_catch.
  rewrite bind_run, assessment_create_run.
  cbn [data_customerId data_score data_answers data_language data_status data_breakdown].
  rewrite Hid, Hi, Hs, Ha, Hl, Hc. cbv zeta. cbn [andb result final commits].
  destruct (customer_update_ok cid t_touch
              (set_assessments s
                 (assessments s ++
                  [mkAssessment (assessment_seq s) (score req) (decide (score req))
                     (answers req) (breakdown req) lang cid t_create t_create])%list
                 (assessment_seq s + 1)) Hi Hc) as (c & Hup).
  cbv zeta in Hup. rewrite bind_run, Hup. reflexivity.
Qed.

(** X7.  After an accepted submission stamped later than every earlier
    assessment of the customer, the latest-assessment endpoint returns the
    assessment just submitted. *)
Theorem submit_then_latest
    (req : SubmitRequest) (t_create t_touch : Z) (s : Store) (cid : Z) (id : string) :
  Number (customerId req) = Some cid -> Number (VStr id) = Some cid ->
  int4 cid = true -> has_customer s cid = true ->
  int4 (score req) = true -> present (answers req) = true ->
  is_string (or_else (language req) (VStr "en")) = true ->
  (forall a, In a (assessments s) -> a_customerId a = cid -> a_createdAt a < t_create) ->
  let h := post_assessment_submit req t_create t_touch s in
  exists a t,
    response h = mkResponse 201 (AssessmentBody submitted a) /\
    get_latest_assessment id (after h) = mkAnswer 200 (inr (Some t)) /\
    thread_assessment t = a /\
    a_score a = score req /\ a_status a = decide (score req).
Proof.
  intros Hid Hid' Hi Hc Hs Ha Hl Hnew h.
  destruct (or_else (language req) (VStr "en")) as [| | | | |lang| |] eqn:El;
    try discriminate Hl.
  pose proof (submit_accepted_run req t_create t_touch s cid lang Hid Hi Hc Hs Ha El)
    as Hrun.
  cbv zeta in Hrun. subst h. rewrite Hrun. cbn [response after].
  rewrite (latest_run id _ cid Hid' Hi).
  set (row := mkAssessment (assessment_seq s) (score req) (decide (score req))
                (answers req) (breakdown req) lang cid t_create t_create).
  unfold latest_of. cbn [assessments set_customers set_assessments].
  rewrite filter_app. unfold row at 1. cbn [filter a_customerId]. rewrite Z.eqb_refl.
  fold row.
  pose proof (newest_first_head
                (filter (fun a => a_customerId a =? cid) (assessments s) ++ [row])) as Hhd.
  destruct (hd_error _) as [a|].
  - destruct Hhd as [Hin Hmax].
    assert (Ea : a = row).
    { apply in_app_or in Hin as [Hin|[Hin|[]]]; [|now symmetry].
      apply filter_In in Hin as [Hin Hca]. apply Z.eqb_eq in Hca.
      assert (Hrow : In row (filter (fun a => a_customerId a =? cid) (assessments s)
                             ++ [row])) by (apply in_or_app; right; now left).
      specialize (Hmax row Hrow).
      specialize (Hnew a Hin Hca). unfold newer in Hmax. cbn in Hmax. lia. }
    subst a. eexists row, _. repeat split.
  - exfalso. destruct (filter _ (assessments s)); discriminate Hhd.
Qed.

(** *** The store stays consistent *)

Lemma NoDup_snoc_fresh (l : list Z) (x : Z) :
  NoDup l -> Forall (fun y => y < x) l -> NoDup (l ++ [x]).
Proof.
  intros Hn Hl. induction l as [|y l IH]; simpl.
  - constructor; [intros [] | constructor].
  - inversion Hn; inversion Hl; subst. constructor; [|now apply IH].
    intros Hin. apply in_app_or in Hin as [Hin|[Hin|[]]]; [contradiction | lia].
Qed.

Lemma Forall_snoc {A} (P : A -> Prop) (l : list A) (x : A) :
  Forall P l -> P x -> Forall P (l ++ [x]).
Proof. intros Hl Hx. apply Forall_app. split; [assumption | now constructor]. Qed.

Lemma existsb_snoc {A} (f : A -> bool) (l : list A) (x : A) :
  existsb f l = true -> existsb f (l ++ [x]) = true.
Proof. intros H. rewrite existsb_app, H. reflexivity. Qed.

Lemma consistent_draw_assessment (s : Store) :
  consistent s -> consistent (set_assessments s (assessments s) (assessment_seq s + 1)).
Proof.
  unfold consistent, has_customer, has_assessment. cbn.
  intros (Hc & Ha & Haf & Hm & Hmf & Hd & Hdf). repeat split; auto.
  eapply Forall_impl; [|exact Haf]. cbn. intros a [H1 H2]. split; [lia | exact H2].
Qed.

Lemma consistent_draw_message (s : Store) :
  consistent s -> consistent (set_messages s (messages s) (message_seq s + 1)).
Proof.
  unfold consistent, has_customer, has_assessment. cbn.
  intros (Hc & Ha & Haf & Hm & Hmf & Hd & Hdf). repeat split; auto.
  eapply Forall_impl; [|exact Hmf]. cbn. intros a [H1 H2]. split; [lia | exact H2].
Qed.

Lemma consistent_draw_document (s : Store) :
  consistent s -> consistent (set_documents s (documents s) (document_seq s + 1)).
Proof.
  unfold consistent, has_customer, has_assessment. cbn.
  intros (Hc & Ha & Haf & Hm & Hmf & Hd & Hdf). repeat split; auto.
  eapply Forall_impl; [|exact Hdf]. cbn. intros a [H1 H2]. split; [lia | exact H2].
Qed.

Lemma consistent_add_assessment (s : Store) (row : Assessment) :
  consistent s -> a_id row = assessment_seq s ->
  has_customer s (a_customerId row) = true ->
  consistent (set_assessments s (assessments s ++ [row])%list (assessment_seq s + 1)).
Proof.
  unfold consistent, has_customer, has_assessment. cbn.
  intros (Hc & Ha & Haf & Hm & Hmf & Hd & Hdf) Hid Hcu.
  split; [exact Hc|]. split.
  { rewrite map_app. cbn. rewrite Hid. apply NoDup_snoc_fresh; [exact Ha|].
    apply Forall_map. eapply Forall_impl; [|exact Haf]. cbn. now intros a [H1 _]. }
  split.
  { apply Forall_snoc.
    - eapply Forall_impl; [|exact Haf]. cbn. intros a [H1 H2]. split; [lia | exact H2].
    - split; [lia | exact Hcu]. }
  split; [exact Hm|]. split.
  { eapply Forall_impl; [|exact Hmf]. cbn. intros m [H1 H2].
    split; [exact H1 | now apply existsb_snoc]. }
  split; [exact Hd|].
  eapply Forall_impl; [|exact Hdf]. cbn. intros d [H1 H2].
  split; [exact H1 | now apply existsb_snoc].
Qed.

Lemma consistent_add_message (s : Store) (row : Message) :
  consistent s -> m_id row = message_seq s ->
  has_assessment s (m_assessmentId row) = true ->
  consistent (set_messages s (messages s ++ [row])%list (message_seq s + 1)).
Proof.
  unfold consistent, has_customer, has_assessment. cbn.
  intros (Hc & Ha & Haf & Hm & Hmf & Hd & Hdf) Hid Has.
  split; [exact Hc|]. split; [exact Ha|]. split; [exact Haf|]. split.
  { rewrite map_app. cbn. rewrite Hid. apply NoDup_snoc_fresh; [exact Hm|].
    apply Forall_map. eapply Forall_impl; [|exact Hmf]. cbn. now intros a [H1 _]. }
  split.
  { apply Forall_snoc.
    - eapply Forall_impl; [|exact Hmf]. cbn. intros a [H1 H2]. split; [lia | exact H2].
    - split; [lia | exact Has]. }
  split; [exact Hd | exact Hdf].
Qed.

Lemma consistent_add_document (s : Store) (row : Document) :
  consistent s -> d_id row = document_seq s ->
  has_assessment s (d_assessmentId row) = true ->
  consistent (set_documents s (documents s ++ [row])%list (document_seq s + 1)).
Proof.
  unfold consistent, has_customer, has_assessment. cbn.
  intros (Hc & Ha & Haf & Hm & Hmf & Hd & Hdf) Hid Has.
  split; [exact Hc|]. split; [exact Ha|]. split; [exact Haf|].
  split; [exact Hm|]. split; [exact Hmf|]. split.
  { rewrite map_app. cbn. rewrite Hid. apply NoDup_snoc_fresh; [exact Hd|].
    apply Forall_map. eapply Forall_impl; [|exact Hdf]. cbn. now intros a [H1 _]. }
  apply Forall_snoc.
  - eapply Forall_impl; [|exact Hdf]. cbn. intros a [H1 H2]. split; [lia | exact H2].
  - split; [lia | exact Has].
Qed.

Lemma touched_ids (n t : Z) (l : list Customer) :
  map c_id (map (fun x => if c_id x =? n then touch t x else x) l) = map c_id l.
Proof.
  rewrite map_map. apply map_ext. intros x. now destruct (c_id x =? n).
Qed.

Lemma touched_has (n t id : Z) (l : list Customer) :
  existsb (fun c => c_id c =? id) (map (fun x => if c_id x =? n then touch t x else x) l)
  = existsb (fun c => c_id c =? id) l.
Proof.
  induction l as [|x l IH]; [reflexivity|]. cbn [map existsb]. rewrite IH.
  now destruct (c_id x =? n).
Qed.

Lemma consistent_touch (s : Store) (n t : Z) :
  consistent s ->
  consistent (set_customers s
                (map (fun x => if c_id x =? n then touch t x else x) (customers s))).
Proof.
  unfold consistent, has_customer, has_assessment. cbn.
  intros (Hc & Ha & Haf & Hm & Hmf & Hd & Hdf).
  rewrite touched_ids. repeat split; auto.
  eapply Forall_impl; [|exact Haf]. cbn. intros a [H1 H2].
  split; [exact H1 | now rewrite touched_has].
Qed.

Lemma restatused_has (n id now : Z) (st : option string) (l : list Assessment) :
  existsb (fun a => a_id a =? id)
          (map (fun x => if a_id x =? n then restatus st now x else x) l)
  = existsb (fun a => a_id a =? id) l.
Proof.
  induction l as [|x l IH]; [reflexivity|]. cbn [map existsb]. rewrite IH.
  now destruct (a_id x =? n).
Qed.

Lemma consistent_restatus (s : Store) (n now : Z) (st : option string) :
  consistent s ->
  consistent (set_assessments s
                (map (fun x => if a_id x =? n then restatus st now x else x)
                     (assessments s))
                (assessment_seq s)).
Proof.
  unfold consistent, has_customer, has_assessment. cbn.
  intros (Hc & Ha & Haf & Hm & Hmf & Hd & Hdf).
  split; [exact Hc|]. split.
  { rewrite map_map.
    erewrite map_ext; [exact Ha|]. intros x. now destruct (a_id x =? n). }
  split.
  { apply Forall_map. eapply Forall_impl; [|exact Haf]. cbn. intros a H.
    now destruct (a_id a =? n). }
  split; [exact Hm|]. split.
  { eapply Forall_impl; [|exact Hmf]. cbn. intros m [H1 H2].
    split; [exact H1 | now rewrite restatused_has]. }
  split; [exact Hd|].
  eapply Forall_impl; [|exact Hdf]. cbn. intros d [H1 H2].
  split; [exact H1 | now rewrite restatused_has].
Qed.

Lemma keeps_ret {A} (x : A) : keeps (ret x).
Proof. intros s Hs. split; [exact Hs | constructor]. Qed.

Lemma keeps_throw {A} (e : JsError) : keeps (@throw A e).
Proof. intros s Hs. split; [exact Hs | constructor]. Qed.

Lemma keeps_bind {A B} (m : M A) (k : A -> M B) :
  keeps m -> (forall x, keeps (k x)) -> keeps (bind m k).
Proof.
  intros Hm Hk s Hs. rewrite bind_run.
  destruct (Hm s Hs) as [Hf Hc].
  destruct (result (m s)) as [e|x]; cbn [final commits]; [now split|].
  destruct (Hk x _ Hf) as [Hf' Hc']. split; [exact Hf'|].
  apply Forall_app. now split.
Qed.

Lemma keeps_try_catch (tried : M Response) (handler : JsError -> Response) (s : Store) :
  keeps tried -> consistent s -> kept (try_catch tried handler s).
Proof. intros Hk Hs. exact (Hk s Hs). Qed.

Lemma keeps_as_int {B} (x : option Z) (k : Z -> M B) :
  (forall n, keeps (k n)) -> keeps (bind (as_int x) k).
Proof.
  intros Hk. apply keeps_bind; [|exact Hk].
  unfold as_int. destruct x as [n|]; [destruct (int4 n)|];
    (apply keeps_ret || apply keeps_throw).
Qed.

Lemma keeps_as_string {B} (v : value) (k : string -> M B) :
  (forall x, keeps (k x)) -> keeps (bind (as_string v) k).
Proof.
  intros Hk. apply keeps_bind; [|exact Hk].
  destruct v; (apply keeps_ret || apply keeps_throw).
Qed.

Lemma keeps_as_optional_string {B} (v : value) (k : option string -> M B) :
  (forall x, keeps (k x)) -> keeps (bind (as_optional_string v) k).
Proof.
  intros Hk. apply keeps_bind; [|exact Hk].
  destruct v; (apply keeps_ret || apply keeps_throw).
Qed.

Lemma keeps_as_json {B} (v : value) (k : value -> M B) :
  (forall x, keeps (k x)) -> keeps (bind (as_json v) k).
Proof.
  intros Hk. apply keeps_bind; [|exact Hk].
  destruct v; (apply keeps_ret || apply keeps_throw).
Qed.

Lemma keeps_assessment_create (d : AssessmentData) (now : Z) :
  keeps (assessment_create d now).
Proof.
  unfold assessment_create.
  apply keeps_as_int; intros cid. apply keeps_as_int; intros sc.
  apply keeps_as_json; intros ans. apply keeps_as_string; intros lang.
  intros s Hs. run.
  destruct (has_customer s cid) eqn:Hc; run; cbn [final commits ret throw].
  - assert (H : consistent
                  (set_assessments s
                     (assessments s ++
                      [mkAssessment (assessment_seq s) sc (data_status d) ans
                         (data_breakdown d) lang cid now now])%list
                     (assessment_seq s + 1)))
      by (apply consistent_add_assessment; [exact Hs | reflexivity | exact Hc]).
    split; [exact H | constructor; [exact H | constructor]].
  - split; [now apply consistent_draw_assessment | constructor].
Qed.

Lemma keeps_customer_update (id : option Z) (t : Z) :
  keeps (customer_update_lastAccessed id t).
Proof.
  unfold customer_update_lastAccessed. apply keeps_as_int; intros n.
  intros s Hs. run.
  destruct (find _ (customers s)); run; cbn [final commits ret throw].
  - assert (H := consistent_touch s n t Hs).
    split; [exact H | constructor; [exact H | constructor]].
  - split; [exact Hs | constructor].
Qed.

Lemma keeps_assessment_update_status (id : option Z) (status : value) (now : Z) :
  keeps (assessment_update_status id status now).
Proof.
  unfold assessment_update_status. apply keeps_as_int; intros n.
  apply keeps_as_optional_string; intros st.
  intros s Hs. run.
  destruct (find _ (assessments s)); run; cbn [final commits ret throw].
  - assert (H := consistent_restatus s n now st Hs).
    split; [exact H | constructor; [exact H | constructor]].
  - split; [exact Hs | constructor].
Qed.

Lemma keeps_document_create (d : DocumentData) (now : Z) :
  keeps (document_create d now).
Proof.
  unfold document_create. apply keeps_as_int; intros aid.
  apply keeps_as_optional_string; intros ty.
  intros s Hs. run.
  destruct (has_assessment s aid) eqn:Ha; run; cbn [final commits ret throw].
  - assert (H : consistent
                  (set_documents s
                     (documents s ++
                      [mkDocument (document_seq s) (data_fileName d) (data_originalName d)
                         (data_filePath d) ty now aid])%list
                     (document_seq s + 1)))
      by (apply consistent_add_document; [exact Hs | reflexivity | exact Ha]).
    split; [exact H | constructor; [exact H | constructor]].
  - split; [now apply consistent_draw_document | constructor].
Qed.

Lemma keeps_message_create (assessmentId : option Z) (sender text : value) (now : Z) :
  keeps (message_create assessmentId sender text now).
Proof.
  unfold message_create. apply keeps_as_int; intros aid.
  apply keeps_as_string; intros sd. apply keeps_as_string; intros tx.
  intros s Hs. run.
  destruct (has_assessment s aid) eqn:Ha; run; cbn [final commits ret throw].
  - assert (H : consistent
                  (set_messages s
                     (messages s ++ [mkMessage (message_seq s) sd tx now aid])%list
                     (message_seq s + 1)))
      by (apply consistent_add_message; [exact Hs | reflexivity | exact Ha]).
    split; [exact H | constructor; [exact H | constructor]].
  - split; [now apply consistent_draw_message | constructor].
Qed.

(** X8.  From a consistent store (unique ids below their sequences, every
    assessment owned by an existing customer, every message and document
    attached to an existing assessment), each of the five writing
    endpoints leaves a consistent store, whatever the request, and every
    store it commits on the way is consistent too. *)
Theorem handlers_keep_consistency (s : Store) :
  consistent s ->
  (forall req t_create t_touch, kept (post_assessment_submit req t_create t_touch s)) /\
  (forall id status now, kept (patch_assessment_status id status now s)) /\
  (forall id docTypes now, kept (post_request_docs id docTypes now s)) /\
  (forall req t_document t_message,
      kept (post_documents_upload req t_document t_message s)) /\
  (forall id sender text now, kept (post_assessment_message id sender text now s)).
Proof.
  intros Hs. split; [|split; [|split; [|split]]]; intros;
    (apply keeps_try_catch; [|exact Hs]).
  - cbv zeta. apply keeps_bind; [apply keeps_assessment_create|]. intros a.
    apply keeps_bind; [apply keeps_customer_update|]. intros _. apply keeps_ret.
  - apply keeps_bind; [apply keeps_assessment_update_status|]. intros a.
    apply keeps_ret.
  - cbv zeta. apply keeps_bind; [apply keeps_message_create|]. intros m.
    apply keeps_ret.
  - destruct (file req) as [f|]; [|apply keeps_ret].
    destruct (negb _); [apply keeps_ret|].
    apply keeps_bind; [apply keeps_document_create|]. intros d.
    apply keeps_bind; [apply keeps_message_create|]. intros _. apply keeps_ret.
  - apply keeps_bind; [apply keeps_message_create|]. intros m. apply keeps_ret.
Qed.

(** *** Uploads that fail, and what an upload shows on the way *)

(** X9.  An upload that brings a file and an assessment id, but an id that
    names no assessment, is answered 500 and adds neither a document nor a
    message. *)
Theorem upload_unknown_assessment
    (req : UploadRequest) (t_document t_message : Z) (s : Store) (f : File) :
  file req = Some f -> truthy (field (assessmentId req)) = true ->
  (forall aid, Number (field (assessmentId req)) = Some aid ->
               has_assessment s aid = false) ->
  let h := post_documents_upload req t_document t_message s in
  response h = mkResponse 500 (ErrorBody "Failed to upload document.") /\
  observable h = [] /\ same_rows s (after h).
Proof.
  intros Hf Ht Hno h.
  destruct (upload_cases req t_document t_message s)
    as [([E|E] & _)|[(s' & Hh & Hrows & _)|(f' & aid & _ & _ & Hn & Ha & _)]];
    try congruence.
  - fold h in Hh. rewrite Hh. split; [reflexivity|]. split; [reflexivity | exact Hrows].
  - rewrite (Hno aid Hn) in Ha. discriminate Ha.
Qed.

(** X10.  An upload answered 201 commits twice: first the store with the
    new document and the messages as they were, then the store with the
    System message as well. *)
Theorem upload_commits_twice
    (req : UploadRequest) (t_document t_message : Z) (s : Store) :
  let h := post_documents_upload req t_document t_message s in
  http (response h) = 201 ->
  exists mid d m,
    observable h = [mid; after h] /\
    documents mid = (documents s ++ [d])%list /\ messages mid = messages s /\
    documents (after h) = (documents s ++ [d])%list /\
    messages (after h) = (messages s ++ [m])%list.
Proof.
  intros h H201.
  destruct (upload_cases req t_document t_message s)
    as [(_ & Hh)|[(s' & Hh & _)|(f & aid & _ & _ & _ & _ & Hh)]]; fold h in Hh.
  - rewrite Hh in H201. discriminate H201.
  - rewrite Hh in H201. discriminate H201.
  - cbv zeta in Hh. rewrite Hh. cbn [observable after].
    eexists _, _, _. repeat split.
Qed.

(** *** Status updates that change nothing *)



(** X12.  A status update whose body has no status is answered 200 and
    changes no status: every assessment keeps its status and every listed
    column. *)
Theorem status_update_without_status (id : string) (now : Z) (s : Store) (n : Z) :
  Number (VStr id) = Some n -> int4 n = true -> has_assessment s n = true ->
  let h := patch_assessment_status id VUndefined now s in
  http (response h) = 200 /\
  Forall2 (fun a a' => a_status a' = a_status a /\ unchanged_but_status n a a')
          (assessments s) (assessments (after h)).
Proof.
  intros Hn Hi Ha h.
  destruct (find_of_existsb _ _ Ha) as (a0 & Hfind & _).
  pose proof (status_update_runs id VUndefined now s n a0 None Hn Hi Hfind
                (or_introl (conj eq_refl eq_refl))) as Hrun.
  cbv zeta in Hrun. subst h. rewrite Hrun. cbn [response http after assessments
                                                  set_assessments].
  split; [reflexivity|].
  apply Forall2_map_same. intros x.
  destruct (Z.eqb_spec (a_id x) n) as [E|E].
  - split; [reflexivity|]. unfold unchanged_but_status, restatus; cbn.
    repeat split. intros N. now contradiction N.
  - split; [reflexivity | apply unchanged_but_status_refl].
Qed.

(** *** Posting to the thread, then reading it *)

Lemma messages_run (id : string) (s : Store) (n : Z) :
  Number (VStr id) = Some n -> int4 n = true ->
  get_assessment_messages id s =
    mkHandled s []
      (mkResponse 200
         (MessagesBody
            (orderBy_createdAt_asc
               (filter (fun m => m_assessmentId m =? n) (messages s))))).
Proof.
  intros Hn Hi. unfold get_assessment_messages, try_catch, message_findMany.
  rewrite Hn, (as_int_ok _ Hi). run. reflexivity.
Qed.

Lemma messages_refused (id : string) (s : Store) :
  (forall n, Number (VStr id) = Some n -> int4 n = false) ->
  get_assessment_messages id s =
    mkHandled s [] (mkResponse 500 (ErrorBody "Failed to retrieve messages.")).
Proof.
  intros H. unfold get_assessment_messages, try_catch, message_findMany.
  destruct (Number (VStr id)) as [n|]; [|reflexivity].
  rewrite (as_int_refused _ (H n eq_refl)). reflexivity.
Qed.

Lemma message_post_run (id : string) (sd tx : string) (now : Z) (s : Store) (n : Z) :
  Number (VStr id) = Some n -> int4 n = true -> has_assessment s n = true ->
  let m := mkMessage (message_seq s) sd tx now n in
  let s' := set_messages s (messages s ++ [m])%list (message_seq s + 1) in
  post_assessment_message id (VStr sd) (VStr tx) now s =
    mkHandled s' [s'] (mkResponse 201 (NewMessageBody "Message sent successfully." m)).
Proof.
  intros Hn Hi Ha. cbv zeta. unfold post_assessment_message, try_catch.
  rewrite bind_run, message_create_run, Hn, Hi, Ha. reflexivity.
Qed.

(** X13.  A message posted to an existing assessment is stored with the
    sender and the text exactly as given and stamped with the time of the
    call; nothing else in the store changes.  Reading the thread of that
    assessment afterwards returns the new message among the old ones, and
    the thread of any other assessment reads as before. *)
Theorem message_post_then_read
    (id : string) (sd tx : string) (now : Z) (s : Store) (n : Z) :
  Number (VStr id) = Some n -> int4 n = true -> has_assessment s n = true ->
  let h := post_assessment_message id (VStr sd) (VStr tx) now s in
  exists m,
    response h = mkResponse 201 (NewMessageBody "Message sent successfully." m) /\
    m_sender m = sd /\ m_text m = tx /\ m_assessmentId m = n /\ m_createdAt m = now /\
    messages (after h) = (messages s ++ [m])%list /\
    customers (after h) = customers s /\ assessments (after h) = assessments s /\
    documents (after h) = documents s /\
    (exists msgs,
        response (get_assessment_messages id (after h)) =
          mkResponse 200 (MessagesBody msgs) /\
        In m msgs /\
        Permutation msgs (m :: filter (fun x => m_assessmentId x =? n) (messages s))) /\
    (forall id' n',
        Number (VStr id') = Some n' -> n' <> n ->
        response (get_assessment_messages id' (after h)) =
        response (get_assessment_messages id' s)).
Proof.
  intros Hn Hi Ha h.
  pose proof (message_post_run id sd tx now s n Hn Hi Ha) as Hrun.
  cbv zeta in Hrun. subst h. rewrite Hrun. cbn [response after].
  set (m := mkMessage (message_seq s) sd tx now n).
  exists m. do 9 (split; [reflexivity|]). split.
  - rewrite (messages_run id _ n Hn Hi). cbn [response messages set_messages].
    rewrite filter_app. cbn [filter]. unfold m at 2. cbn [m_assessmentId].
    rewrite Z.eqb_refl. fold m.
    set (old := filter (fun x => m_assessmentId x =? n) (messages s)).
    eexists. split; [reflexivity|].
    pose proof (orderBy_createdAt_asc_perm (old ++ [m])) as Hp.
    assert (Hq : Permutation (old ++ [m]) (m :: old))
      by (symmetry; apply Permutation_cons_append).
    split.
    + apply (Permutation_in _ (Permutation_sym Hp)). apply in_or_app. right. now left.
    + now rewrite Hp.
  - intros id' n' Hn' Hne.
    destruct (int4 n') eqn:Hi'.
    + rewrite !(messages_run id' _ n' Hn' Hi'). cbn [response messages set_messages].
      rewrite filter_app. cbn [filter]. unfold m. cbn [m_assessmentId].
      destruct (Z.eqb_spec n n') as [E|_]; [now contradiction Hne|].
      now rewrite app_nil_r.
    + rewrite !messages_refused; [reflexivity | |];
        intros k Hk; rewrite Hn' in Hk; inversion Hk; now subst.
Qed.

(** X14.  Unless the id names an existing assessment and both sender and
    text are strings, posting a message is answered 500 and adds no row. *)
Theorem message_post_refusals
    (id : string) (sender text : value) (now : Z) (s : Store) :
  (forall n, Number (VStr id) = Some n -> int4 n = true ->
             has_assessment s n = true ->
             is_string sender && is_string text = false) ->
  let h := post_assessment_message id sender text now s in
  response h = mkResponse 500 (ErrorBody "Failed to send message.") /\
  observable h = [] /\ same_rows s (after h).
Proof.
  intros H. cbv zeta. unfold post_assessment_message, try_catch, message_create.
  rewrite bind_run.
  destruct (Number (VStr id)) as [n|]; [|now repeat split].
  destruct (int4 n) eqn:Hi;
    [rewrite (as_int_ok _ Hi) | rewrite (as_int_refused _ Hi); now repeat split].
  run.
  destruct sender; cbn [as_string]; run; try (now repeat split).
  destruct text; cbn [as_string]; run; try (now repeat split).
  destruct (has_assessment s n) eqn:Ha.
  - specialize (H n eq_refl Hi Ha). discriminate H.
  - run. now repeat split.
Qed.

(** X15.  A document request for an existing assessment appends one
    message of sender Bank Manager whose text is the JSON of
    [{ type: 'document_request', docTypes }], and leaves every assessment,
    its status included, as it was. *)
Theorem request_docs_appends
    (id : string) (docTypes : value) (now : Z) (s : Store) (n : Z) :
  Number (VStr id) = Some n -> int4 n = true -> has_assessment s n = true ->
  let h := post_request_docs id docTypes now s in
  exists m,
    response h =
      mkResponse 201 (NewMessageBody "Document request sent successfully." m) /\
    m_sender m = "Bank Manager" /\
    m_text m = JSON_stringify (document_request docTypes) /\
    m_assessmentId m = n /\
    messages (after h) = (messages s ++ [m])%list /\
    assessments (after h) = assessments s /\
    documents (after h) = documents s /\
    field_of "type" (document_request docTypes) = Some (VStr "document_request") /\
    field_of "docTypes" (document_request docTypes) = Some docTypes.
Proof.
  intros Hn Hi Ha. cbv zeta. unfold post_request_docs, try_catch.
  rewrite bind_run, message_create_run, Hn, Hi, Ha. cbv zeta.
  cbn [result final commits response after messages assessments documents set_messages].
  eexists. repeat split.
Qed.

(** *** The reviewer's list *)

Lemma include_customers_ok (s : Store) (l : list Assessment) :
  Forall (fun a => has_customer s (a_customerId a) = true) l ->
  exists listed,
    include_customers s l = inr listed /\
    map listed_assessment listed = l /\
    Forall (fun r =>
              (exists c, In c (customers s) /\
                         c_id c = a_customerId (listed_assessment r) /\
                         listed_customer r = (c_fname c, c_lname c)) /\
              listed_documents r =
                filter (fun d => d_assessmentId d =? a_id (listed_assessment r))
                       (documents s)) listed.
Proof.
  induction l as [|a l IH]; intros Hall.
  - exists []. repeat split. constructor.
  - inversion Hall as [|? ? Ha Hl]; subst.
    destruct (IH Hl) as (listed & Hinc & Hmap & Hrows).
    destruct (find_of_existsb _ _ Ha) as (c & Hfind & Hc). apply Z.eqb_eq in Hc.
    cbn [include_customers]. unfold include_customer. rewrite Hfind, Hinc.
    eexists. split; [reflexivity|]. split; [cbn; now rewrite Hmap|].
    constructor; [|exact Hrows]. cbn. split; [|reflexivity].
    exists c. apply find_some in Hfind. destruct Hfind as [Hin _]. auto.
Qed.

(** X16.  While every assessment has its customer, the list endpoint
    answers 200 with every assessment exactly once, newest first, each
    with the first and last name of the customer that owns it and with
    exactly the documents attached to it. *)
Theorem assessments_listed_newest_first (s : Store) :
  Forall (fun a => has_customer s (a_customerId a) = true) (assessments s) ->
  exists listed,
    get_assessments s = mkAnswer 200 (inr listed) /\
    Permutation (map listed_assessment listed) (assessments s) /\
    StronglySorted newer (map listed_assessment listed) /\
    Forall (fun r =>
              (exists c, In c (customers s) /\
                         c_id c = a_customerId (listed_assessment r) /\
                         listed_customer r = (c_fname c, c_lname c)) /\
              (forall d, In d (listed_documents r) <->
                         In d (documents s) /\
                         d_assessmentId d = a_id (listed_assessment r))) listed.
Proof.
  intros Hall.
  assert (Hsorted : Forall (fun a => has_customer s (a_customerId a) = true)
                      (orderBy_createdAt_desc (assessments s))).
  { rewrite Forall_forall in *. intros a Ha. apply Hall.
    apply (Permutation_in _ (orderBy_createdAt_desc_perm _) Ha). }
  destruct (include_customers_ok s _ Hsorted) as (listed & Hinc & Hmap & Hrows).
  exists listed. split; [|split; [|split]].
  - unfold get_assessments, try_read. rewrite bind_run. unfold assessment_findMany.
    run. rewrite Hinc. reflexivity.
  - rewrite Hmap. apply orderBy_createdAt_desc_perm.
  - rewrite Hmap. apply orderBy_createdAt_desc_sorted.
  - eapply Forall_impl; [|exact Hrows]. cbn. intros r [Hc Hd]. split; [exact Hc|].
    intros d. rewrite Hd, filter_In, Z.eqb_eq. reflexivity.
Qed.

(** *** Logging in *)

Lemma login_run (e p : string) (s : Store) :
  post_login (VStr e) (VStr p) s =
    match find (fun c => String.eqb (c_email c) e) (customers s) with
    | Some c =>
        if bcrypt_compare p (c_password c)
        then mkAnswer 200
               (inr (mkLoggedIn "Login successful!" (customerData c)
                       (latest_of s (c_id c))))
        else invalid_login
    | None => invalid_login
    end.
Proof.
  unfold post_login, try_read. rewrite bind_run. unfold customer_findUnique.
  cbn [as_string]. run. cbn [ret result final].
  destruct (find _ (customers s)) as [c|]; [|reflexivity].
  destruct (bcrypt_compare p (c_password c)); [|reflexivity].
  run. reflexivity.
Qed.

(** X17.  A login with an email and a password succeeds exactly when the
    email is that of a customer whose stored hash matches the password;
    every other login gets one and the same 401 reply, whether the email
    is unknown or the password is wrong. *)
Theorem login_rejections_are_alike (e p : string) (s : Store) :
  (answer_http (post_login (VStr e) (VStr p) s) = 200 <->
   exists c, find (fun c => String.eqb (c_email c) e) (customers s) = Some c /\
             bcrypt_compare p (c_password c) = true) /\
  (answer_http (post_login (VStr e) (VStr p) s) <> 200 ->
   post_login (VStr e) (VStr p) s = invalid_login) /\
  (forall c, find (fun c => String.eqb (c_email c) e) (customers s) = Some c ->
             bcrypt_compare p (c_password c) = true ->
             exists body,
               answer_body (post_login (VStr e) (VStr p) s) = inr body /\
               login_customer body = customerData c /\
               latestAssessment body = latest_of s (c_id c)).
Proof.
  rewrite login_run.
  destruct (find _ (customers s)) as [c|].
  - destruct (bcrypt_compare p (c_password c)) eqn:Hm; cbn.
    + split; [|split].
      * split; [intros _; now exists c | reflexivity].
      * intros N. now contradiction N.
      * intros c' Hc' _. inversion Hc'; subst c'. eexists. repeat split.
    + split; [|split].
      * split; [discriminate|]. intros (c' & Hc' & Hm'). inversion Hc'; subst c'.
        congruence.
      * reflexivity.
      * intros c' Hc' Hm'. inversion Hc'; subst c'. congruence.
  - cbn. split; [|split].
    + split; [discriminate|]. intros (c' & Hc' & _). discriminate Hc'.
    + reflexivity.
    + intros c' Hc'. discriminate Hc'.
Qed.

(** *** The seeding script and the bank login *)

Lemma admin_found_after_update (hash : string) (l : list BankUser) (u : BankUser) :
  find (fun x => String.eqb (b_username x) ADITI_ADMIN) l = Some u ->
  find (fun x => String.eqb (b_username x) ADITI_ADMIN)
       (map (fun x => if String.eqb (b_username x) ADITI_ADMIN
                      then mkBankUser (b_id x) (b_username x) hash else x) l)
  = Some (mkBankUser (b_id u) (b_username u) hash).
Proof.
  induction l as [|x l IH]; [discriminate|]. cbn [find map].
  destruct (String.eqb (b_username x) ADITI_ADMIN) eqn:E; cbn [b_username].
  - rewrite E. intros H. inversion H; subst. reflexivity.
  - rewrite E. exact IH.
Qed.

Lemma others_untouched (hash : string) (l : list BankUser) :
  filter (fun u => negb (String.eqb (b_username u) ADITI_ADMIN))
         (map (fun x => if String.eqb (b_username x) ADITI_ADMIN
                        then mkBankUser (b_id x) (b_username x) hash else x) l)
  = filter (fun u => negb (String.eqb (b_username u) ADITI_ADMIN)) l.
Proof.
  induction l as [|y l IH]; [reflexivity|]. cbn [map filter].
  destruct (String.eqb (b_username y) ADITI_ADMIN) eqn:Ey; cbn [b_username].
  - rewrite Ey. exact IH.
  - rewrite Ey. cbn [negb]. now rewrite IH.
Qed.

Lemma main_run (salt : string) (b : Bank) :
  main salt b =
    match bankUser_findUnique ADITI_ADMIN b with
    | None =>
        mkSeeded
          (mkBank (bankUsers b ++
                   [mkBankUser (bankUser_seq b) ADITI_ADMIN (bcrypt_hash adminPassword salt)])%list
                  (bankUser_seq b + 1))
          [created_line] 0
    | Some _ =>
        mkSeeded
          (mkBank (map (fun x => if String.eqb (b_username x) ADITI_ADMIN
                                 then mkBankUser (b_id x) (b_username x)
                                        (bcrypt_hash adminPassword salt)
                                 else x) (bankUsers b))
                  (bankUser_seq b))
          [exists_line; updated_line] 0
    end.
Proof.
  unfold main, bankUser_update, bankUser_create.
  destruct (bankUser_findUnique ADITI_ADMIN b) as [u|] eqn:E; [reflexivity|].
  unfold bankUser_findUnique in E.
  assert (Hex : existsb (fun u => String.eqb (b_username u) ADITI_ADMIN) (bankUsers b)
                = false).
  { destruct (existsb _ (bankUsers b)) eqn:X; [|reflexivity].
    destruct (find_of_existsb _ _ X) as (u & Hu & _). congruence. }
  now rewrite Hex.
Qed.

(** X18.  The seeding script always ends with code 0 and leaves a bank
    user ADITI_ADMIN; every user of that name holds the new hash, every
    other user is untouched, and unique usernames stay unique.  A second
    run adds no row. *)
Theorem seed_leaves_the_admin (salt salt' : string) (b : Bank) :
  let r := main salt b in
  exit_code r = 0 /\
  (exists u, In u (bankUsers (bank_after r)) /\ b_username u = ADITI_ADMIN) /\
  (forall u, In u (bankUsers (bank_after r)) -> b_username u = ADITI_ADMIN ->
             b_password u = bcrypt_hash adminPassword salt) /\
  filter (fun u => negb (String.eqb (b_username u) ADITI_ADMIN)) (bankUsers (bank_after r))
  = filter (fun u => negb (String.eqb (b_username u) ADITI_ADMIN)) (bankUsers b) /\
  (NoDup (map b_username (bankUsers b)) ->
   NoDup (map b_username (bankUsers (bank_after r)))) /\
  List.length (bankUsers (bank_after (main salt' (bank_after r))))
  = List.length (bankUsers (bank_after r)).
Proof.
  cbv zeta. rewrite main_run.
  destruct (bankUser_findUnique ADITI_ADMIN b) as [u|] eqn:E; cbn [exit_code bank_after bankUsers].
  - unfold bankUser_findUnique in E.
    split; [reflexivity|]. split.
    { exists (mkBankUser (b_id u) (b_username u) (bcrypt_hash adminPassword salt)).
      pose proof (admin_found_after_update (bcrypt_hash adminPassword salt) _ _ E) as F.
      apply find_some in F as [Hin Hn]. split; [exact Hin|].
      now apply String.eqb_eq in Hn. }
    split.
    { intros x Hx Hname. apply in_map_iff in Hx as (y & Hy & _).
      destruct (String.eqb (b_username y) ADITI_ADMIN) eqn:Ey; subst x; [reflexivity|].
      apply String.eqb_neq in Ey. contradiction. }
    split.
    { apply others_untouched. }
    split.
    { intros Hnd. rewrite map_map. erewrite map_ext; [exact Hnd|].
      intros x. now destruct (String.eqb (b_username x) ADITI_ADMIN). }
    rewrite main_run. unfold bankUser_findUnique. cbn [bankUsers].
    rewrite (admin_found_after_update _ _ _ E). cbn [bank_after bankUsers].
    now rewrite !length_map.
  - unfold bankUser_findUnique in E.
    split; [reflexivity|]. split.
    { eexists. split; [apply in_or_app; right; left; reflexivity | reflexivity]. }
    split.
    { intros x Hx Hname. apply in_app_or in Hx as [Hx|[<-|[]]]; [|reflexivity].
      exfalso. apply (find_none _ _ E) in Hx. apply String.eqb_neq in Hx. contradiction. }
    split.
    { rewrite filter_app. cbn. now rewrite app_nil_r. }
    split.
    { intros Hnd. rewrite map_app. cbn [map b_username].
      induction (bankUsers b) as [|x l IH]; cbn.
      - constructor; [intros [] | constructor].
      - inversion Hnd; subst. cbn [find] in E.
        destruct (String.eqb (b_username x) ADITI_ADMIN) eqn:Ex; [discriminate|].
        constructor; [|now apply IH].
        intros Hin. apply in_app_or in Hin as [Hin|[Hin|[]]]; [contradiction|].
        apply String.eqb_neq in Ex. now symmetry in Hin. }
    rewrite main_run. unfold bankUser_findUnique. cbn [bankUsers].
    assert (F : exists v, find (fun x => String.eqb (b_username x) ADITI_ADMIN)
                    (bankUsers b ++
                     [mkBankUser (bankUser_seq b) ADITI_ADMIN
                        (bcrypt_hash adminPassword salt)])%list = Some v).
    { clear. induction (bankUsers b) as [|x l IH]; cbn.
      - eauto.
      - destruct (String.eqb (b_username x) ADITI_ADMIN); eauto. }
    destruct F as (v & ->). cbn [bank_after bankUsers]. now rewrite length_map.
Qed.

Lemma find_app_fresh {A} (f : A -> bool) (l : list A) (x : A) :
  find f l = None -> f x = true -> find f (l ++ [x]) = Some x.
Proof.
  intros Hn Hx. induction l as [|y l IH]; cbn in *; [now rewrite Hx|].
  destruct (f y); [discriminate | now apply IH].
Qed.

(** X19.  After the seeding script has run, the bank login with the
    username and password of the script succeeds, provided [compare]
    accepts what [hash] made of the same password. *)
Theorem seed_then_bank_login (salt : string) (b : Bank) :
  (forall p sl, bcrypt_compare p (bcrypt_hash p sl) = true) ->
  post_bank_login (VStr ADITI_ADMIN) (VStr adminPassword) (bank_after (main salt b))
  = mkAnswer 200 (inr (mkBankLoggedIn "Login successful!" ADITI_ADMIN)).
Proof.
  intros Hb. rewrite main_run. unfold post_bank_login.
  destruct (bankUser_findUnique ADITI_ADMIN b) as [u|] eqn:E;
    unfold bankUser_findUnique in *; cbn [bank_after bankUsers].
  - rewrite (admin_found_after_update _ _ _ E). cbn [b_password b_username].
    rewrite Hb. apply find_some in E as [_ En]. apply String.eqb_eq in En.
    now rewrite En.
  - rewrite (find_app_fresh _ _ (mkBankUser (bankUser_seq b) ADITI_ADMIN
                                     (bcrypt_hash adminPassword salt)) E eq_refl).
    cbn [b_password b_username].
    now rewrite Hb.
Qed.

(** X20.  A bank login succeeds exactly when the username is that of a
    bank user whose stored hash matches the password; every other login
    with a username and a password gets one and the same 401 reply. *)
Theorem bank_login_rejections_are_alike (name p : string) (b : Bank) :
  (answer_http (post_bank_login (VStr name) (VStr p) b) = 200 <->
   exists u, bankUser_findUnique name b = Some u /\
             bcrypt_compare p (b_password u) = true) /\
  (answer_http (post_bank_login (VStr name) (VStr p) b) <> 200 ->
   post_bank_login (VStr name) (VStr p) b = invalid_bank_login) /\
  (answer_http (post_bank_login (VStr name) (VStr p) b) = 200 ->
   exists u, In u (bankUsers b) /\ b_username u = name /\
             answer_body (post_bank_login (VStr name) (VStr p) b)
             = inr (mkBankLoggedIn "Login successful!" name)).
Proof.
  unfold post_bank_login.
  destruct (bankUser_findUnique name b) as [u|] eqn:E.
  - destruct (bcrypt_compare p (b_password u)) eqn:Hm; cbn.
    + split; [|split].
      * split; [intros _; now exists u | reflexivity].
      * intros N. now contradiction N.
      * intros _. exists u. apply find_some in E as [Hin Hn].
        apply String.eqb_eq in Hn. rewrite Hn. auto.
    + split; [|split].
      * split; [discriminate|]. intros (u' & Hu' & Hm'). inversion Hu'; subst u'.
        congruence.
      * reflexivity.
      * discriminate.
  - cbn. split; [|split].
    + split; [discriminate|]. intros (u' & Hu' & _). discriminate Hu'.
    + reflexivity.
    + discriminate.
Qed.

(** *** Registration *)

Lemma taken_iff (l : list Customer) (m e pn ac : string) :
  taken l m e pn ac = true <-> exists c, In c l /\ clashes c m e pn ac.
Proof.
  unfold taken, clashes. rewrite existsb_exists.
  split; intros (c & Hin & H); exists c; (split; [exact Hin|]).
  - rewrite !orb_true_iff, !String.eqb_eq in H.
    destruct H as [[[H|H]|H]|H]; auto.
  - rewrite !orb_true_iff, !String.eqb_eq.
    destruct H as [H|[H|[H|H]]]; auto.
Qed.

Lemma register_run
    (f l g : string) (a : value) (m e pn ac p : string) (salt : string) (now : Z)
    (r : Registry) (n : Z) :
  Number a = Some n -> int4 n = true ->
  post_register (registration f l g a m e pn ac p) salt now r =
    if taken (customers (rows r)) m e pn ac
    then (mkRegistry (rows r) (customer_seq r + 1), mkAnswer 400 (inl already_exists))
    else
      (add_customer r
         (mkCustomer (customer_seq r) f l g n m e pn ac (bcrypt_hash p salt) now now now),
       mkAnswer 201
         (inr (mkRegistered "Customer registered successfully!" (customer_seq r) f l e))).
Proof.
  intros Hn Hi.
  unfold post_register, registration, customer_create, checked, int_of.
  cbn [password fname lname gender age mobile email pan accountNumber
       in_fname in_lname in_gender in_age in_mobile in_email in_pan in_accountNumber
       in_password text_of].
  rewrite Hn, Hi.
  cbn [ok_fname ok_lname ok_gender ok_age ok_mobile ok_email ok_pan ok_accountNumber].
  destruct (taken (customers (rows r)) m e pn ac); reflexivity.
Qed.

(** X21.  A registration that repeats the mobile number, the email, the
    PAN or the account number of a customer is answered 400 with the
    already-exists text, and the customers are left as they were. *)
Theorem register_duplicate
    (f l g : string) (a : value) (m e pn ac p : string) (salt : string) (now : Z)
    (r : Registry) (n : Z) (c : Customer) :
  Number a = Some n -> int4 n = true ->
  In c (customers (rows r)) -> clashes c m e pn ac ->
  post_register (registration f l g a m e pn ac p) salt now r =
    (mkRegistry (rows r) (customer_seq r + 1), mkAnswer 400 (inl already_exists)).
Proof.
  intros Hn Hi Hin Hc. rewrite (register_run f l g a m e pn ac p salt now r n Hn Hi).
  assert (Ht : taken (customers (rows r)) m e pn ac = true)
    by (apply taken_iff; now exists c).
  now rewrite Ht.
Qed.

(** X22.  A registration that clashes with no customer is answered 201
    with the new id, and a login with the same email and password on the
    resulting store then succeeds as that customer, provided [compare]
    accepts what [hash] made of the same password.  The reply to the
    registration and the reply to the login carry no password. *)
Theorem register_then_login
    (f l g : string) (a : value) (m e pn ac p : string) (salt : string) (now : Z)
    (r : Registry) (n : Z) :
  Number a = Some n -> int4 n = true ->
  (forall c, In c (customers (rows r)) -> ~ clashes c m e pn ac) ->
  (forall pw sl, bcrypt_compare pw (bcrypt_hash pw sl) = true) ->
  let done := post_register (registration f l g a m e pn ac p) salt now r in
  snd done =
    mkAnswer 201
      (inr (mkRegistered "Customer registered successfully!" (customer_seq r) f l e)) /\
  customers (rows (fst done)) =
    (customers (rows r) ++
     [mkCustomer (customer_seq r) f l g n m e pn ac (bcrypt_hash p salt) now now now])%list /\
  exists body,
    post_login (VStr e) (VStr p) (rows (fst done)) = mkAnswer 200 (inr body) /\
    data_id (login_customer body) = customer_seq r /\
    data_email (login_customer body) = e /\
    data_fname (login_customer body) = f.
Proof.
  intros Hn Hi Hfree Hb. cbv zeta.
  rewrite (register_run f l g a m e pn ac p salt now r n Hn Hi).
  destruct (taken (customers (rows r)) m e pn ac) eqn:Ht.
  { apply taken_iff in Ht as (c & Hin & Hc). now destruct (Hfree c Hin). }
  cbn [fst snd add_customer rows customers set_customers].
  split; [reflexivity|]. split; [reflexivity|].
  rewrite login_run. cbn [customers set_customers].
  rewrite (find_app_fresh _ _
             (mkCustomer (customer_seq r) f l g n m e pn ac (bcrypt_hash p salt)
                         now now now)).
  - cbn [c_password]. rewrite Hb. eexists. split; [reflexivity|]. repeat split.
  - destruct (find _ (customers (rows r))) as [c|] eqn:F; [|reflexivity].
    apply find_some in F as [Hin He]. apply String.eqb_eq in He.
    exfalso. apply (Hfree c Hin). unfold clashes. auto.
  - cbn [c_email]. apply String.eqb_refl.
Qed.

Lemma NoDup_snoc {A} (l : list A) (x : A) :
  NoDup l -> ~ In x l -> NoDup (l ++ [x]).
Proof.
  intros Hn Hx. induction l as [|y l IH]; cbn.
  - constructor; [intros [] | constructor].
  - inversion Hn; subst. constructor.
    + intros Hin. apply in_app_or in Hin as [Hin|[Hin|[]]]; [contradiction|].
      apply Hx. now left.
    + apply IH; [assumption|]. intros Hin. apply Hx. now right.
Qed.

Lemma fresh_key (key : Customer -> string) (k : string) (l : list Customer) :
  (forall c, In c l -> key c <> k) -> ~ In k (map key l).
Proof.
  intros H Hin. apply in_map_iff in Hin as (c & Hk & Hc). now apply (H c Hc).
Qed.

(** X23.  Whatever the request, registration keeps the customer table
    within its unique indexes: mobile numbers, emails, PANs, account
    numbers and ids stay pairwise distinct, and ids stay below the
    sequence. *)
Theorem register_keeps_registry
    (req : RegisterRequest) (salt : string) (now : Z) (r : Registry) :
  registry_ok r -> registry_ok (fst (post_register req salt now r)).
Proof.
  intros Hok. unfold post_register.
  destruct (password req) as [| | | | |p| |]; try exact Hok.
  unfold customer_create.
  destruct (checked _) as [data|]; [|exact Hok].
  destruct (taken _ _ _ _ _) eqn:Ht; cbn [fst].
  - destruct Hok as (H1 & H2 & H3 & H4 & H5 & H6).
    unfold registry_ok. cbn [rows customer_seq]. repeat split; auto.
    eapply Forall_impl; [|exact H6]. cbn. intros c Hc. lia.
  - assert (Hfree : forall c, In c (customers (rows r)) ->
                              ~ clashes c (ok_mobile data) (ok_email data) (ok_pan data)
                                  (ok_accountNumber data)).
    { intros c Hin Hc.
      assert (taken (customers (rows r)) (ok_mobile data) (ok_email data)
                    (ok_pan data) (ok_accountNumber data) = true)
        by (apply taken_iff; now exists c).
      congruence. }
    destruct Hok as (H1 & H2 & H3 & H4 & H5 & H6).
    unfold registry_ok, add_customer.
    cbn [rows customer_seq customers set_customers].
    rewrite !map_app. cbn [map c_mobile c_email c_pan c_accountNumber c_id].
    split; [|split; [|split; [|split; [|split]]]].
    + apply NoDup_snoc; [exact H1|]. apply fresh_key. intros c Hin E.
      apply (Hfree c Hin). unfold clashes. auto.
    + apply NoDup_snoc; [exact H2|]. apply fresh_key. intros c Hin E.
      apply (Hfree c Hin). unfold clashes. auto.
    + apply NoDup_snoc; [exact H3|]. apply fresh_key. intros c Hin E.
      apply (Hfree c Hin). unfold clashes. auto.
    + apply NoDup_snoc; [exact H4|]. apply fresh_key. intros c Hin E.
      apply (Hfree c Hin). unfold clashes. auto.
    + apply NoDup_snoc_fresh; [exact H5|]. apply Forall_map. exact H6.
    + apply Forall_snoc; [|cbn; lia].
      eapply Forall_impl; [|exact H6]. cbn. intros c Hc. lia.
Qed.

(** *** More on the sanitizer and the generator *)

Lemma extract_clean (mid : string) :
  extractJsonArray ("[" ++ mid ++ "]") = inr ("[" ++ mid ++ "]").
Proof.
  pose proof (extract_bracketed "" mid "" eq_refl eq_refl) as H.
  cbn [append] in H. cbn [append]. exact H.
Qed.

(** X24.  What the extraction returns is of one of two kinds: the part of
    the text from its first opening to its last closing bracket, on which
    extracting again changes nothing; or, when the brackets came in the
    other order, a text with no bracket at all, on which extracting again
    fails. *)
Theorem extracted_text_kinds (text out : string) :
  extractJsonArray text = inr out ->
  (bracketed text out /\ extractJsonArray out = inr out) \/
  (occurs "["%char out = false /\ occurs "]"%char out = false /\
   extractJsonArray out = inl no_array).
Proof.
  intros H.
  destruct (brackets_cases text)
    as [Habs|[(pre & mid & post & -> & Hpre & Hpost)|(a & mid & b & -> & Ho & Hc)]].
  - rewrite (extract_absent _ Habs) in H. discriminate H.
  - rewrite (extract_bracketed _ _ _ Hpre Hpost) in H. inversion H; subst out.
    left. split; [now exists pre, mid, post | apply extract_clean].
  - rewrite (extract_reversed _ _ _ Ho Hc) in H. inversion H; subst out.
    right. rewrite occurs_append in Ho, Hc.
    apply orb_false_iff in Ho as [_ Ho]. cbn [append occurs] in Ho.
    apply orb_false_iff in Ho as [_ Ho].
    apply orb_false_iff in Hc as [Hc _].
    split; [exact Ho|]. split; [exact Hc|]. apply extract_absent. now left.
Qed.

Lemma renumber_from_inr (items out : list value) (k : Z) :
  renumber_from k items = inr out ->
  List.length out = List.length items /\ ~ In VNull items /\ ~ In VUndefined items.
Proof.
  revert out k. induction items as [|q items IH]; intros out k H.
  - inversion H. repeat split; intros [].
  - cbn [renumber_from] in H.
    destruct (set_id q _) as [e|q'] eqn:Eq; [discriminate|].
    destruct (renumber_from (k + 1) items) as [e|rest] eqn:Er; [discriminate|].
    inversion H; subst out. destruct (IH _ _ Er) as (Hl & Hn & Hu).
    split; [cbn; now rewrite Hl|].
    split; intros [E|Hin]; try contradiction; subst q; discriminate Eq.
Qed.

Lemma renumber_from_null (items : list value) (k : Z) :
  In VNull items ->
  renumber_from k items = inl (TypeError "Cannot set properties of null (setting 'id')").
Proof.
  revert k. induction items as [|q items IH]; intros k Hin; [destruct Hin|].
  cbn [renumber_from].
  destruct (set_id q _) as [e|q'] eqn:Eq.
  - destruct q; inversion Eq; reflexivity.
  - destruct Hin as [->|Hin]; [discriminate Eq|]. now rewrite (IH _ Hin).
Qed.

(** X25.  One [null] among the parsed items fails the whole request: the
    endpoint answers 500 and returns none of the other items. *)
Theorem null_item_fails_whole
    (req : GenerateRequest) (ids : list string) (text cleanedText : string)
    (items : list value) :
  coreQuestionIds req = Some ids ->
  generateContent (mkPrompt (languageMap (gen_language req)) (String.concat ", " ids))
    = inr text ->
  extractJsonArray text = inr cleanedText ->
  JSON_parse cleanedText = inr (VArr items) ->
  In VNull items ->
  reply (post_generate_questions req) = generation_failed.
Proof.
  intros Hids Hgen Hex Hparse Hnull.
  rewrite (generate_after_answer req ids text Hids Hgen).
  unfold parse_questions. rewrite Hex, Hparse, (renumber_from_null _ _ Hnull).
  reflexivity.
Qed.

Lemma handleGeminiError_not_200 (e : JsError) (ctx : string) :
  http (handleGeminiError e ctx) <> 200.
Proof. unfold handleGeminiError. destruct (isRateLimitError e); discriminate. Qed.

(** X26.  The questions endpoint answers 200 only when it was given topic
    ids, called the service once and got a text whose extraction parsed to
    an array with no [null] in it; the body then has as many items as were
    parsed. *)
Theorem generate_200_only_from_parsed_array (req : GenerateRequest) :
  http (reply (post_generate_questions req)) = 200 ->
  exists ids text cleanedText items out,
    coreQuestionIds req = Some ids /\
    calls (post_generate_questions req) =
      [mkPrompt (languageMap (gen_language req)) (String.concat ", " ids)] /\
    generateContent (mkPrompt (languageMap (gen_language req)) (String.concat ", " ids))
      = inr text /\
    extractJsonArray text = inr cleanedText /\
    JSON_parse cleanedText = inr (VArr items) /\
    ~ In VNull items /\
    reply (post_generate_questions req) = mkResponse 200 (JsonBody (VArr out)) /\
    List.length out = List.length items.
Proof.
  unfold post_generate_questions.
  destruct (coreQuestionIds req) as [ids|];
    [|intros H; now apply handleGeminiError_not_200 in H].
  destruct (generateContent _) as [e|text] eqn:Hgen;
    [intros H; now apply handleGeminiError_not_200 in H|].
  destruct (parse_questions text) as [e|out] eqn:Hp;
    [intros H; now apply handleGeminiError_not_200 in H|].
  intros _. unfold parse_questions in Hp.
  destruct (extractJsonArray text) as [e|cleanedText] eqn:Hex; [discriminate|].
  destruct (JSON_parse cleanedText) as [msg|v] eqn:Hparse; [discriminate|].
  destruct v as [| | | | | |items|]; try discriminate.
  destruct (renumber_from_inr _ _ _ Hp) as (Hl & Hn & _).
  exists ids, text, cleanedText, items, out. cbn [reply calls]. auto 10.
Qed.

(** *** The summary endpoint *)

(** X27.  Without a message (absent, empty, zero, false or null) the
    summary endpoint answers 400 and does not call the service.  With one
    it calls the service exactly once: the text that comes back is wrapped
    as the single part of the single candidate, and a failure is answered
    429 when the error's status or text says 429 and 500 otherwise. *)
Theorem summary_behaviour (message : value) :
  (truthy message = false ->
   http (summary_reply (post_summary message)) = 400 /\
   sent (post_summary message) = []) /\
  (truthy message = true ->
   sent (post_summary message) = [message] /\
   (forall text,
       sendMessage message = inr text ->
       summary_reply (post_summary message) =
         mkResponse 200 (JsonBody (candidates text))) /\
   (forall error,
       sendMessage message = inl error ->
       summary_reply (post_summary message) =
         if isRateLimitError error then rate_limited else summary_failed)).
Proof.
  unfold post_summary. split; intros Ht; rewrite Ht; cbn [negb].
  - now split.
  - destruct (sendMessage message) as [e|text]; cbn [sent summary_reply].
    + split; [reflexivity|]. split; [discriminate|].
      intros error H. inversion H; subst. unfold handleGeminiError.
      now destruct (isRateLimitError error).
    + split; [reflexivity|]. split; [|discriminate].
      intros t H. now inversion H.
Qed.
End Server.

(** ** The theorems on the sample data *)

(** C1 on a sample: customer 1 submits a score of 720. *)
Lemma submit_status_by_thresholds_witness :
  exists a,
    response (post_assessment_submit Number_decimal submit_720 10 11 one_customer) =
      mkResponse 201 (AssessmentBody submitted a) /\
    a_status a = "Approved".
Proof.
  destruct (submit_status_by_thresholds Number_decimal submit_720 10 11 one_customer 1
              eq_refl eq_refl eq_refl eq_refl eq_refl eq_refl)
    as ((a & Hr & _ & _ & Hst) & _).
  exists a. split; [exact Hr | exact Hst].
Defined.

(** Claim C2 does not hold of the server.  Customer 5 does not exist: the reply is the
    generic 500 that carries the foreign-key error of the insert, not a
    Not Found, and the insert was attempted (an id was drawn). *)
Lemma submit_unknown_customer_is_a_500 :
  response (post_assessment_submit Number_decimal submit_for_5 10 11 one_customer) =
    mkResponse 500
      (ErrorBody ("Failed to submit assessment: " ++ message ForeignKeyViolation)) /\
  http (response (post_assessment_submit Number_decimal submit_for_5 10 11 one_customer))
    <> 404 /\
  assessment_seq (after (post_assessment_submit Number_decimal submit_for_5 10 11 one_customer))
    = assessment_seq one_customer + 1.
Proof. repeat split. discriminate. Qed.

(** C2 on a sample: a submission for customer 5, who does not exist. *)
Lemma submit_unknown_customer_witness :
  exists e,
    response (post_assessment_submit Number_decimal submit_for_5 10 11 one_customer) =
      mkResponse 500 (ErrorBody ("Failed to submit assessment: " ++ message e)) /\
    same_rows one_customer
      (after (post_assessment_submit Number_decimal submit_for_5 10 11 one_customer)).
Proof.
  destruct (submit_unknown_customer Number_decimal submit_for_5 10 11 one_customer)
    as (e & Hr & _ & _ & Hrows & _).
  - intros cid H. inversion H. reflexivity.
  - exists e. split; [exact Hr | exact Hrows].
Defined.



(** Claim C4 does not hold of the server.  Both brackets are there, the
    closing one first: what is extracted is the [x] between them, which is
    not the part of the text from an opening bracket to a closing one.  And
    a text with no bracket is answered exactly as an outage of the service
    is: malformed output has no error kind of its own. *)
Lemma reversed_brackets_are_not_bracketed :
  extractJsonArray "]x[" = inr "x" /\ ~ bracketed "]x[" "x" /\
  reply (post_generate_questions JSON_parse_sample (service_answers "no brackets") ask) =
  reply (post_generate_questions JSON_parse_sample
           (service_fails (Error "socket hang up")) ask).
Proof.
  split; [reflexivity|]. split; [|reflexivity].
  intros (pre & mid & post & _ & Hout & _). discriminate Hout.
Qed.

(** C4 on samples: fenced text, no brackets, no closing bracket, and a
    bracketed text that does not parse. *)
Lemma sanitizer_behaviour_witness :
  extractJsonArray "Here: [two questions] Thanks!" = inr "[two questions]" /\
  reply (post_generate_questions JSON_parse_sample (service_answers "no brackets") ask)
    = generation_failed /\
  reply (post_generate_questions JSON_parse_sample (service_answers "[1, 2") ask)
    = generation_failed /\
  reply (post_generate_questions JSON_parse_sample (service_answers "[1, 2,]") ask)
    = generation_failed.
Proof.
  split; [|split; [|split]].
  - apply (proj1 (sanitizer_behaviour JSON_parse_sample (service_answers "")
                    "Here: [two questions] Thanks!"))
      with (pre := "Here: ") (mid := "two questions") (post := " Thanks!");
      reflexivity.
  - apply (proj1 (proj2 (sanitizer_behaviour JSON_parse_sample
                           (service_answers "no brackets") "no brackets")))
      with (ids := ["income"; "savings"]); [left|..]; reflexivity.
  - apply (proj1 (proj2 (sanitizer_behaviour JSON_parse_sample
                           (service_answers "[1, 2") "[1, 2")))
      with (ids := ["income"; "savings"]); [right|..]; reflexivity.
  - apply (proj1 (proj2 (proj2 (sanitizer_behaviour JSON_parse_sample
                                  (service_answers "[1, 2,]") "[1, 2,]"))
                    ask ["income"; "savings"] eq_refl eq_refl)
             "[1, 2,]" "Unexpected token" eq_refl eq_refl).
Defined.

(** C5 on a sample: two questions whose ids were [x] and [42]. *)
Lemma generated_ids_are_renumbered_witness :
  reply (post_generate_questions JSON_parse_sample
           (service_answers "Here: [two questions] Thanks!") ask) =
    mkResponse 200
      (JsonBody
         (VArr [VObj [("id", VStr "dynamic_question_1"); ("question", VStr "Do you budget?")];
                VObj [("question", VStr "Do you save?"); ("id", VStr "dynamic_question_2")]])) /\
  exists out,
    reply (post_generate_questions JSON_parse_sample
             (service_answers "Here: [two questions] Thanks!") ask) =
      mkResponse 200 (JsonBody (VArr out)) /\
    List.length out = 2%nat.
Proof.
  split; [reflexivity|].
  destruct (generated_ids_are_renumbered JSON_parse_sample
              (service_answers "Here: [two questions] Thanks!") ask
              ["income"; "savings"] "Here: [two questions] Thanks!" "[two questions]"
              [VObj [("id", VStr "x"); ("question", VStr "Do you budget?")];
               VObj [("question", VStr "Do you save?"); ("id", VNum 42)]]
              eq_refl eq_refl eq_refl eq_refl eq_refl)
    as (out & Hr & Hlen & _).
  exists out. split; [exact Hr | exact Hlen].
Defined.

(** Claim C9 does not hold of the server.  The service refuses a prompt as
    too long, with status 400: no quota is involved, yet the text of the
    error holds the digits 429 and the reply is the rate-limit one, not the
    reply of any other failure. *)
Lemma bad_request_is_answered_as_rate_limited :
  status too_long_error = Some 400 /\
  reply (post_generate_questions JSON_parse_sample (service_fails too_long_error) ask)
    = rate_limited /\
  rate_limited <> generation_failed.
Proof. repeat split. discriminate. Qed.

(** C9 on a sample: the service refuses with status 429. *)
Lemma service_failure_is_classified_witness :
  reply (post_generate_questions JSON_parse_sample (service_fails quota_error) ask)
    = rate_limited /\
  calls (post_generate_questions JSON_parse_sample (service_fails quota_error) ask)
    = [mkPrompt "Hindi" "income, savings"].
Proof.
  destruct (service_failure_is_classified JSON_parse_sample (service_fails quota_error) ask
              ["income"; "savings"] quota_error eq_refl eq_refl)
    as (Hc & _ & _ & Hs & _).
  split; [apply Hs; reflexivity | exact Hc].
Defined.

(** C6 on a sample: a payslip uploaded for assessment 1. *)
Lemma upload_is_announced_witness :
  exists f d m,
    file payslip = Some f /\
    response (post_documents_upload Number_decimal payslip 40 41 a_thread) =
      mkResponse 201 (DocumentBody uploaded d) /\
    messages (after (post_documents_upload Number_decimal payslip 40 41 a_thread)) =
      (messages a_thread ++ [m])%list /\
    m_sender m = "System" /\
    m_text m = upload_text "payslip.pdf" (Some "Payslip").
Proof.
  destruct (upload_is_announced Number_decimal payslip 40 41 a_thread eq_refl)
    as (f & d & m & Hf & Hr & _ & Hm & _ & Hs & _ & _ & Ht & _).
  exists f, d, m. repeat split; try assumption.
  rewrite Ht. inversion Hf. reflexivity.
Defined.

(** C7 on a sample: an upload with no file. *)
Lemma upload_without_file_or_id_witness :
  response (post_documents_upload Number_decimal no_file 40 41 a_thread) = nothing_to_upload /\
  after (post_documents_upload Number_decimal no_file 40 41 a_thread) = a_thread.
Proof.
  destruct (upload_without_file_or_id Number_decimal no_file 40 41 a_thread
              (or_introl eq_refl))
    as (Hr & _ & Ha & _).
  split; [exact Hr | exact Ha].
Defined.

(** C8 on a sample: three messages stored out of order. *)
Lemma messages_are_read_in_order_witness :
  response (get_assessment_messages Number_decimal "1" a_thread) =
    mkResponse 200
      (MessagesBody [mkMessage 2 "System" "uploaded" 20 1;
                     mkMessage 3 "Customer" "Done" 25 1;
                     mkMessage 1 "Bank Manager" "Please send your payslip" 30 1]) /\
  exists msgs,
    response (get_assessment_messages Number_decimal "1" a_thread) =
      mkResponse 200 (MessagesBody msgs) /\
    StronglySorted earlier msgs.
Proof.
  split; [reflexivity|].
  destruct (messages_are_read_in_order Number_decimal "1" a_thread 1 eq_refl eq_refl)
    as (msgs & Hr & Hs & _).
  exists msgs. split; [exact Hr | exact Hs].
Defined.

(** C10 on a sample: a status outside the three of the engine. *)
Lemma status_update_frame_witness :
  customers (after (patch_assessment_status Number_decimal "1" (VStr "Banana") 50 a_thread))
    = customers a_thread /\
  exists updated,
    response (patch_assessment_status Number_decimal "1" (VStr "Banana") 50 a_thread) =
      mkResponse 200 (UpdatedBody "Status updated successfully." updated) /\
    a_status updated = "Banana".
Proof.
  destruct (status_update_frame Number_decimal "1" (VStr "Banana") 50 a_thread 1
              eq_refl eq_refl eq_refl)
    as (Hc & _ & _ & _ & Hst).
  split; [exact Hc|].
  destruct (Hst "Banana" eq_refl) as ((u & Hr & _ & Hs) & _).
  exists u. split; [exact Hr | exact Hs].
Defined.

(** ** The further theorems on the sample data *)

Lemma a_thread_consistent : consistent a_thread.
Proof.
  unfold consistent, a_thread, has_customer, has_assessment. cbn.
  repeat split; repeat constructor; cbn; try lia; intuition discriminate.
Qed.

Lemma registry_of_one_ok : registry_ok registry_of_one.
Proof.
  unfold registry_ok, registry_of_one. cbn.
  repeat split; repeat constructor; cbn; try lia; intuition.
Qed.

Lemma bcrypt_sample_ok (p sl : string) :
  bcrypt_compare_sample p (bcrypt_hash_sample p sl) = true.
Proof. apply prefix_append. Qed.

(** X1 on a sample: the score of 720 that the server approves. *)
Lemma cleanup_docs_submit_thresholds_witness :
  exists a,
    response (cleanup_docs_submit Number_decimal submit_720 40 41 a_thread) =
      mkResponse 201 (AssessmentBody submitted a) /\
    a_status a = "Manual Review".
Proof.
  destruct (cleanup_docs_submit_thresholds Number_decimal submit_720 40 41 a_thread 1
              eq_refl eq_refl eq_refl eq_refl eq_refl)
    as (a & Hr & _ & _ & Hm & _).
  exists a. split; [exact Hr|]. apply Hm. cbn. lia.
Defined.

(** X4 on a sample: 499 against 700. *)
Lemma decide_is_monotone_witness : standing (decide 499) <= standing (decide 700).
Proof. apply decide_is_monotone. lia. Defined.

(** X6 on a sample: customer 1 has one assessment, with three messages. *)
Lemma latest_assessment_is_newest_witness :
  exists found,
    get_latest_assessment Number_decimal "1" a_thread = mkAnswer 200 (inr found) /\
    option_map thread_assessment found = Some first_assessment.
Proof.
  destruct (latest_assessment_is_newest Number_decimal "1" a_thread 1 eq_refl eq_refl)
    as (found & Hr & _).
  exists found. split; [exact Hr|]. inversion Hr. reflexivity.
Defined.

(** X7 on a sample: customer 1 submits again, later than the first time. *)
Lemma submit_then_latest_witness :
  exists a t,
    response (post_assessment_submit Number_decimal submit_720 40 41 a_thread) =
      mkResponse 201 (AssessmentBody submitted a) /\
    get_latest_assessment Number_decimal "1"
      (after (post_assessment_submit Number_decimal submit_720 40 41 a_thread)) =
      mkAnswer 200 (inr (Some t)) /\
    thread_assessment t = a.
Proof.
  destruct (submit_then_latest Number_decimal submit_720 40 41 a_thread 1 "1"
              eq_refl eq_refl eq_refl eq_refl eq_refl eq_refl eq_refl)
    as (a & t & Hr & Hl & Ht & _).
  - intros a [<-|[]] _. cbn. lia.
  - exists a, t. repeat split; assumption.
Defined.

(** X8 on a sample: the thread of assessment 1 after an upload. *)
Lemma handlers_keep_consistency_witness :
  consistent (after (post_documents_upload Number_decimal payslip 40 41 a_thread)).
Proof.
  apply (handlers_keep_consistency Number_decimal JSON_stringify_sample a_thread
           a_thread_consistent).
Defined.

(** X9 on a sample: a payslip for assessment 9, which does not exist. *)
Lemma upload_unknown_assessment_witness :
  response (post_documents_upload Number_decimal payslip_for_9 40 41 a_thread) =
    mkResponse 500 (ErrorBody "Failed to upload document.") /\
  same_rows a_thread (after (post_documents_upload Number_decimal payslip_for_9 40 41 a_thread)).
Proof.
  destruct (upload_unknown_assessment Number_decimal payslip_for_9 40 41 a_thread
              (mkFile "document-1-abc.pdf" "payslip.pdf") eq_refl eq_refl)
    as (Hr & _ & Hs).
  - intros aid H. inversion H. reflexivity.
  - split; [exact Hr | exact Hs].
Defined.

(** X10 on a sample: the two commits of the payslip upload. *)
Lemma upload_commits_twice_witness :
  exists mid,
    observable (post_documents_upload Number_decimal payslip 40 41 a_thread) =
      [mid; after (post_documents_upload Number_decimal payslip 40 41 a_thread)] /\
    messages mid = messages a_thread.
Proof.
  destruct (upload_commits_twice Number_decimal payslip 40 41 a_thread eq_refl)
    as (mid & d & m & Hob & _ & Hm & _).
  exists mid. split; [exact Hob | exact Hm].
Defined.


(** X12 on a sample: an update of assessment 1 with an empty body. *)
Lemma status_update_without_status_witness :
  http (response (patch_assessment_status Number_decimal "1" VUndefined 50 a_thread)) = 200 /\
  map a_status (assessments (after (patch_assessment_status Number_decimal "1" VUndefined
                                      50 a_thread))) = ["Approved"].
Proof.
  destruct (status_update_without_status Number_decimal "1" 50 a_thread 1
              eq_refl eq_refl eq_refl) as (H200 & _).
  split; [exact H200 | reflexivity].
Defined.

(** X13 on a sample: the customer answers in the thread of assessment 1. *)
Lemma message_post_then_read_witness :
  exists m,
    response (post_assessment_message Number_decimal "1" (VStr "Customer") (VStr "Sent")
                60 a_thread) =
      mkResponse 201 (NewMessageBody "Message sent successfully." m) /\
    m_text m = "Sent" /\
    exists msgs,
      response (get_assessment_messages Number_decimal "1"
                  (after (post_assessment_message Number_decimal "1" (VStr "Customer")
                            (VStr "Sent") 60 a_thread))) =
        mkResponse 200 (MessagesBody msgs) /\
      In m msgs.
Proof.
  destruct (message_post_then_read Number_decimal "1" "Customer" "Sent" 60 a_thread 1
              eq_refl eq_refl eq_refl)
    as (m & Hr & _ & Ht & _ & _ & _ & _ & _ & _ & (msgs & Hg & Hin & _) & _).
  exists m. split; [exact Hr|]. split; [exact Ht|].
  exists msgs. split; [exact Hg | exact Hin].
Defined.

(** X14 on a sample: a message with no text. *)
Lemma message_post_refusals_witness :
  response (post_assessment_message Number_decimal "1" (VStr "Customer") VUndefined
              60 a_thread) =
    mkResponse 500 (ErrorBody "Failed to send message.") /\
  same_rows a_thread
    (after (post_assessment_message Number_decimal "1" (VStr "Customer") VUndefined
              60 a_thread)).
Proof.
  destruct (message_post_refusals Number_decimal "1" (VStr "Customer") VUndefined 60
              a_thread) as (Hr & _ & Hs).
  - intros n _ _ _. reflexivity.
  - split; [exact Hr | exact Hs].
Defined.

(** X15 on a sample: the reviewer asks for a payslip. *)
Lemma request_docs_appends_witness :
  exists m,
    response (post_request_docs Number_decimal JSON_stringify_sample "1"
                (VArr [VStr "Payslip"]) 60 a_thread) =
      mkResponse 201 (NewMessageBody "Document request sent successfully." m) /\
    m_sender m = "Bank Manager" /\
    m_text m = "{type:document_request,docTypes:[Payslip]}".
Proof.
  destruct (request_docs_appends Number_decimal JSON_stringify_sample "1"
              (VArr [VStr "Payslip"]) 60 a_thread 1 eq_refl eq_refl eq_refl)
    as (m & Hr & Hs & Ht & _).
  exists m. split; [exact Hr|]. split; [exact Hs | exact Ht].
Defined.

(** X16 on a sample: the list over the store of the thread. *)
Lemma assessments_listed_newest_first_witness :
  exists listed,
    get_assessments a_thread = mkAnswer 200 (inr listed) /\
    map listed_customer listed = [("Alice", "Rao")].
Proof.
  destruct (assessments_listed_newest_first a_thread) as (listed & Hr & _).
  - repeat constructor.
  - exists listed. split; [exact Hr|]. inversion Hr. reflexivity.
Defined.

(** X19 on a sample: seeding an empty table, then logging in. *)
Lemma seed_then_bank_login_witness :
  post_bank_login bcrypt_compare_sample (VStr ADITI_ADMIN) (VStr adminPassword)
    (bank_after (main bcrypt_hash_sample "salt" no_bank_users))
  = mkAnswer 200 (inr (mkBankLoggedIn "Login successful!" ADITI_ADMIN)).
Proof.
  apply (seed_then_bank_login bcrypt_hash_sample bcrypt_compare_sample "salt"
           no_bank_users bcrypt_sample_ok).
Defined.

(** X21 on a sample: a second registration with the email of customer 1. *)
Lemma register_duplicate_witness :
  post_register Number_decimal bcrypt_hash_sample alice_again "salt" 70 registry_of_one =
    (mkRegistry one_customer 3, mkAnswer 400 (inl already_exists)).
Proof.
  apply (register_duplicate Number_decimal bcrypt_hash_sample "Alicia" "Rao" "F" (VNum 30)
           "9000000003" "alice@example.com" "ZZZZZ0000Z" "000789" "secret" "salt" 70
           registry_of_one 30 alice eq_refl eq_refl).
  - now left.
  - right. left. reflexivity.
Defined.

(** X22 on a sample: Bob registers, then logs in. *)
Lemma register_then_login_witness :
  snd (post_register Number_decimal bcrypt_hash_sample bob_registers "salt" 70
         registry_of_one) =
    mkAnswer 201
      (inr (mkRegistered "Customer registered successfully!" 2 "Bob" "Iyer"
              "bob@example.com")) /\
  exists body,
    post_login bcrypt_compare_sample (VStr "bob@example.com") (VStr "secret")
      (rows (fst (post_register Number_decimal bcrypt_hash_sample bob_registers "salt" 70
                    registry_of_one))) =
      mkAnswer 200 (inr body) /\
    data_id (login_customer body) = 2.
Proof.
  destruct (register_then_login Number_decimal bcrypt_hash_sample bcrypt_compare_sample
              "Bob" "Iyer" "M" (VNum 41) "9000000002" "bob@example.com" "PQRSX6789K"
              "000456" "secret" "salt" 70 registry_of_one 41 eq_refl eq_refl)
    as (Hr & _ & body & Hl & Hid & _).
  - intros c [<-|[]] [H|[H|[H|H]]]; discriminate H.
  - exact bcrypt_sample_ok.
  - split; [exact Hr|]. exists body. split; [exact Hl | exact Hid].
Defined.

(** X23 on a sample: the table after Bob registered. *)
Lemma register_keeps_registry_witness :
  registry_ok (fst (post_register Number_decimal bcrypt_hash_sample bob_registers "salt" 70
                      registry_of_one)).
Proof.
  apply (register_keeps_registry Number_decimal bcrypt_hash_sample bob_registers "salt" 70
           registry_of_one registry_of_one_ok).
Defined.

(** X24 on samples: a fenced array, and brackets in the other order. *)
Lemma extracted_text_kinds_witness :
  extractJsonArray "[two questions]" = inr "[two questions]" /\
  extractJsonArray "x" = inl no_array.
Proof.
  split.
  - destruct (extracted_text_kinds "Here: [two questions] Thanks!" "[two questions]"
                eq_refl) as [[_ H]|[H _]]; [exact H | discriminate H].
  - destruct (extracted_text_kinds "]x[" "x" eq_refl) as [[_ H]|[_ [_ H]]];
      [discriminate H | exact H].
Defined.

(** X25 on a sample: the second of two items is [null]. *)
Lemma null_item_fails_whole_witness :
  reply (post_generate_questions JSON_parse_null (service_answers "[q, null]") ask)
  = generation_failed.
Proof.
  apply (null_item_fails_whole JSON_parse_null (service_answers "[q, null]") ask
           ["income"; "savings"] "[q, null]" "[q, null]"
           [VObj [("question", VStr "Do you budget?")]; VNull]
           eq_refl eq_refl eq_refl eq_refl).
  right. now left.
Defined.

(** X26 on a sample: the two questions of the fenced answer. *)
Lemma generate_200_only_from_parsed_array_witness :
  exists items out,
    JSON_parse_sample "[two questions]" = inr (VArr items) /\
    reply (post_generate_questions JSON_parse_sample
             (service_answers "Here: [two questions] Thanks!") ask) =
      mkResponse 200 (JsonBody (VArr out)) /\
    List.length out = List.length items.
Proof.
  destruct (generate_200_only_from_parsed_array JSON_parse_sample
              (service_answers "Here: [two questions] Thanks!") ask eq_refl)
    as (ids & text & cleaned & items & out & _ & _ & Hg & Hex & Hp & _ & Hr & Hl).
  exists items, out. inversion Hg; subst text. inversion Hex; subst cleaned.
  split; [exact Hp|]. split; [exact Hr | exact Hl].
Defined.
